(** * sarif2html: the SARIF to HTML report generator

    A shallow embedding of [src/sarif2html.py] (class [SarifToHtmlConverter]
    and [main]) and the properties of it that the specification states.

    The program is dynamically typed Python over the value that [json.load]
    returns, so the embedding starts with that value universe and with the
    handful of Python operations the program applies to it ([.get], [x[0]],
    truth testing, [len], iteration, hashing and [==] of dictionary keys,
    [str]).  A Python exception is a [Raise] in the [py] type; a
    [try]/[except] is a [match] on it. *)

From Stdlib Require Import List String Ascii Bool Arith ZArith QArith Lia.
From Stdlib Require Import DecimalString Permutation Sorted.
Import ListNotations.

Local Open Scope string_scope.
Local Open Scope list_scope.
Local Open Scope nat_scope.

(* ================================================================== *)
(** ** Python values and exceptions *)

(** What [json.load] builds: [None], [bool], [int], [float], [str], [list]
    and [dict] with string keys.  A [float] is given by its exact (rational)
    value; the literals [NaN] and [Infinity], which are not JSON, are left
    out.  A [str] is held as its UTF-8 bytes.  A [dict] is the list of its
    items in insertion order; its keys are distinct, and [lookup] takes
    the first item of a key. *)
#[local] Unset Elimination Schemes.
Inductive json : Type :=
| JNull
| JBool (b : bool)
| JInt (n : Z)
| JFloat (q : Q)
| JStr (s : string)
| JArr (l : list json)
| JObj (items : list (string * json)).
#[local] Set Elimination Schemes.

(** The exceptions the program can meet. *)
Inductive exn : Type :=
| AttributeError
| TypeError
| KeyError
| IndexError
| OSError
| JSONDecodeError
| UnicodeError.

Inductive py (A : Type) : Type :=
| Ok (a : A)
| Raise (e : exn).
Arguments Ok {A} a.
Arguments Raise {A} e.

Definition bind {A B} (m : py A) (k : A -> py B) : py B :=
  match m with
  | Ok a => k a
  | Raise e => Raise e
  end.

Declare Scope py_scope.
Delimit Scope py_scope with py.
Notation "x <- m ;; k" := (bind m (fun x => k))
  (at level 61, m at next level, right associativity) : py_scope.
Notation "' p <- m ;; k" := (bind m (fun x => match x with p => k end))
  (at level 61, p pattern, m at next level, right associativity) : py_scope.
Local Open Scope py_scope.

Definition is_ok {A} (m : py A) : bool :=
  match m with Ok _ => true | Raise _ => false end.

(** [try: m except: d] with a handler that returns a value. *)
Definition try_except {A} (m : py A) (handler : exn -> A) : A :=
  match m with
  | Ok a => a
  | Raise e => handler e
  end.

(* ------------------------------------------------------------------ *)
(** *** Text *)

(** A byte of the form 10xxxxxx continues a UTF-8 code point. *)
Definition is_continuation (a : ascii) : bool :=
  (128 <=? nat_of_ascii a) && (nat_of_ascii a <? 192).

Definition continues (s : string) : bool :=
  match s with
  | String b _ => is_continuation b
  | EmptyString => false
  end.

(** The characters of a [str], each as the bytes that encode it. *)
Fixpoint code_points (s : string) : list string :=
  match s with
  | EmptyString => []
  | String a s' =>
      match code_points s' with
      | c :: cs =>
          if continues s' then String a c :: cs
          else String a EmptyString :: c :: cs
      | [] => [String a EmptyString]
      end
  end.

Definition str_of_nat (n : nat) : string :=
  NilZero.string_of_uint (Nat.to_uint n).

Definition str_of_Z (z : Z) : string :=
  NilZero.string_of_int (Z.to_int z).

(* ------------------------------------------------------------------ *)
(** *** Dictionaries built by [json.load] *)

Fixpoint lookup (k : string) (items : list (string * json)) : option json :=
  match items with
  | [] => None
  | (k', v) :: rest => if String.eqb k k' then Some v else lookup k rest
  end.

(** [x.get(k, d)]: only a [dict] has the method. *)
Definition py_get (x : json) (k : string) (d : json) : py json :=
  match x with
  | JObj items =>
      match lookup k items with
      | Some v => Ok v
      | None => Ok d
      end
  | _ => Raise AttributeError
  end.

(** [x[k]] with a string [k]. *)
Definition py_item (x : json) (k : string) : py json :=
  match x with
  | JObj items =>
      match lookup k items with
      | Some v => Ok v
      | None => Raise KeyError
      end
  | _ => Raise TypeError
  end.

(** [x[0]]. *)
Definition py_index0 (x : json) : py json :=
  match x with
  | JArr (a :: _) => Ok a
  | JArr [] => Raise IndexError
  | JStr s =>
      match code_points s with
      | c :: _ => Ok (JStr c)
      | [] => Raise IndexError
      end
  | JObj _ => Raise KeyError
  | _ => Raise TypeError
  end.

(** Truth value of an object, as [if x:] tests it. *)
Definition truthy (x : json) : bool :=
  match x with
  | JNull => false
  | JBool b => b
  | JInt n => negb (n =? 0)%Z
  | JFloat q => negb (Qeq_bool q 0)
  | JStr s => negb (String.eqb s "")
  | JArr l => match l with [] => false | _ => true end
  | JObj items => match items with [] => false | _ => true end
  end.

(** [len(x)]. *)
Definition py_len (x : json) : py nat :=
  match x with
  | JStr s => Ok (List.length (code_points s))
  | JArr l => Ok (List.length l)
  | JObj items => Ok (List.length items)
  | _ => Raise TypeError
  end.

(** The items a [for] loop over [x] visits: the elements of a list, the
    characters of a string, the keys of a dict. *)
Definition py_iter (x : json) : py (list json) :=
  match x with
  | JStr s => Ok (map JStr (code_points s))
  | JArr l => Ok l
  | JObj items => Ok (map (fun kv => JStr (fst kv)) items)
  | _ => Raise TypeError
  end.

(* ------------------------------------------------------------------ *)
(** *** Keys of dictionaries and members of sets *)

(** Lists and dicts cannot be hashed: using one as a key raises. *)
Definition hashable (x : json) : bool :=
  match x with
  | JArr _ | JObj _ => false
  | _ => true
  end.

Definition py_hash (x : json) : py unit :=
  if hashable x then Ok tt else Raise TypeError.

(** The number a [bool], [int] or [float] stands for. *)
Definition numeric (x : json) : option Q :=
  match x with
  | JBool b => Some (if b then 1 else 0)%Q
  | JInt n => Some (inject_Z n)
  | JFloat q => Some q
  | _ => None
  end.

(** [x == y] for values that can be keys: [None] equals itself, strings
    compare by content, and [bool], [int] and [float] compare by value
    ([True == 1 == 1.0]).  The program compares a list or a dict only with
    a string literal, and that is [False]. *)
Definition py_eq (x y : json) : bool :=
  match x, y with
  | JNull, JNull => true
  | JStr a, JStr b => String.eqb a b
  | _, _ =>
      match numeric x, numeric y with
      | Some a, Some b => Qeq_bool a b
      | _, _ => false
      end
  end.

(** A [defaultdict(int)], as its items in insertion order: [d[k] += 1]. *)
Fixpoint incr (k : json) (d : list (json * nat)) : list (json * nat) :=
  match d with
  | [] => [(k, 1)]
  | (k', n) :: rest =>
      if py_eq k' k then (k', S n) :: rest else (k', n) :: incr k rest
  end.

(** [d[k]] of a [defaultdict(int)] read without inserting. *)
Fixpoint count_of (k : json) (d : list (json * nat)) : nat :=
  match d with
  | [] => 0
  | (k', n) :: rest => if py_eq k' k then n else count_of k rest
  end.

(** A [set], as its members in insertion order: [s.add(k)]. *)
Fixpoint set_add (k : json) (s : list json) : list json :=
  match s with
  | [] => [k]
  | k' :: rest => if py_eq k' k then k' :: rest else k' :: set_add k rest
  end.

(* ================================================================== *)
(** ** The converter: statistics and categories *)

(** The fields [__init__] sets; [sarif_file] is the path as it was given. *)
Record converter : Type := {
  sarif_file : string;
  data : json;
  results : json;
  notifications : json
}.

(** The [stats] dictionary while the loop of [get_statistics] runs. *)
Record stats : Type := {
  total : nat;
  errors : nat;
  warnings : nat;
  notes : nat;
  files : list json;
  rules : list json;
  by_level : list (json * nat);
  by_file : list (json * nat)
}.

(** The same dictionary as returned: the two sets replaced by their sizes. *)
Record statistics : Type := {
  stat_total : nat;
  stat_errors : nat;
  stat_warnings : nat;
  stat_notes : nat;
  stat_files : nat;
  stat_rules : nat;
  stat_by_level : list (json * nat);
  stat_by_file : list (json * nat)
}.

Definition level_of (result : json) : py json :=
  py_get result "level" (JStr "warning").

(** Lines 57-65: the raw level is counted under its own key, and one of
    the three counters moves when it is one of the three names. *)
Definition count_level (st : stats) (level : json) : stats :=
  let bl := incr level st.(by_level) in
  if py_eq level (JStr "error") then
    {| total := st.(total); errors := S st.(errors);
       warnings := st.(warnings); notes := st.(notes);
       files := st.(files); rules := st.(rules);
       by_level := bl; by_file := st.(by_file) |}
  else if py_eq level (JStr "warning") then
    {| total := st.(total); errors := st.(errors);
       warnings := S st.(warnings); notes := st.(notes);
       files := st.(files); rules := st.(rules);
       by_level := bl; by_file := st.(by_file) |}
  else if py_eq level (JStr "note") then
    {| total := st.(total); errors := st.(errors);
       warnings := st.(warnings); notes := S st.(notes);
       files := st.(files); rules := st.(rules);
       by_level := bl; by_file := st.(by_file) |}
  else
    {| total := st.(total); errors := st.(errors);
       warnings := st.(warnings); notes := st.(notes);
       files := st.(files); rules := st.(rules);
       by_level := bl; by_file := st.(by_file) |}.

Definition count_file (st : stats) (uri : json) : stats :=
  {| total := st.(total); errors := st.(errors);
     warnings := st.(warnings); notes := st.(notes);
     files := set_add uri st.(files); rules := st.(rules);
     by_level := st.(by_level); by_file := incr uri st.(by_file) |}.

Definition count_rule (st : stats) (rule : json) : stats :=
  {| total := st.(total); errors := st.(errors);
     warnings := st.(warnings); notes := st.(notes);
     files := st.(files); rules := set_add rule st.(rules);
     by_level := st.(by_level); by_file := st.(by_file) |}.

(** Lines 68-69: the URI of the first location, when [locations] is
    truthy; [None] otherwise. *)
Definition first_uri (result : json) : py json :=
  locs <- py_get result "locations" JNull ;;
  if truthy locs then
    locs <- py_item result "locations" ;;
    loc <- py_index0 locs ;;
    physical <- py_get loc "physicalLocation" (JObj []) ;;
    artifact <- py_get physical "artifactLocation" (JObj []) ;;
    py_get artifact "uri" JNull
  else Ok JNull.

(** Lines 75-76: the rule identifier, when truthy; [None] otherwise. *)
Definition rule_of (result : json) : py json :=
  rid <- py_get result "ruleId" JNull ;;
  if truthy rid then py_item result "ruleId" else Ok JNull.

(** The body of the loop of [get_statistics] (lines 57-76). *)
Definition stats_step (st : stats) (result : json) : py stats :=
  level <- level_of result ;;
  _ <- py_hash level ;;
  let st := count_level st level in
  uri <- first_uri result ;;
  st <- (if truthy uri then _ <- py_hash uri ;; Ok (count_file st uri)
         else Ok st) ;;
  rule <- rule_of result ;;
  if truthy rule then _ <- py_hash rule ;; Ok (count_rule st rule)
  else Ok st.

Fixpoint stats_loop (st : stats) (rs : list json) : py stats :=
  match rs with
  | [] => Ok st
  | result :: rest => st' <- stats_step st result ;; stats_loop st' rest
  end.

Definition stats_init (n : nat) : stats :=
  {| total := n; errors := 0; warnings := 0; notes := 0;
     files := []; rules := []; by_level := []; by_file := [] |}.

Definition stats_final (st : stats) : statistics :=
  {| stat_total := st.(total); stat_errors := st.(errors);
     stat_warnings := st.(warnings); stat_notes := st.(notes);
     stat_files := List.length st.(files); stat_rules := List.length st.(rules);
     stat_by_level := st.(by_level); stat_by_file := st.(by_file) |}.

(** [get_statistics] (lines 43-81). *)
Definition get_statistics (self : converter) : py statistics :=
  n <- py_len self.(results) ;;
  rs <- py_iter self.(results) ;;
  st <- stats_loop (stats_init n) rs ;;
  Ok (stats_final st).

(** The [categorized] dictionary, as its items in insertion order. *)
Definition groups : Type := list (json * list json).

Fixpoint has_key (k : json) (c : groups) : bool :=
  match c with
  | [] => false
  | (k', _) :: rest => py_eq k' k || has_key k rest
  end.

(** [c[k].append(r)] for a key that is present. *)
Fixpoint append_to (k r : json) (c : groups) : groups :=
  match c with
  | [] => []
  | (k', g) :: rest =>
      if py_eq k' k then (k', g ++ [r]) :: rest
      else (k', g) :: append_to k r rest
  end.

(** [c.get(k, [])]. *)
Fixpoint group_of (k : json) (c : groups) : list json :=
  match c with
  | [] => []
  | (k', g) :: rest => if py_eq k' k then g else group_of k rest
  end.

(** The body of the loop of [categorize_results] (lines 87-90). *)
Definition categorize_step (c : groups) (result : json) : py groups :=
  level <- level_of result ;;
  _ <- py_hash level ;;
  let c := if negb (has_key level c) then c ++ [(level, [])] else c in
  Ok (append_to level result c).

Fixpoint categorize_loop (c : groups) (rs : list json) : py groups :=
  match rs with
  | [] => Ok c
  | result :: rest => c' <- categorize_step c result ;; categorize_loop c' rest
  end.

Definition categorized_init : groups :=
  [(JStr "error", []); (JStr "warning", []); (JStr "note", [])].

(** [categorize_results] (lines 83-91). *)
Definition categorize_results (self : converter) : py groups :=
  rs <- py_iter self.(results) ;;
  categorize_loop categorized_init rs.

(* ================================================================== *)
(** ** Rendering *)

Local Open Scope string_scope.

(** [html.escape(s)] with its default [quote=True]: the five characters
    that can open markup, close it, or end an attribute value are replaced
    by entities. *)
Definition dquote : ascii := "034"%char.

Definition escape_char (a : ascii) : string :=
  if Ascii.eqb a "&" then "&amp;"
  else if Ascii.eqb a "<" then "&lt;"
  else if Ascii.eqb a ">" then "&gt;"
  else if Ascii.eqb a dquote then "&quot;"
  else if Ascii.eqb a "'" then "&#x27;"
  else String a EmptyString.

Fixpoint html_escape (s : string) : string :=
  match s with
  | EmptyString => EmptyString
  | String a s' => escape_char a ++ html_escape s'
  end.

(** [s.upper()] on ASCII letters. *)
Definition upper_char (a : ascii) : ascii :=
  let n := nat_of_ascii a in
  if ((97 <=? n) && (n <=? 122))%nat then ascii_of_nat (n - 32) else a.

Fixpoint upper (s : string) : string :=
  match s with
  | EmptyString => EmptyString
  | String a s' => String (upper_char a) (upper s')
  end.

(** A Rocq literal cannot hold a double quote.  In the template texts below
    a backquote, which the program's templates never use, stands for it and
    [tpl] puts the double quote back. *)
Fixpoint tpl (s : string) : string :=
  match s with
  | EmptyString => EmptyString
  | String a s' => String (if Ascii.eqb a "`" then dquote else a) (tpl s')
  end.

(** The style sheet of the page (lines 139-525), a constant. *)
Definition page_style : string :=
  tpl "        * {
            margin: 0;
            padding: 0;
            box-sizing: border-box;
        }

        body {
            font-family: -apple-system, BlinkMacSystemFont, 'Segoe UI', Roboto, sans-serif;
            background: #f5f7fa;
            color: #333;
            line-height: 1.6;
        }

        .container {
            max-width: 1200px;
            margin: 0 auto;
            padding: 2rem;
        }

        header {
            background: linear-gradient(135deg, #667eea 0%, #764ba2 100%);
            color: white;
            padding: 2rem;
            border-radius: 0.5rem;
            margin-bottom: 2rem;
            box-shadow: 0 4px 6px rgba(0, 0, 0, 0.1);
        }

        h1 {
            font-size: 2rem;
            margin-bottom: 0.5rem;
        }

        .report-meta {
            font-size: 0.9rem;
            opacity: 0.9;
            margin-top: 1rem;
            padding-top: 1rem;
            border-top: 1px solid rgba(255, 255, 255, 0.2);
        }

        .stats-grid {
            display: grid;
            grid-template-columns: repeat(auto-fit, minmax(200px, 1fr));
            gap: 1rem;
            margin-bottom: 2rem;
        }

        .stat-card {
            background: white;
            padding: 1.5rem;
            border-radius: 0.5rem;
            box-shadow: 0 2px 4px rgba(0, 0, 0, 0.1);
            border-left: 4px solid #667eea;
        }

        .stat-card.error {
            border-left-color: #e74c3c;
        }

        .stat-card.warning {
            border-left-color: #f39c12;
        }

        .stat-card.note {
            border-left-color: #3498db;
        }

        .stat-label {
            font-size: 0.9rem;
            color: #7f8c8d;
            text-transform: uppercase;
            letter-spacing: 0.05em;
            font-weight: 600;
        }

        .stat-value {
            font-size: 2.5rem;
            font-weight: 700;
            margin-top: 0.5rem;
            color: #2c3e50;
        }

        .stat-card.error .stat-value {
            color: #e74c3c;
        }

        .stat-card.warning .stat-value {
            color: #f39c12;
        }

        .stat-card.note .stat-value {
            color: #3498db;
        }

        .section {
            margin-bottom: 2rem;
        }

        .section-title {
            font-size: 1.5rem;
            font-weight: 700;
            margin-bottom: 1rem;
            padding-bottom: 0.5rem;
            border-bottom: 2px solid #667eea;
            display: flex;
            align-items: center;
            gap: 0.5rem;
        }

        .section-title.error {
            border-bottom-color: #e74c3c;
        }

        .section-title.warning {
            border-bottom-color: #f39c12;
        }

        .section-title.note {
            border-bottom-color: #3498db;
        }

        .severity-badge {
            display: inline-block;
            padding: 0.25rem 0.75rem;
            border-radius: 1rem;
            font-size: 0.75rem;
            font-weight: 600;
            text-transform: uppercase;
            letter-spacing: 0.05em;
        }

        .severity-badge.error {
            background: #fadbd8;
            color: #c0392b;
        }

        .severity-badge.warning {
            background: #fdebd0;
            color: #b8860b;
        }

        .severity-badge.note {
            background: #d6eaf8;
            color: #1f618d;
        }

        .result-item {
            background: white;
            border: 1px solid #ecf0f1;
            border-radius: 0.5rem;
            margin-bottom: 1rem;
            overflow: hidden;
            transition: all 0.2s;
            box-shadow: 0 1px 3px rgba(0, 0, 0, 0.05);
        }

        .result-item:hover {
            box-shadow: 0 4px 8px rgba(0, 0, 0, 0.1);
            border-color: #bdc3c7;
        }

        .result-header {
            padding: 1.5rem;
            border-left: 4px solid #667eea;
            background: #f9f9f9;
        }

        .result-item.error .result-header {
            border-left-color: #e74c3c;
        }

        .result-item.warning .result-header {
            border-left-color: #f39c12;
        }

        .result-item.note .result-header {
            border-left-color: #3498db;
        }

        .result-message {
            font-size: 1.1rem;
            font-weight: 600;
            color: #2c3e50;
            margin-bottom: 0.75rem;
        }

        .result-rule {
            font-family: 'Courier New', monospace;
            font-size: 0.85rem;
            color: #7f8c8d;
            word-break: break-all;
        }

        .result-body {
            padding: 1.5rem;
        }

        .result-section {
            margin-bottom: 1.5rem;
        }

        .result-section:last-child {
            margin-bottom: 0;
        }

        .result-section-title {
            font-size: 0.95rem;
            font-weight: 600;
            color: #2c3e50;
            margin-bottom: 0.5rem;
            text-transform: uppercase;
            letter-spacing: 0.03em;
        }

        .result-section-content {
            background: #f5f7fa;
            padding: 1rem;
            border-radius: 0.375rem;
            border-left: 3px solid #667eea;
        }

        .result-item.error .result-section-content {
            border-left-color: #e74c3c;
        }

        .result-item.warning .result-section-content {
            border-left-color: #f39c12;
        }

        .result-item.note .result-section-content {
            border-left-color: #3498db;
        }

        .location-info {
            display: grid;
            grid-template-columns: repeat(auto-fit, minmax(150px, 1fr));
            gap: 1rem;
            margin-bottom: 0.5rem;
        }

        .location-item {
            font-size: 0.9rem;
        }

        .location-label {
            font-weight: 600;
            color: #2c3e50;
        }

        .location-value {
            color: #7f8c8d;
            font-family: 'Courier New', monospace;
        }

        .code-snippet {
            background: #2c3e50;
            color: #ecf0f1;
            padding: 1rem;
            border-radius: 0.375rem;
            overflow-x: auto;
            font-family: 'Courier New', monospace;
            font-size: 0.85rem;
            line-height: 1.5;
            white-space: pre-wrap;
            word-wrap: break-word;
        }

        .tags {
            display: flex;
            flex-wrap: wrap;
            gap: 0.5rem;
        }

        .tag {
            background: #ecf0f1;
            color: #2c3e50;
            padding: 0.25rem 0.75rem;
            border-radius: 0.25rem;
            font-size: 0.8rem;
            border: 1px solid #bdc3c7;
        }

        .empty-state {
            background: #f9f9f9;
            padding: 2rem;
            border-radius: 0.5rem;
            text-align: center;
            color: #7f8c8d;
        }

        .notification-item {
            background: #fef5e7;
            border: 1px solid #f39c12;
            border-left: 4px solid #f39c12;
            padding: 1rem;
            margin-bottom: 1rem;
            border-radius: 0.375rem;
            color: #7d6608;
        }

        table {
            width: 100%;
            border-collapse: collapse;
            margin-top: 1rem;
            background: white;
            border-radius: 0.375rem;
            overflow: hidden;
            box-shadow: 0 1px 3px rgba(0, 0, 0, 0.05);
        }

        th {
            background: #f5f7fa;
            padding: 1rem;
            text-align: left;
            font-weight: 600;
            color: #2c3e50;
            border-bottom: 2px solid #ecf0f1;
        }

        td {
            padding: 1rem;
            border-bottom: 1px solid #ecf0f1;
        }

        tr:last-child td {
            border-bottom: none;
        }

        tr:hover {
            background: #f9f9f9;
        }

        .file-name {
            font-family: 'Courier New', monospace;
            color: #667eea;
            word-break: break-all;
        }

        footer {
            margin-top: 3rem;
            padding-top: 2rem;
            border-top: 1px solid #ecf0f1;
            text-align: center;
            color: #7f8c8d;
            font-size: 0.9rem;
        }

        @media print {
            body {
                background: white;
            }
            
            .result-item {
                page-break-inside: avoid;
            }
            
            header {
                color: #2c3e50;
                background: #f5f7fa;
                border: 1px solid #bdc3c7;
            }
        }

        @media (max-width: 768px) {
            .container {
                padding: 1rem;
            }

            header {
                padding: 1.5rem;
            }

            h1 {
                font-size: 1.5rem;
            }

            .stats-grid {
                grid-template-columns: repeat(auto-fit, minmax(150px, 1fr));
            }

            .location-info {
                grid-template-columns: 1fr;
            }
        }
".

(** The dictionary [get_location_info] returns. *)
Record location : Type := {
  file : json;
  start_line : json;
  start_column : json;
  end_line : json;
  end_column : json;
  snippet : json
}.

Definition location_default : location :=
  {| file := JStr "unknown";
     start_line := JStr "?"; start_column := JStr "?";
     end_line := JStr "?"; end_column := JStr "?";
     snippet := JStr "" |}.

(** The [try] block of [get_location_info] (lines 102-114). *)
Definition read_location (result : json) : py location :=
  locs <- py_get result "locations" (JArr [JObj []]) ;;
  loc <- py_index0 locs ;;
  physical <- py_get loc "physicalLocation" (JObj []) ;;
  artifact <- py_get physical "artifactLocation" (JObj []) ;;
  region <- py_get physical "region" (JObj []) ;;
  f <- py_get artifact "uri" (JStr "unknown") ;;
  sl <- py_get region "startLine" (JStr "?") ;;
  sc <- py_get region "startColumn" (JStr "?") ;;
  el <- py_get region "endLine" (JStr "?") ;;
  ec <- py_get region "endColumn" (JStr "?") ;;
  snip <- py_get region "snippet" (JObj []) ;;
  text <- py_get snip "text" (JStr "") ;;
  Ok {| file := f; start_line := sl; start_column := sc;
        end_line := el; end_column := ec; snippet := text |}.

(** [get_location_info] (lines 99-123): the bare [except] turns every
    exception of the block into the defaults. *)
Definition get_location_info (result : json) : location :=
  try_except (read_location result) (fun _ => location_default).

(** Lines 607-609 of [generate_html]. *)
Definition rule_id_of (result : json) : py json :=
  py_get result "ruleId" (JStr "unknown").

Definition message_of (x : json) : py json :=
  m <- py_get x "message" (JObj []) ;;
  py_get m "text" (JStr "").

Definition tags_of (result : json) : py json :=
  p <- py_get result "properties" (JObj []) ;;
  py_get p "tags" (JArr []).

(** What the process can see and change outside itself.  [written]
    lists, in order, each content a file was given: the empty text when
    it is created or emptied, then the text written to it. *)
Record world : Type := {
  stdout : list string;
  stderr : list string;
  written : list (string * string)
}.

Definition print (line : string) (w : world) : world :=
  {| stdout := w.(stdout) ++ [line]; stderr := w.(stderr);
     written := w.(written) |}.

Definition print_err (line : string) (w : world) : world :=
  {| stdout := w.(stdout); stderr := w.(stderr) ++ [line];
     written := w.(written) |}.

Definition record_write (path content : string) (w : world) : world :=
  {| stdout := w.(stdout); stderr := w.(stderr);
     written := w.(written) ++ [(path, content)] |}.

(** How a run of [main] ends: [sys.exit(status)], or an exception that
    nothing caught (the interpreter prints a traceback). *)
Inductive termination : Type :=
| Exit (status : nat)
| Crash (e : exn).

(** [sorted(items, key=lambda x: x[1], reverse=True)].  Python documents
    [sorted] as stable, also with [reverse=True]: items with equal keys
    keep their original order.  A stable insertion sort stands for it. *)
Fixpoint insert_desc {A} (x : A * nat) (l : list (A * nat)) : list (A * nat) :=
  match l with
  | [] => [x]
  | y :: rest =>
      if (snd y <? snd x)%nat then x :: y :: rest else y :: insert_desc x rest
  end.

Definition sorted_desc {A} (l : list (A * nat)) : list (A * nat) :=
  fold_left (fun acc x => insert_desc x acc) l [].

(** The parts of the platform the program calls and this file does not
    define: [str()] of a float, list or dict; the clock, already
    formatted; [Path.name] and [Path.stem]; reading the input and
    [json.load]; [open(path, 'w')], which creates the file or empties
    it; [f.write(text)] with the closing of the file, and what a write
    that raised had already put in the file (a part of the text, often
    nothing); the text of an exception. *)
Class platform : Type := {
  repr : json -> string;
  now : string;
  path_name : string -> string;
  path_stem : string -> string;
  read_text : string -> py string;
  json_loads : string -> py json;
  open_text : string -> py unit;
  write_text : string -> string -> py unit;
  flushed : string -> string -> string;
  describe : exn -> string
}.

Section Converter.

Context {P : platform}.

(** [str(x)], which is also how an f-string shows [x]. *)
Definition py_str (x : json) : string :=
  match x with
  | JNull => "None"
  | JBool true => "True"
  | JBool false => "False"
  | JInt n => str_of_Z n
  | JStr s => s
  | _ => repr x
  end.

(** [escape_html] (lines 93-97). *)
Definition escape_html (text : json) : string :=
  if negb (truthy text) then "" else html_escape (py_str text).

(** Runs the body of a loop that appends to [html_content]. *)
Fixpoint render_each {A} (f : A -> py string) (l : list A) : py string :=
  match l with
  | [] => Ok ""
  | x :: rest => h <- f x ;; t <- render_each f rest ;; Ok (h ++ t)
  end.

(** Lines 133-565: the page head and the statistics cards. *)
Definition render_head (name : string) (st : statistics) : string :=
  tpl "<!DOCTYPE html>
<html lang=`en`>
<head>
    <meta charset=`UTF-8`>
    <meta name=`viewport` content=`width=device-width, initial-scale=1.0`>
    <title>SARIF Report - "
  ++ escape_html (JStr name)
  ++ tpl "</title>
    <style>
"
  ++ page_style
  ++
  tpl "    </style>
</head>
<body>
    <div class=`container`>
        <header>
            <h1>📊 SARIF Analysis Report</h1>
            <p>Static Analysis Results Interchange Format</p>
            <div class=`report-meta`>
                <p><strong>File:</strong> "
  ++ escape_html (JStr name)
  ++ tpl "</p>
                <p><strong>Generated:</strong> "
  ++ now
  ++ tpl "</p>
            </div>
        </header>

        <!-- Statistics Section -->
        <div class=`stats-grid`>
            <div class=`stat-card`>
                <div class=`stat-label`>Total Issues</div>
                <div class=`stat-value`>"
  ++ str_of_nat st.(stat_total)
  ++ tpl "</div>
            </div>
            <div class=`stat-card error`>
                <div class=`stat-label`>Errors</div>
                <div class=`stat-value`>"
  ++ str_of_nat st.(stat_errors)
  ++ tpl "</div>
            </div>
            <div class=`stat-card warning`>
                <div class=`stat-label`>Warnings</div>
                <div class=`stat-value`>"
  ++ str_of_nat st.(stat_warnings)
  ++ tpl "</div>
            </div>
            <div class=`stat-card note`>
                <div class=`stat-label`>Notes</div>
                <div class=`stat-value`>"
  ++ str_of_nat st.(stat_notes)
  ++ tpl "</div>
            </div>
            <div class=`stat-card`>
                <div class=`stat-label`>Affected Files</div>
                <div class=`stat-value`>"
  ++ str_of_nat st.(stat_files)
  ++ tpl "</div>
            </div>
            <div class=`stat-card`>
                <div class=`stat-label`>Unique Rules</div>
                <div class=`stat-value`>"
  ++ str_of_nat st.(stat_rules)
  ++ tpl "</div>
            </div>
        </div>
".

(** Lines 577-582. *)
Definition render_notification (notif : json) : py string :=
  text <- message_of notif ;;
  Ok (
  tpl "
                <div class=`notification-item`>
                    "
  ++ escape_html text
  ++ tpl "
                </div>
").

(** Lines 568-586. *)
Definition render_notifications (notifs : json) : py string :=
  if truthy notifs then
    n <- py_len notifs ;;
    items <- py_iter notifs ;;
    body <- render_each render_notification items ;;
    Ok ((
  tpl "
        <!-- Notifications Section -->
        <div class=`section`>
            <div class=`section-title warning`>
                ⚠️ Build/Syntax Issues ("
  ++ str_of_nat n
  ++ tpl ")
            </div>
            <div>
")
      ++ body ++
  tpl "
            </div>
        </div>
")
  else Ok "".

(** Line 664. *)
Definition render_tag (tag : json) : string :=
  tpl "                            <span class=`tag`>" ++ escape_html tag
  ++ tpl "</span>
".

(** Lines 657-668. *)
Definition render_tags (tags : json) : py string :=
  if truthy tags then
    items <- py_iter tags ;;
    Ok (
  tpl "
                    <div class=`result-section`>
                        <div class=`result-section-title`>🏷️ Tags</div>
                        <div class=`tags`>
"
      ++ String.concat "" (map render_tag items) ++
  tpl "
                        </div>
                    </div>
")
  else Ok "".

(** Lines 648-654. *)
Definition render_snippet (loc_info : location) : string :=
  if truthy loc_info.(snippet) then
  tpl "
                    <div class=`result-section`>
                        <div class=`result-section-title`>💻 Code</div>
                        <div class=`code-snippet`>"
  ++ escape_html loc_info.(snippet)
  ++ tpl "</div>
                    </div>
"
  else "".

(** Lines 605-673: one finding of the block of [level]. *)
Definition render_result (level : string) (result : json) : py string :=
  let loc_info := get_location_info result in
  rule_id <- rule_id_of result ;;
  message <- message_of result ;;
  tags <- tags_of result ;;
  tags_html <- render_tags tags ;;
  Ok ((
  tpl "
            <div class=`result-item "
  ++ level
  ++ tpl "`>
                <div class=`result-header`>
                    <div class=`result-message`>
                        "
  ++ escape_html message
  ++ tpl "
                    </div>
                    <div class=`result-rule`>
                        Rule: "
  ++ escape_html rule_id
  ++ tpl "
                    </div>
                </div>
                <div class=`result-body`>
")
   ++ (
  tpl "
                    <div class=`result-section`>
                        <div class=`result-section-title`>📍 Location</div>
                        <div class=`result-section-content`>
                            <div class=`location-info`>
                                <div class=`location-item`>
                                    <div class=`location-label`>File:</div>
                                    <div class=`location-value file-name`>"
  ++ escape_html loc_info.(file)
  ++ tpl "</div>
                                </div>
                                <div class=`location-item`>
                                    <div class=`location-label`>Line:</div>
                                    <div class=`location-value`>"
  ++ py_str loc_info.(start_line)
  ++ tpl "</div>
                                </div>
                                <div class=`location-item`>
                                    <div class=`location-label`>Column:</div>
                                    <div class=`location-value`>"
  ++ py_str loc_info.(start_column)
  ++ tpl "</div>
                                </div>
                            </div>
                        </div>
                    </div>
")
   ++ render_snippet loc_info
   ++ tags_html ++
  tpl "
                </div>
            </div>
").

Definition icon_of (level : string) : string :=
  if String.eqb level "error" then "❌"
  else if String.eqb level "warning" then "⚠️"
  else "ℹ️".

(** Lines 591-677: the block of one level; nothing for an empty group. *)
Definition render_group (level : string) (results_by_level : list json)
    : py string :=
  match results_by_level with
  | [] => Ok ""
  | _ =>
      let level_title := upper level in
      let icon := icon_of level in
      let n := List.length results_by_level in
      body <- render_each (render_result level) results_by_level ;;
      Ok ((
  tpl "
        <!-- "
  ++ level_title
  ++ tpl " Section -->
        <div class=`section`>
            <div class=`section-title "
  ++ level
  ++ tpl "`>
                "
  ++ icon
  ++ tpl " "
  ++ level_title
  ++ tpl "s ("
  ++ str_of_nat n
  ++ tpl ")
            </div>
")
        ++ body ++
  tpl "
        </div>
")
  end.

(** Line 590 and the rest of the loop body. *)
Definition render_level (categorized : groups) (level : string) : py string :=
  render_group level (group_of (JStr level) categorized).

(** Line 589: the loop over the three level names. *)
Definition render_levels (categorized : groups) : py string :=
  render_each (render_level categorized) ["error"; "warning"; "note"].

(** Lines 698-703. *)
Definition render_file_row (row : json * nat) : string :=
  let '(file, count) := row in
  tpl "
                    <tr>
                        <td class=`file-name`>"
  ++ escape_html file
  ++ tpl "</td>
                        <td style=`text-align: right;`><strong>"
  ++ str_of_nat count
  ++ tpl "</strong></td>
                    </tr>
".

(** The rows of the table of files, in the order they are written. *)
Definition file_rows (st : statistics) : list (json * nat) :=
  sorted_desc st.(stat_by_file).

(** Lines 681-695 and 705-709: the text before and after the rows. *)
Definition file_summary_head : string :=
  tpl "
        <!-- File Summary -->
        <div class=`section`>
            <div class=`section-title`>
                📁 Issues by File
            </div>
            <table>
                <thead>
                    <tr>
                        <th>File</th>
                        <th style=`text-align: right;`>Count</th>
                    </tr>
                </thead>
                <tbody>
".

Definition file_summary_tail : string :=
  tpl "
                </tbody>
            </table>
        </div>
".

(** Lines 680-709. *)
Definition render_file_summary (st : statistics) : string :=
  match st.(stat_by_file) with
  | [] => ""
  | _ =>
      file_summary_head
      ++ String.concat "" (map render_file_row (file_rows st))
      ++ file_summary_tail
  end.

Definition render_footer : string :=
  tpl "
        <footer>
            <p>Generated by SARIF to HTML Converter</p>
        </footer>
    </div>
</body>
</html>
".

(** Lines 130-719: the text of the report. *)
Definition render (self : converter) : py string :=
  st <- get_statistics self ;;
  categorized <- categorize_results self ;;
  let head := render_head (path_name self.(sarif_file)) st in
  notifs <- render_notifications self.(notifications) ;;
  levels <- render_levels categorized ;;
  Ok (head ++ notifs ++ levels ++ render_file_summary st ++ render_footer).

(** [generate_html] (lines 125-729).  The [try] of lines 722-729 covers
    the [open], which empties the file, and the [write]. *)
Definition generate_html (self : converter) (output_file : option string)
    (w : world) : world * py (option string) :=
  let output_file :=
    match output_file with
    | Some o => o
    | None => path_stem self.(sarif_file) ++ "_report.html"
    end in
  match render self with
  | Raise e => (w, Raise e)
  | Ok html_content =>
      match open_text output_file with
      | Raise e =>
          (print_err ("✗ Error writing HTML file: " ++ describe e) w, Ok None)
      | Ok _ =>
          let w := record_write output_file "" w in
          match write_text output_file html_content with
          | Ok _ =>
              let w := record_write output_file html_content w in
              (print ("✓ HTML report generated: " ++ output_file) w,
               Ok (Some output_file))
          | Raise e =>
              let w := record_write output_file
                         (flushed output_file html_content) w in
              (print_err ("✗ Error writing HTML file: " ++ describe e) w,
               Ok None)
          end
      end
  end.

(** Lines 26-27 of [load_sarif]: [json.load] of the opened file. *)
Definition read_json (path : string) : py json :=
  text <- read_text path ;; json_loads text.

Definition set_data (self : converter) (d : json) : converter :=
  {| sarif_file := self.(sarif_file); data := d;
     results := self.(results); notifications := self.(notifications) |}.

Definition set_run (self : converter) (rs ns : json) : converter :=
  {| sarif_file := self.(sarif_file); data := self.(data);
     results := rs; notifications := ns |}.

(** Lines 29-33 of [load_sarif]: the findings and notifications of the
    first run, or those [self] has (the empty lists of [__init__]). *)
Definition first_run (self : converter) : py (json * json) :=
  runs <- py_get self.(data) "runs" JNull ;;
  if truthy runs then
    runs <- py_item self.(data) "runs" ;;
    run <- py_index0 runs ;;
    rs <- py_get run "results" (JArr []) ;;
    ns <- py_get run "toolExecutionNotifications" (JArr []) ;;
    Ok (rs, ns)
  else Ok (self.(results), self.(notifications)).

Definition load_failed (e : exn) (w : world) : world :=
  print_err ("✗ Error loading SARIF file: " ++ describe e) w.

(** [load_sarif] (lines 23-41).  The [except Exception] clause covers
    the whole body, the three [print] calls and their [len] included. *)
Definition load_sarif (self : converter) (w : world)
    : world * converter * bool :=
  match read_json self.(sarif_file) with
  | Raise e => (load_failed e w, self, false)
  | Ok d =>
      let self := set_data self d in
      match first_run self with
      | Raise e => (load_failed e w, self, false)
      | Ok (rs, ns) =>
          let self := set_run self rs ns in
          let w := print ("✓ Loaded SARIF file: "
                          ++ path_name self.(sarif_file)) w in
          match py_len rs with
          | Raise e => (load_failed e w, self, false)
          | Ok n =>
              let w := print ("  - " ++ str_of_nat n ++ " results found") w in
              match py_len ns with
              | Raise e => (load_failed e w, self, false)
              | Ok m =>
                  (print ("  - " ++ str_of_nat m ++ " notifications found") w,
                   self, true)
              end
          end
      end
  end.

(** [__init__] (lines 16-21). *)
Definition init (sarif_file : string) : converter :=
  {| sarif_file := sarif_file; data := JNull;
     results := JArr []; notifications := JArr [] |}.

Definition usage (w : world) : world :=
  print "  python sarif-to-html.py report.sarif output_report.html"
    (print "  python sarif-to-html.py report.sarif"
       (print "
Example:"
          (print "Usage: python sarif-to-html.py <sarif_file> [output_file]"
             w))).

(** [main] (lines 732-754), from [sys.argv] and the world it starts in. *)
Definition main (argv : list string) (w : world) : world * termination :=
  match argv with
  | _ :: sarif_file :: rest =>
      let output_file :=
        match rest with
        | o :: _ => Some o
        | [] => None
        end in
      let converter := init sarif_file in
      let '(w, converter, loaded) := load_sarif converter w in
      if negb loaded then (w, Exit 1)
      else
        match generate_html converter output_file w with
        | (w, Raise e) => (w, Crash e)
        | (w, Ok (Some html_file)) =>
            if negb (String.eqb html_file "") then
              (print ("
✓ Done! Open '" ++ html_file
                      ++ "' in your browser to view the report.") w, Exit 0)
            else (w, Exit 1)
        | (w, Ok None) => (w, Exit 1)
        end
  | _ => (usage w, Exit 1)
  end.

End Converter.

(* ================================================================== *)
(** * Properties *)

Local Open Scope list_scope.
Local Open Scope nat_scope.

(** ** Words of the specification *)

(** The finding has level [k]; a missing level is [warning]. *)
Definition has_level (k : json) (result : json) : bool :=
  match level_of result with
  | Ok level => py_eq level k
  | Raise _ => false
  end.

(** The level of the finding is none of the three names. *)
Definition other_level (result : json) : bool :=
  negb (has_level (JStr "error") result
        || has_level (JStr "warning") result
        || has_level (JStr "note") result).

Definition count_if {A} (p : A -> bool) (l : list A) : nat :=
  List.length (filter p l).

(* ------------------------------------------------------------------ *)
(** ** Equality of keys *)

Lemma py_eq_sym (x y : json) : py_eq x y = py_eq y x.
Proof.
  destruct x, y; simpl; try reflexivity;
    try apply Qeq_bool_comm; apply String.eqb_sym.
Qed.

Lemma Qeq_bool_left (a b c : Q) :
  Qeq_bool a b = true -> Qeq_bool a c = Qeq_bool b c.
Proof.
  intros Hab. destruct (Qeq_bool b c) eqn:Hbc.
  - now apply Qeq_bool_trans with b.
  - destruct (Qeq_bool a c) eqn:Hac; [|reflexivity].
    rewrite <- Hbc. symmetry. apply Qeq_bool_trans with a; [|exact Hac].
    now apply Qeq_bool_sym.
Qed.

(** Equal keys are equal to the same keys. *)
Lemma py_eq_left (x y z : json) :
  py_eq x y = true -> py_eq x z = py_eq y z.
Proof.
  destruct x, y; simpl; try discriminate; intros H;
    try (apply String.eqb_eq in H; subst; reflexivity);
    destruct z; simpl; try reflexivity; now apply Qeq_bool_left.
Qed.

Lemma py_eq_right (x y z : json) :
  py_eq x y = true -> py_eq z x = py_eq z y.
Proof.
  intros H. rewrite (py_eq_sym z x), (py_eq_sym z y). now apply py_eq_left.
Qed.

(** The three level names are different keys. *)
Lemma py_eq_str_str (x : json) (a b : string) :
  py_eq x (JStr a) = true -> py_eq x (JStr b) = String.eqb a b.
Proof.
  destruct x; simpl; try discriminate.
  intros H. apply String.eqb_eq in H. now subst.
Qed.

(* ------------------------------------------------------------------ *)
(** ** Counters *)

Lemma count_of_incr (k k' : json) (d : list (json * nat)) :
  count_of k (incr k' d)
  = count_of k d + (if py_eq k' k then 1 else 0).
Proof.
  induction d as [|[a n] d IH]; simpl.
  - destruct (py_eq k' k); reflexivity.
  - destruct (py_eq a k') eqn:Hak'; simpl.
    + rewrite <- (py_eq_left a k' k Hak').
      destruct (py_eq a k); lia.
    + destruct (py_eq a k) eqn:Hak; [|exact IH].
      rewrite py_eq_sym in Hak'.
      rewrite (py_eq_right a k k' Hak) in Hak'. rewrite Hak'. lia.
Qed.

Definition b2n (b : bool) : nat := if b then 1 else 0.

Lemma count_if_cons {A} (p : A -> bool) (x : A) (l : list A) :
  count_if p (x :: l) = b2n (p x) + count_if p l.
Proof. unfold count_if. simpl. destruct (p x); reflexivity. Qed.

Lemma bind_ok {A B} (m : py A) (k : A -> py B) (b : B) :
  bind m k = Ok b -> exists a, m = Ok a /\ k a = Ok b.
Proof. destruct m; simpl; [eauto | discriminate]. Qed.

(** Inverts the hypotheses of the form [bind m k = Ok b]. *)
Ltac bind_inv :=
  repeat match goal with
    | H : bind _ _ = Ok _ |- _ =>
        let a := fresh "a" in
        let E := fresh "E" in
        apply bind_ok in H; destruct H as (a & E & H)
    | H : Ok _ = Ok _ |- _ => injection H as H
    | H : (if ?c then _ else _) = Ok _ |- _ =>
        let C := fresh "C" in destruct c eqn:C
    end.

(** What one turn of the loop of [get_statistics] does to a successful
    state: the level, the URI and the rule it found, and the three
    updates in the order of the code. *)
Lemma stats_step_ok (st st' : stats) (r : json) :
  stats_step st r = Ok st' ->
  exists level uri rule,
    level_of r = Ok level /\ hashable level = true /\
    first_uri r = Ok uri /\ rule_of r = Ok rule /\
    (truthy uri = true -> hashable uri = true) /\
    (truthy rule = true -> hashable rule = true) /\
    st' = (fun s => if truthy rule then count_rule s rule else s)
            ((fun s => if truthy uri then count_file s uri else s)
               (count_level st level)).
Proof.
  unfold stats_step, py_hash. intros H.
  apply bind_ok in H. destruct H as (level & El & H).
  apply bind_ok in H. destruct H as (u & Eh & H).
  destruct (hashable level) eqn:Hh; [|discriminate].
  apply bind_ok in H. destruct H as (uri & Eu & H).
  apply bind_ok in H. destruct H as (s1 & E1 & H).
  apply bind_ok in H. destruct H as (rule & Er & H).
  exists level, uri, rule. repeat split; try assumption.
  - intros T. rewrite T in E1. now destruct (hashable uri).
  - intros T. rewrite T in H. now destruct (hashable rule).
  - destruct (truthy uri), (truthy rule); simpl in *;
      repeat match goal with
        | X : bind (if hashable ?v then _ else _) _ = _ |- _ =>
            destruct (hashable v)
        | X : bind (Raise _) _ = _ |- _ => discriminate X
        | X : bind (Ok _) _ = _ |- _ => simpl in X
        | X : Ok _ = Ok _ |- _ => injection X as X
        end; subst; reflexivity.
Qed.

Lemma count_level_fields (st : stats) (level : json) :
  let st' := count_level st level in
  total st' = total st /\
  errors st' = errors st + b2n (py_eq level (JStr "error")) /\
  warnings st' = warnings st + b2n (py_eq level (JStr "warning")) /\
  notes st' = notes st + b2n (py_eq level (JStr "note")) /\
  by_level st' = incr level (by_level st) /\
  by_file st' = by_file st /\ files st' = files st /\ rules st' = rules st.
Proof.
  unfold count_level.
  destruct (py_eq level (JStr "error")) eqn:He.
  { rewrite !(py_eq_str_str level "error" _ He). simpl. repeat split; lia. }
  destruct (py_eq level (JStr "warning")) eqn:Hw.
  { rewrite !(py_eq_str_str level "warning" _ Hw). simpl. repeat split; lia. }
  destruct (py_eq level (JStr "note")); simpl; repeat split; lia.
Qed.

(** The counters after one more finding. *)
Lemma stats_step_counts (st st' : stats) (r : json) :
  stats_step st r = Ok st' ->
  total st' = total st /\
  errors st' = errors st + b2n (has_level (JStr "error") r) /\
  warnings st' = warnings st + b2n (has_level (JStr "warning") r) /\
  notes st' = notes st + b2n (has_level (JStr "note") r) /\
  (forall k, count_of k (by_level st')
             = count_of k (by_level st) + b2n (has_level k r)).
Proof.
  intros H. apply stats_step_ok in H.
  destruct H as (level & uri & rule & El & _ & _ & _ & _ & _ & ->).
  unfold has_level. rewrite El.
  destruct (count_level_fields st level) as (Ht & He & Hw & Hn & Hl & _).
  assert (Hk : forall k, count_of k (incr level (by_level st))
                         = count_of k (by_level st) + b2n (py_eq level k))
    by (intros k; apply count_of_incr).
  destruct (truthy uri), (truthy rule); simpl;
    rewrite ?Hl; repeat split; assumption.
Qed.

Lemma stats_loop_counts (rs : list json) (st st' : stats) :
  stats_loop st rs = Ok st' ->
  total st' = total st /\
  errors st' = errors st + count_if (has_level (JStr "error")) rs /\
  warnings st' = warnings st + count_if (has_level (JStr "warning")) rs /\
  notes st' = notes st + count_if (has_level (JStr "note")) rs /\
  (forall k, count_of k (by_level st')
             = count_of k (by_level st) + count_if (has_level k) rs).
Proof.
  revert st. induction rs as [|r rs IH]; intros st H; simpl in H.
  - injection H as <-. unfold count_if. simpl. repeat split; lia.
  - apply bind_ok in H. destruct H as (s1 & E1 & H).
    apply stats_step_counts in E1. apply IH in H.
    destruct E1 as (T1 & E1 & W1 & N1 & L1).
    destruct H as (T2 & E2 & W2 & N2 & L2).
    rewrite !count_if_cons.
    repeat split; try lia.
    intros k. rewrite L2, L1, count_if_cons. lia.
Qed.

(** A finding [get_statistics] can count: an object whose level is a
    possible key, whose first location leads to a URI without a wrong
    turn, and whose URI and rule identifier, when truthy, are possible
    keys too. *)
Definition countable (result : json) : bool :=
  match level_of result, first_uri result, rule_of result with
  | Ok level, Ok uri, Ok rule =>
      hashable level
      && (negb (truthy uri) || hashable uri)
      && (negb (truthy rule) || hashable rule)
  | _, _, _ => false
  end.

Lemma stats_step_countable (st : stats) (r : json) :
  countable r = true -> exists st', stats_step st r = Ok st'.
Proof.
  unfold countable, stats_step, py_hash. intros H.
  destruct (level_of r) as [level|]; [|discriminate].
  destruct (first_uri r) as [uri|]; [|discriminate].
  destruct (rule_of r) as [rule|]; [|discriminate].
  apply andb_prop in H. destruct H as (H & Hr).
  apply andb_prop in H. destruct H as (Hl & Hu).
  simpl. rewrite Hl. simpl.
  destruct (truthy uri), (truthy rule); simpl in *;
    rewrite ?Hu, ?Hr; simpl; rewrite ?Hr; simpl; eauto.
Qed.

(** The loop of [get_statistics] ends normally on countable findings. *)
Lemma stats_loop_countable (rs : list json) (st : stats) :
  forallb countable rs = true -> exists st', stats_loop st rs = Ok st'.
Proof.
  revert st. induction rs as [|r rs IH]; intros st H; simpl in *.
  - eauto.
  - apply andb_prop in H. destruct H as (Hr & Hrs).
    destruct (stats_step_countable st r Hr) as (s1 & ->). simpl.
    now apply IH.
Qed.

Lemma get_statistics_list (self : converter) (rs : list json) :
  results self = JArr rs ->
  get_statistics self
  = (st <- stats_loop (stats_init (List.length rs)) rs ;; Ok (stats_final st))%py.
Proof. intros E. unfold get_statistics. rewrite E. reflexivity. Qed.

(** Every finding falls in exactly one of the four classes. *)
Lemma level_classes (r : json) :
  b2n (has_level (JStr "error") r) + b2n (has_level (JStr "warning") r)
  + b2n (has_level (JStr "note") r) + b2n (other_level r) = 1.
Proof.
  unfold other_level, has_level.
  destruct (level_of r) as [level|]; [|reflexivity].
  destruct (py_eq level (JStr "error")) eqn:He.
  { rewrite !(py_eq_str_str level "error" _ He). reflexivity. }
  destruct (py_eq level (JStr "warning")) eqn:Hw.
  { rewrite !(py_eq_str_str level "warning" _ Hw). reflexivity. }
  destruct (py_eq level (JStr "note")); reflexivity.
Qed.

Lemma level_classes_count (rs : list json) :
  count_if (has_level (JStr "error")) rs
  + count_if (has_level (JStr "warning")) rs
  + count_if (has_level (JStr "note")) rs
  + count_if other_level rs = List.length rs.
Proof.
  induction rs as [|r rs IH]; [reflexivity|].
  rewrite !count_if_cons. simpl List.length.
  pose proof (level_classes r). lia.
Qed.

Lemma stats_step_returns (st st' : stats) (r : json) :
  stats_step st r = Ok st' -> countable r = true.
Proof.
  intros H. apply stats_step_ok in H.
  destruct H as (level & uri & rule & El & Hl & Eu & Er & Hu & Hr & _).
  unfold countable. rewrite El, Eu, Er, Hl. simpl.
  destruct (truthy uri); [rewrite Hu by reflexivity|];
    destruct (truthy rule); [rewrite Hr by reflexivity| |rewrite Hr by reflexivity|];
    reflexivity.
Qed.

(** [get_statistics] returns exactly on the sequences of countable
    findings; on any other it raises. *)
Lemma get_statistics_returns (self : converter) (rs : list json) :
  results self = JArr rs ->
  is_ok (get_statistics self) = forallb countable rs.
Proof.
  intros E. rewrite (get_statistics_list self rs E). clear E.
  generalize (stats_init (List.length rs)).
  induction rs as [|r rs IH]; intros st; simpl; [reflexivity|].
  destruct (stats_step st r) as [s1|e] eqn:Hs; simpl.
  - rewrite (stats_step_returns st s1 r Hs). simpl. apply IH.
  - destruct (countable r) eqn:Hc; [|reflexivity].
    destruct (stats_step_countable st r Hc) as (s1 & Hs1). congruence.
Qed.

(** C2.  Whenever [get_statistics] returns statistics for a sequence
    [rs] of findings, errors + warnings + notes + (the number of
    findings whose level, [warning] when missing, is none of the three
    names) is the length of [rs], and [total] is the length of [rs]; and
    it does return them when every finding can be counted. *)
Theorem statistics_add_up (self : converter) (rs : list json) :
  results self = JArr rs ->
  (forall st,
     get_statistics self = Ok st ->
     stat_errors st + stat_warnings st + stat_notes st
       + count_if other_level rs = List.length rs /\
     stat_total st = List.length rs) /\
  (forallb countable rs = true -> exists st, get_statistics self = Ok st).
Proof.
  intros E. rewrite (get_statistics_list self rs E). split.
  - intros st H. apply bind_ok in H. destruct H as (s & Hs & H).
    injection H as <-. apply stats_loop_counts in Hs.
    destruct Hs as (Ht & He & Hw & Hn & _). simpl in *.
    rewrite Ht, He, Hw, Hn. split; [|reflexivity].
    apply level_classes_count.
  - intros Hc.
    destruct (stats_loop_countable rs (stats_init (List.length rs)) Hc)
      as (st & ->).
    simpl. eauto.
Qed.

Definition sample_findings : list json :=
  [ JObj [("level", JStr "error"); ("ruleId", JStr "R1")];
    JObj [("message", JObj [("text", JStr "no level")])];
    JObj [("level", JStr "info")];
    JObj [("level", JStr "note")] ].

Definition sample_converter : converter :=
  {| sarif_file := "report.sarif"; data := JNull;
     results := JArr sample_findings; notifications := JArr [] |}.

Lemma statistics_add_up_witness :
  (forall st,
     get_statistics sample_converter = Ok st ->
     stat_errors st + stat_warnings st + stat_notes st
       + count_if other_level sample_findings = 4 /\
     stat_total st = 4) /\
  (forallb countable sample_findings = true ->
   exists st, get_statistics sample_converter = Ok st).
Proof.
  apply (statistics_add_up sample_converter sample_findings).
  reflexivity.
Defined.

(** The statistics of the four sample findings. *)
Example sample_statistics :
  get_statistics sample_converter
  = Ok {| stat_total := 4; stat_errors := 1; stat_warnings := 1;
          stat_notes := 1; stat_files := 0; stat_rules := 1;
          stat_by_level := [(JStr "error", 1); (JStr "warning", 1);
                            (JStr "info", 1); (JStr "note", 1)];
          stat_by_file := [] |}.
Proof. reflexivity. Qed.

(** C3, as the code has it.  For findings that can be counted, the
    warnings statistic is the number of findings whose level is [warning]
    or missing — a finding with any other level moves none of the three
    counters — and the by-level map gives, for every key, the number of
    findings with that raw level. *)
Theorem warnings_and_raw_levels (self : converter) (rs : list json) :
  results self = JArr rs ->
  forallb countable rs = true ->
  exists st,
    get_statistics self = Ok st /\
    stat_warnings st = count_if (has_level (JStr "warning")) rs /\
    stat_errors st + stat_warnings st + stat_notes st
      = List.length rs - count_if other_level rs /\
    forall k, count_of k (stat_by_level st) = count_if (has_level k) rs.
Proof.
  intros E Hc. rewrite (get_statistics_list self rs E).
  destruct (stats_loop_countable rs (stats_init (List.length rs)) Hc)
    as (st & Hst).
  rewrite Hst. simpl. eexists. split; [reflexivity|].
  apply stats_loop_counts in Hst.
  destruct Hst as (Ht & He & Hw & Hn & Hl). simpl in *.
  rewrite He, Hw, Hn. repeat split.
  - pose proof (level_classes_count rs). lia.
  - intros k. now rewrite Hl.
Qed.

Lemma warnings_and_raw_levels_witness :
  exists st,
    get_statistics sample_converter = Ok st /\
    stat_warnings st = count_if (has_level (JStr "warning")) sample_findings /\
    stat_errors st + stat_warnings st + stat_notes st
      = 4 - count_if other_level sample_findings /\
    forall k, count_of k (stat_by_level st)
              = count_if (has_level k) sample_findings.
Proof.
  apply (warnings_and_raw_levels sample_converter sample_findings);
    reflexivity.
Defined.

(** C3 as the specification words it fails: one finding of level [info]
    is counted under its raw level and leaves the warnings counter at 0,
    while the findings whose level is [warning], missing or unrecognized
    number 1. *)
Lemma unrecognized_level_not_a_warning :
  let rs := [JObj [("level", JStr "info")]] in
  let self := {| sarif_file := "report.sarif"; data := JNull;
                 results := JArr rs; notifications := JArr [] |} in
  exists st,
    get_statistics self = Ok st /\
    stat_warnings st = 0 /\
    count_of (JStr "info") (stat_by_level st) = 1 /\
    count_if (fun r => has_level (JStr "warning") r || other_level r) rs = 1 /\
    stat_warnings st
      <> count_if (fun r => has_level (JStr "warning") r || other_level r) rs.
Proof.
  simpl. eexists. split; [reflexivity|]. simpl.
  repeat split; try reflexivity. discriminate.
Qed.

(* ------------------------------------------------------------------ *)
(** ** Categories *)

Lemma py_eq_refl (x : json) : hashable x = true -> py_eq x x = true.
Proof.
  destruct x; simpl; try discriminate; intros _;
    try apply Qeq_bool_refl; try reflexivity.
  apply String.eqb_refl.
Qed.

Lemma py_eq_hashable (x y : json) : py_eq x y = true -> hashable y = true.
Proof. destruct x, y; simpl; try discriminate; reflexivity. Qed.

Lemma group_of_snoc (k l : json) (c : groups) :
  group_of k (c ++ [(l, [])]) = group_of k c.
Proof.
  induction c as [|[a g] c IH]; simpl.
  - destruct (py_eq l k); reflexivity.
  - destruct (py_eq a k); [reflexivity | exact IH].
Qed.

Lemma has_key_snoc (k l : json) (g : list json) (c : groups) :
  has_key k (c ++ [(l, g)]) = has_key k c || py_eq l k.
Proof.
  induction c as [|[a h] c IH]; simpl.
  - apply orb_false_r.
  - rewrite IH. apply orb_assoc.
Qed.

Lemma has_key_append_to (k l r : json) (c : groups) :
  has_key k (append_to l r c) = has_key k c.
Proof.
  induction c as [|[a g] c IH]; simpl; [reflexivity|].
  destruct (py_eq a l); simpl; [reflexivity | now rewrite IH].
Qed.

(** Appending to the group of [l] shows in the group of [k] exactly when
    the two keys are equal. *)
Lemma group_of_append_to (k l r : json) (c : groups) :
  has_key l c = true ->
  group_of k (append_to l r c)
  = group_of k c ++ (if py_eq l k then [r] else []).
Proof.
  induction c as [|[a g] c IH]; simpl; [discriminate|].
  destruct (py_eq a l) eqn:Hal; simpl.
  - intros _. rewrite <- (py_eq_left a l k Hal).
    destruct (py_eq a k); [reflexivity | now rewrite app_nil_r].
  - intros Hc. destruct (py_eq a k) eqn:Hak.
    + rewrite (py_eq_left a k l Hak), py_eq_sym in Hal.
      rewrite Hal. now rewrite app_nil_r.
    + now apply IH.
Qed.

Lemma categorize_step_ok (c c' : groups) (r : json) :
  categorize_step c r = Ok c' ->
  exists level,
    level_of r = Ok level /\ hashable level = true /\
    c' = append_to level r
           (if negb (has_key level c) then c ++ [(level, [])] else c).
Proof.
  unfold categorize_step, py_hash. intros H.
  apply bind_ok in H. destruct H as (level & El & H).
  destruct (hashable level) eqn:Hh; [|discriminate].
  simpl in H. injection H as <-. now exists level.
Qed.

Lemma categorize_step_groups (c c' : groups) (r : json) :
  categorize_step c r = Ok c' ->
  forall k,
    group_of k c' = group_of k c ++ (if has_level k r then [r] else []) /\
    has_key k c' = has_key k c || has_level k r.
Proof.
  intros H k. apply categorize_step_ok in H.
  destruct H as (level & El & Hh & ->).
  unfold has_level. rewrite El.
  destruct (has_key level c) eqn:Hc; simpl.
  - rewrite has_key_append_to, (group_of_append_to k level r c Hc).
    split; [reflexivity|].
    destruct (py_eq level k) eqn:Hlk; [|now rewrite orb_false_r].
    rewrite orb_true_r. rewrite <- Hc.
    clear - Hlk. induction c as [|[a g] c IH]; simpl; [reflexivity|].
    rewrite IH. now rewrite (py_eq_right level k a Hlk).
  - rewrite has_key_append_to, has_key_snoc, group_of_append_to.
    + now rewrite group_of_snoc.
    + rewrite has_key_snoc, (py_eq_refl level Hh). apply orb_true_r.
Qed.

(** The groups after the loop: each is what it was, followed by the
    findings of its level in the order of the input. *)
Lemma categorize_loop_groups (rs : list json) (c c' : groups) :
  categorize_loop c rs = Ok c' ->
  forall k,
    group_of k c' = group_of k c ++ filter (has_level k) rs /\
    has_key k c' = has_key k c || existsb (has_level k) rs.
Proof.
  revert c. induction rs as [|r rs IH]; intros c H k; simpl in H.
  - injection H as <-. simpl. now rewrite app_nil_r, orb_false_r.
  - apply bind_ok in H. destruct H as (c1 & E1 & H).
    destruct (categorize_step_groups c c1 r E1 k) as (G1 & K1).
    destruct (IH c1 H k) as (G2 & K2).
    rewrite G2, G1, K2, K1. simpl.
    destruct (has_level k r); simpl;
      now rewrite <- ?app_assoc, ?app_nil_r, <- ?orb_assoc.
Qed.

(** No two groups have equal keys. *)
Fixpoint keys_distinct (c : groups) : bool :=
  match c with
  | [] => true
  | (k, _) :: rest => negb (has_key k rest) && keys_distinct rest
  end.

Definition keys_hashable (c : groups) : Prop :=
  Forall (fun kg => hashable (fst kg) = true) c.

(** All findings of all groups, group after group. *)
Definition flatten (c : groups) : list json := List.concat (map snd c).

(** A finding a group can be found for: an object whose level is a
    possible key. *)
Definition leveled (result : json) : bool :=
  match level_of result with
  | Ok level => hashable level
  | Raise _ => false
  end.

Lemma has_key_false_snoc (a l : json) (g : list json) (c : groups) :
  py_eq a l = false -> has_key a c = false ->
  has_key a (c ++ [(l, g)]) = false.
Proof.
  intros Hal Hc. rewrite has_key_snoc, Hc, py_eq_sym. exact Hal.
Qed.

Lemma keys_distinct_snoc (l : json) (g : list json) (c : groups) :
  has_key l c = false -> keys_distinct c = true ->
  keys_distinct (c ++ [(l, g)]) = true.
Proof.
  induction c as [|[a h] c IH]; simpl; [reflexivity|].
  intros Hl Hd. apply orb_false_elim in Hl. destruct Hl as (Hal & Hl).
  apply andb_prop in Hd. destruct Hd as (Ha & Hd).
  apply negb_true_iff in Ha.
  rewrite (has_key_false_snoc a l g c Hal Ha). simpl. now apply IH.
Qed.

Lemma keys_distinct_append_to (l r : json) (c : groups) :
  keys_distinct (append_to l r c) = keys_distinct c.
Proof.
  induction c as [|[a g] c IH]; simpl; [reflexivity|].
  destruct (py_eq a l); simpl; [reflexivity|].
  now rewrite has_key_append_to, IH.
Qed.

Lemma keys_hashable_append_to (l r : json) (c : groups) :
  keys_hashable c -> keys_hashable (append_to l r c).
Proof.
  unfold keys_hashable. induction 1 as [|[a g] c Ha Hc IH]; simpl.
  - constructor.
  - destruct (py_eq a l); constructor; assumption.
Qed.

Lemma flatten_snoc (l : json) (c : groups) :
  flatten (c ++ [(l, [])]) = flatten c.
Proof.
  unfold flatten. rewrite map_app, concat_app. simpl. apply app_nil_r.
Qed.

Lemma flatten_append_to (l r : json) (c : groups) :
  has_key l c = true ->
  Permutation (flatten (append_to l r c)) (flatten c ++ [r]).
Proof.
  unfold flatten.
  induction c as [|[a g] c IH]; simpl; [discriminate|].
  destruct (py_eq a l); simpl; intros H.
  - rewrite <- !app_assoc. apply Permutation_app_head.
    apply Permutation_app_comm.
  - rewrite <- app_assoc. apply Permutation_app_head. now apply IH.
Qed.

(** In a dictionary without equal keys, looking a key up gives the group
    stored with it. *)
Lemma group_of_entry (k : json) (g : list json) (c : groups) :
  keys_distinct c = true -> keys_hashable c ->
  In (k, g) c -> group_of k c = g.
Proof.
  unfold keys_hashable.
  induction c as [|[a h] c IH]; simpl; [contradiction|].
  intros Hd Hh [E | Hin].
  - injection E as -> ->. inversion Hh as [|? ? Hk _]; subst.
    now rewrite (py_eq_refl k Hk).
  - apply andb_prop in Hd. destruct Hd as (Ha & Hd).
    inversion Hh as [|? ? _ Hc]; subst.
    destruct (py_eq a k) eqn:Hak; [|now apply IH].
    apply negb_true_iff in Ha. exfalso.
    clear - Ha Hin Hak Hc. induction c as [|[b i] c IHc]; [contradiction|].
    simpl in Ha. apply orb_false_elim in Ha. destruct Ha as (Hba & Ha).
    inversion Hc as [|? ? Hb Hc']; subst.
    destruct Hin as [E | Hin]; [|now apply IHc].
    injection E as -> ->. simpl in Hb.
    rewrite py_eq_sym in Hak. congruence.
Qed.

Lemma categorize_step_keys (c c' : groups) (r : json) :
  categorize_step c r = Ok c' ->
  keys_distinct c = true -> keys_hashable c ->
  keys_distinct c' = true /\ keys_hashable c' /\
  Permutation (flatten c') (flatten c ++ [r]).
Proof.
  intros H Hd Hh. apply categorize_step_ok in H.
  destruct H as (level & El & Hl & ->).
  rewrite keys_distinct_append_to.
  destruct (has_key level c) eqn:Hc; simpl.
  - split; [assumption|]. split.
    + now apply keys_hashable_append_to.
    + now apply flatten_append_to.
  - split; [now apply keys_distinct_snoc|]. split.
    + apply keys_hashable_append_to. apply Forall_app. split; [assumption|].
      now constructor.
    + rewrite <- (flatten_snoc level c). apply flatten_append_to.
      rewrite has_key_snoc, (py_eq_refl level Hl). apply orb_true_r.
Qed.

Lemma categorize_loop_keys (rs : list json) (c c' : groups) :
  categorize_loop c rs = Ok c' ->
  keys_distinct c = true -> keys_hashable c ->
  keys_distinct c' = true /\ keys_hashable c' /\
  Permutation (flatten c') (flatten c ++ rs).
Proof.
  revert c. induction rs as [|r rs IH]; intros c H Hd Hh; simpl in H.
  - injection H as <-. now rewrite app_nil_r.
  - apply bind_ok in H. destruct H as (c1 & E1 & H).
    destruct (categorize_step_keys c c1 r E1 Hd Hh) as (D1 & H1 & P1).
    destruct (IH c1 H D1 H1) as (D2 & H2 & P2).
    split; [assumption|]. split; [assumption|].
    rewrite P2, P1, <- app_assoc. reflexivity.
Qed.

Lemma categorize_loop_leveled (rs : list json) (c : groups) :
  forallb leveled rs = true -> exists c', categorize_loop c rs = Ok c'.
Proof.
  revert c. induction rs as [|r rs IH]; intros c H; simpl in *; [eauto|].
  apply andb_prop in H. destruct H as (Hr & Hrs).
  unfold categorize_step, py_hash, leveled in *.
  destruct (level_of r) as [level|]; [|discriminate]. simpl.
  rewrite Hr. simpl. now apply IH.
Qed.

(** [categorize_results] returns exactly on the sequences of findings
    that are objects with a level that can be a key. *)
Lemma categorize_results_returns (self : converter) (rs : list json) :
  results self = JArr rs ->
  is_ok (categorize_results self) = forallb leveled rs.
Proof.
  intros E. unfold categorize_results. rewrite E. clear E. simpl.
  generalize categorized_init.
  induction rs as [|r rs IH]; intros c; simpl; [reflexivity|].
  unfold categorize_step, py_hash, leveled.
  destruct (level_of r) as [level|]; simpl; [|reflexivity].
  destruct (hashable level); simpl; [apply IH | reflexivity].
Qed.

(** C4.  For findings that are objects with a level that can be a key,
    [categorize_results] returns a dictionary in which: looking up any
    key gives the findings of that level ([warning] when missing) in
    their original order; every stored group is the one of its key and
    no two keys are equal; the groups together hold each finding exactly
    once; and a finding whose level is the string [s] is in the group
    stored under [s] itself. *)
Theorem categorize_stable_partition (self : converter) (rs : list json) :
  results self = JArr rs ->
  forallb leveled rs = true ->
  exists c,
    categorize_results self = Ok c /\
    (forall k, group_of k c = filter (has_level k) rs) /\
    (forall k g, In (k, g) c -> g = filter (has_level k) rs) /\
    keys_distinct c = true /\
    Permutation (flatten c) rs /\
    (forall r s, In r rs -> level_of r = Ok (JStr s) ->
       exists g, In (JStr s, g) c /\ In r g).
Proof.
  intros E Hl. unfold categorize_results. rewrite E. simpl.
  destruct (categorize_loop_leveled rs categorized_init Hl) as (c & Hc).
  exists c. split; [assumption|].
  assert (Hd0 : keys_distinct categorized_init = true) by reflexivity.
  assert (Hh0 : keys_hashable categorized_init)
    by (repeat constructor).
  destruct (categorize_loop_keys rs _ c Hc Hd0 Hh0) as (Hd & Hh & Hp).
  assert (Hg : forall k, group_of k c = filter (has_level k) rs).
  { intros k. destruct (categorize_loop_groups rs _ c Hc k) as (G & _).
    rewrite G. unfold categorized_init. cbn [group_of].
    destruct (py_eq (JStr "error") k), (py_eq (JStr "warning") k),
      (py_eq (JStr "note") k); reflexivity. }
  split; [exact Hg|].
  assert (He : forall k g, In (k, g) c -> g = filter (has_level k) rs).
  { intros k g Hin. rewrite <- Hg. symmetry. now apply group_of_entry. }
  split; [exact He|]. split; [exact Hd|]. split; [exact Hp|].
  intros r s Hin Hs.
  assert (Hk : has_key (JStr s) c = true).
  { destruct (categorize_loop_groups rs _ c Hc (JStr s)) as (_ & K).
    rewrite K. apply orb_true_iff. right. apply existsb_exists.
    exists r. split; [assumption|]. unfold has_level. rewrite Hs.
    simpl. apply String.eqb_refl. }
  assert (Hex : exists g, In (JStr s, g) c).
  { clear - Hk. induction c as [|[a g] c IH]; simpl in *; [discriminate|].
    destruct (py_eq a (JStr s)) eqn:Ha.
    - destruct a; simpl in Ha; try discriminate.
      apply String.eqb_eq in Ha. subst. eauto.
    - destruct (IH Hk) as (g' & Hg'). eauto. }
  destruct Hex as (g & Hg'). exists g. split; [assumption|].
  rewrite (He _ _ Hg'). apply filter_In. split; [assumption|].
  unfold has_level. rewrite Hs. simpl. apply String.eqb_refl.
Qed.

Lemma categorize_stable_partition_witness :
  exists c,
    categorize_results sample_converter = Ok c /\
    (forall k, group_of k c = filter (has_level k) sample_findings) /\
    (forall k g, In (k, g) c -> g = filter (has_level k) sample_findings) /\
    keys_distinct c = true /\
    Permutation (flatten c) sample_findings /\
    (forall r s, In r sample_findings -> level_of r = Ok (JStr s) ->
       exists g, In (JStr s, g) c /\ In r g).
Proof.
  apply (categorize_stable_partition sample_converter sample_findings);
    reflexivity.
Defined.

(* ------------------------------------------------------------------ *)
(** ** Files in first-seen order *)

(** Position of the first member of [us] equal to [k]; the length of
    [us] when there is none. *)
Fixpoint first_seen (k : json) (us : list json) : nat :=
  match us with
  | [] => 0
  | u :: rest => if py_eq u k then 0 else S (first_seen k rest)
  end.

(** [k] is a member of the set [s]. *)
Definition member (k : json) (s : list json) : bool :=
  existsb (fun a => py_eq a k) s.

(** The set that holds the members of [us], added one after the other. *)
Definition firsts (us : list json) : list json :=
  fold_left (fun s u => set_add u s) us [].

(** The per-file counter after the URIs [us]. *)
Definition tally (us : list json) (d : list (json * nat)) : list (json * nat) :=
  fold_left (fun d u => incr u d) us d.

(** The URI a finding is counted under: the one of its first location;
    [None] when there is none or the way to it is broken. *)
Definition uri_or_none (result : json) : json :=
  match first_uri result with
  | Ok uri => uri
  | Raise _ => JNull
  end.

Definition counted_uris (rs : list json) : list json :=
  filter truthy (map uri_or_none rs).

Lemma first_seen_le (k : json) (us : list json) :
  first_seen k us <= List.length us.
Proof.
  induction us as [|u us IH]; simpl; [lia|]. destruct (py_eq u k); lia.
Qed.

Lemma first_seen_snoc (k u : json) (us : list json) :
  first_seen k (us ++ [u])
  = if first_seen k us <? List.length us then first_seen k us
    else List.length us + (if py_eq u k then 0 else 1).
Proof.
  induction us as [|a us IH]; simpl.
  - destruct (py_eq u k); reflexivity.
  - destruct (py_eq a k); [reflexivity|]. rewrite IH.
    change (S (first_seen k us) <? S (List.length us))
      with (first_seen k us <? List.length us).
    destruct (first_seen k us <? List.length us); reflexivity.
Qed.

Lemma first_seen_py_eq (a b : json) (us : list json) :
  py_eq a b = true -> first_seen a us = first_seen b us.
Proof.
  intros H. induction us as [|u us IH]; simpl; [reflexivity|].
  rewrite (py_eq_right a b u H). now rewrite IH.
Qed.

Lemma set_add_member (u : json) (s : list json) :
  set_add u s = if member u s then s else s ++ [u].
Proof.
  unfold member. induction s as [|a s IH]; simpl; [reflexivity|].
  destruct (py_eq a u); simpl; [reflexivity|]. rewrite IH.
  destruct (existsb (fun a0 => py_eq a0 u) s); reflexivity.
Qed.

Lemma keys_incr (u : json) (d : list (json * nat)) :
  map fst (incr u d) = set_add u (map fst d).
Proof.
  induction d as [|[a n] d IH]; simpl; [reflexivity|].
  destruct (py_eq a u); simpl; [reflexivity | now rewrite IH].
Qed.

Lemma keys_tally (us : list json) (d : list (json * nat)) :
  map fst (tally us d) = fold_left (fun s u => set_add u s) us (map fst d).
Proof.
  revert d. induction us as [|u us IH]; intros d; simpl; [reflexivity|].
  unfold tally in IH. now rewrite IH, keys_incr.
Qed.

Lemma count_of_tally (k : json) (us : list json) (d : list (json * nat)) :
  count_of k (tally us d)
  = count_of k d + count_if (fun u => py_eq u k) us.
Proof.
  revert d. induction us as [|u us IH]; intros d; simpl.
  - unfold count_if. simpl. lia.
  - unfold tally in IH. rewrite IH, count_of_incr, count_if_cons.
    unfold b2n. lia.
Qed.

Lemma StronglySorted_weaken {A} (R R' : A -> A -> Prop) (l : list A) :
  (forall a b, In a l -> In b l -> R a b -> R' a b) ->
  StronglySorted R l -> StronglySorted R' l.
Proof.
  intros HR H. induction H as [|a l Hl IH Ha]; constructor.
  - apply IH. intros x y Hx Hy. apply HR; now right.
  - rewrite Forall_forall in *. intros b Hb.
    apply HR; [now left | now right | now apply Ha].
Qed.

Lemma StronglySorted_snoc {A} (R : A -> A -> Prop) (l : list A) (x : A) :
  StronglySorted R l -> Forall (fun y => R y x) l ->
  StronglySorted R (l ++ [x]).
Proof.
  intros H. induction H as [|a l Hl IH Ha]; simpl; intros Hx.
  - repeat constructor.
  - inversion Hx as [|? ? Hax Hlx]; subst. constructor; [now apply IH|].
    apply Forall_app. split; [assumption | now constructor].
Qed.

(** The order of the members of a set built by successive [add]: by
    first appearance.  Every member appeared, and a key equal to no
    member did not. *)
Lemma firsts_order (us : list json) :
  Forall (fun u => hashable u = true) us ->
  StronglySorted (fun a b => first_seen a us < first_seen b us) (firsts us)
  /\ (forall a, In a (firsts us) -> first_seen a us < List.length us)
  /\ (forall k, member k (firsts us) = false ->
                first_seen k us = List.length us).
Proof.
  induction us as [|u us IH] using rev_ind; intros Hh.
  - simpl. repeat split; [constructor | contradiction].
  - apply Forall_app in Hh. destruct Hh as (Hus & Hu).
    inversion Hu as [|? ? Hu' _]; subst. clear Hu.
    destruct (IH Hus) as (I1 & I2 & I3). clear IH.
    unfold firsts in *. rewrite fold_left_app. simpl.
    set (s := fold_left (fun s u => set_add u s) us []) in *.
    rewrite set_add_member, length_app. simpl.
    assert (Hold : forall a, In a s ->
              first_seen a (us ++ [u]) = first_seen a us).
    { intros a Ha. rewrite first_seen_snoc.
      apply I2, Nat.ltb_lt in Ha. now rewrite Ha. }
    destruct (member u s) eqn:Hm.
    + split; [|split].
      * eapply StronglySorted_weaken; [|exact I1].
        intros a b Ha Hb. now rewrite (Hold a Ha), (Hold b Hb).
      * intros a Ha. rewrite (Hold a Ha). apply I2 in Ha. lia.
      * intros k Hk. rewrite first_seen_snoc, (I3 k Hk), Nat.ltb_irrefl.
        destruct (py_eq u k) eqn:Huk; [|lia]. exfalso.
        unfold member in Hm, Hk. apply existsb_exists in Hm.
        destruct Hm as (a & Ha & Hau).
        assert (Hak : existsb (fun a0 => py_eq a0 k) s = true).
        { apply existsb_exists. exists a. split; [assumption|].
          now rewrite (py_eq_right u k a Huk) in Hau. }
        congruence.
    + assert (Hnew : first_seen u (us ++ [u]) = List.length us).
      { rewrite first_seen_snoc, (I3 u Hm), Nat.ltb_irrefl.
        rewrite (py_eq_refl u Hu'). lia. }
      split; [|split].
      * apply StronglySorted_snoc.
        -- eapply StronglySorted_weaken; [|exact I1].
           intros a b Ha Hb. now rewrite (Hold a Ha), (Hold b Hb).
        -- apply Forall_forall. intros a Ha.
           rewrite (Hold a Ha), Hnew. now apply I2.
      * intros a Ha. apply in_app_or in Ha. destruct Ha as [Ha | [<- | []]].
        -- rewrite (Hold a Ha). apply I2 in Ha. lia.
        -- rewrite Hnew. lia.
      * intros k Hk. unfold member in Hk. rewrite existsb_app in Hk.
        apply orb_false_elim in Hk. destruct Hk as (Hk & Huk).
        simpl in Huk. rewrite orb_false_r in Huk.
        rewrite first_seen_snoc, (I3 k Hk), Nat.ltb_irrefl, Huk. lia.
Qed.

Lemma stats_step_files (st st' : stats) (r : json) :
  stats_step st r = Ok st' ->
  let u := uri_or_none r in
  by_file st' = (if truthy u then incr u (by_file st) else by_file st) /\
  files st' = (if truthy u then set_add u (files st) else files st) /\
  (truthy u = true -> hashable u = true).
Proof.
  intros H. apply stats_step_ok in H.
  destruct H as (level & uri & rule & _ & _ & Eu & _ & Hu & _ & ->).
  unfold uri_or_none. rewrite Eu. simpl.
  destruct (count_level_fields st level) as (_ & _ & _ & _ & _ & Hf & Hs & _).
  simpl in Hf, Hs.
  destruct (truthy uri), (truthy rule); simpl; rewrite ?Hf, ?Hs;
    repeat split; auto.
Qed.

(** The per-file counter and the set of files after the loop of
    [get_statistics]: one [+= 1] and one [add] for each counted URI,
    in the order of the findings. *)
Lemma stats_loop_files (rs : list json) (st st' : stats) :
  stats_loop st rs = Ok st' ->
  by_file st' = tally (counted_uris rs) (by_file st) /\
  files st' = fold_left (fun s u => set_add u s) (counted_uris rs) (files st) /\
  Forall (fun u => hashable u = true) (counted_uris rs).
Proof.
  revert st. induction rs as [|r rs IH]; intros st H; simpl in H.
  - injection H as <-. simpl. repeat split. constructor.
  - apply bind_ok in H. destruct H as (s1 & E1 & H).
    apply stats_step_files in E1. destruct E1 as (B1 & F1 & H1).
    apply IH in H. destruct H as (B2 & F2 & H2).
    unfold counted_uris in *. simpl.
    destruct (truthy (uri_or_none r)); simpl.
    + rewrite B2, F2, B1, F1. repeat split. constructor; auto.
    + rewrite B2, F2, B1, F1. repeat split. assumption.
Qed.

(* ------------------------------------------------------------------ *)
(** ** The stable sort *)

Lemma insert_desc_perm {A} (x : A * nat) (l : list (A * nat)) :
  Permutation (insert_desc x l) (x :: l).
Proof.
  induction l as [|y l IH]; simpl; [reflexivity|].
  destruct (snd y <? snd x); [reflexivity|].
  rewrite IH. apply perm_swap.
Qed.

Lemma sorted_desc_perm_acc {A} (l acc : list (A * nat)) :
  Permutation (fold_left (fun acc x => insert_desc x acc) l acc) (acc ++ l).
Proof.
  revert acc. induction l as [|x l IH]; intros acc; simpl.
  - now rewrite app_nil_r.
  - rewrite IH, insert_desc_perm. apply Permutation_middle.
Qed.

Lemma sorted_desc_perm {A} (l : list (A * nat)) :
  Permutation (sorted_desc l) l.
Proof. unfold sorted_desc. now rewrite sorted_desc_perm_acc. Qed.

Section Stable.

Context {A : Type} (before : A * nat -> A * nat -> Prop).

(** Larger count first; for equal counts, the original order. *)
Definition row_order (a b : A * nat) : Prop :=
  snd b < snd a \/ (snd a = snd b /\ before a b).

Lemma insert_desc_sorted (x : A * nat) (l : list (A * nat)) :
  StronglySorted row_order l ->
  Forall (fun y => before y x) l ->
  StronglySorted row_order (insert_desc x l).
Proof.
  intros Hs. induction Hs as [|y l Hl IH Hy]; simpl; intros Hb.
  - repeat constructor.
  - inversion Hb as [|? ? Hyx Hlx]; subst.
    destruct (snd y <? snd x) eqn:Hc.
    + apply Nat.ltb_lt in Hc. constructor; [now constructor|].
      constructor; [now left|].
      rewrite Forall_forall in *. intros z Hz. left.
      destruct (Hy z Hz) as [Hzy | [Hzy _]]; lia.
    + apply Nat.ltb_ge in Hc. constructor; [now apply IH|].
      rewrite (insert_desc_perm x l). constructor; [|assumption].
      unfold row_order. destruct (Nat.eq_dec (snd y) (snd x)); [right | left];
        [now split | lia].
Qed.

(** A list in the order [before] comes out of the sort with larger
    counts first and, among equal counts, still in the order [before]. *)
Lemma sorted_desc_stable (l : list (A * nat)) :
  StronglySorted before l -> StronglySorted row_order (sorted_desc l).
Proof.
  unfold sorted_desc.
  assert (H : forall l acc,
    StronglySorted before l ->
    StronglySorted row_order acc ->
    Forall (fun y => Forall (fun x => before y x) l) acc ->
    StronglySorted row_order
      (fold_left (fun acc x => insert_desc x acc) l acc)).
  { clear l. induction l as [|x l IH]; intros acc Hl Hacc Hb; simpl.
    - assumption.
    - inversion Hl as [|? ? Hl' Hx]; subst. apply IH.
      + assumption.
      + apply insert_desc_sorted; [assumption|].
        eapply Forall_impl; [|exact Hb].
        intros y Hy. now inversion Hy.
      + rewrite (insert_desc_perm x acc). constructor; [assumption|].
        eapply Forall_impl; [|exact Hb].
        intros y Hy. now inversion Hy. }
  intros Hl. apply H; [assumption | constructor | constructor].
Qed.

End Stable.

(* ------------------------------------------------------------------ *)
(** ** The table of files *)

(** The order of two rows of the table, [us] being the URIs in the order
    the findings gave them: the larger count is first; of two rows with
    the same count, the one whose file was seen first. *)
Definition table_order (us : list json) : json * nat -> json * nat -> Prop :=
  row_order (fun a b => first_seen (fst a) us < first_seen (fst b) us).

Lemma StronglySorted_map_fst {B} (R : json -> json -> Prop)
    (d : list (json * B)) :
  StronglySorted R (map fst d) ->
  StronglySorted (fun a b => R (fst a) (fst b)) d.
Proof.
  induction d as [|x d IH]; simpl; intros H; [constructor|].
  inversion H as [|? ? Hd Hx]; subst. constructor; [now apply IH|].
  rewrite Forall_forall in *. intros y Hy. apply Hx. now apply in_map.
Qed.

Lemma first_seen_found (k : json) (us : list json) :
  first_seen k us < List.length us ->
  exists u, In u us /\ py_eq u k = true.
Proof.
  induction us as [|a us IH]; simpl; [lia|].
  destruct (py_eq a k) eqn:Ha; [eauto|].
  intros H. destruct IH as (u & Hu & Huk); [lia | eauto].
Qed.

Lemma first_seen_in (u : json) (us : list json) :
  In u us -> hashable u = true -> first_seen u us < List.length us.
Proof.
  intros Hin Hh. induction us as [|a us IH]; simpl; [contradiction|].
  destruct (py_eq a u) eqn:Ha; [lia|].
  destruct Hin as [-> | Hin]; [|apply IH in Hin; lia].
  rewrite (py_eq_refl u Hh) in Ha. discriminate.
Qed.

(** In a counter whose keys are in first-seen order, a stored count is
    the count of its key. *)
Lemma count_of_entry (us : list json) (f : json) (n : nat)
    (d : list (json * nat)) :
  StronglySorted (fun a b => first_seen (fst a) us < first_seen (fst b) us) d ->
  hashable f = true -> In (f, n) d -> count_of f d = n.
Proof.
  intros Hs Hf. induction Hs as [|[a m] d Hd IH Ha]; simpl; [contradiction|].
  intros [E | Hin].
  - injection E as -> ->. now rewrite (py_eq_refl f Hf).
  - destruct (py_eq a f) eqn:Haf; [|now apply IH].
    rewrite Forall_forall in Ha. specialize (Ha _ Hin). simpl in Ha.
    rewrite (first_seen_py_eq a f us Haf) in Ha. lia.
Qed.

(** For findings that can be counted, the list of rows is in descending
    order of count and, for equal counts, in the order in which the
    files were first seen in the sequence of findings; its members are
    the entries of the per-file counter: each gives a file that was seen
    and the number of findings counted under it, and every counted URI
    has its row. *)
Lemma file_rows_order (self : converter) (rs : list json) :
  results self = JArr rs ->
  forallb countable rs = true ->
  exists st,
    get_statistics self = Ok st /\
    StronglySorted (table_order (counted_uris rs)) (file_rows st) /\
    Permutation (file_rows st) (stat_by_file st) /\
    (forall f n, In (f, n) (file_rows st) ->
       n = count_if (fun u => py_eq u f) (counted_uris rs) /\
       first_seen f (counted_uris rs) < List.length (counted_uris rs)) /\
    (forall u, In u (counted_uris rs) ->
       exists f n, In (f, n) (file_rows st) /\ py_eq f u = true).
Proof.
  intros E Hc. rewrite (get_statistics_list self rs E).
  destruct (stats_loop_countable rs (stats_init (List.length rs)) Hc)
    as (st & Hst).
  rewrite Hst. simpl. eexists. split; [reflexivity|].
  apply stats_loop_files in Hst. destruct Hst as (Hb & _ & Hh).
  simpl in Hb. unfold file_rows. simpl. rewrite Hb. clear Hb.
  set (us := counted_uris rs) in *.
  destruct (firsts_order us Hh) as (I1 & I2 & I3).
  assert (Hk : map fst (tally us []) = firsts us) by apply keys_tally.
  assert (Hs : StronglySorted
            (fun a b => first_seen (fst a) us < first_seen (fst b) us)
            (tally us [])).
  { apply (StronglySorted_map_fst
             (fun a b => first_seen a us < first_seen b us)).
    now rewrite Hk. }
  split; [now apply sorted_desc_stable|].
  split; [apply sorted_desc_perm|]. split.
  - intros f n Hin.
    apply (Permutation_in _ (sorted_desc_perm (tally us []))) in Hin.
    assert (Hf : In f (firsts us)).
    { rewrite <- Hk. now apply (in_map fst) in Hin. }
    apply I2 in Hf. split; [|assumption].
    destruct (first_seen_found f us Hf) as (u & _ & Huf).
    apply py_eq_hashable in Huf.
    rewrite <- (count_of_entry us f n (tally us []) Hs Huf Hin).
    now rewrite count_of_tally.
  - intros u Hu.
    assert (Hhu : hashable u = true).
    { rewrite Forall_forall in Hh. now apply Hh. }
    destruct (member u (firsts us)) eqn:Hm.
    + unfold member in Hm. apply existsb_exists in Hm.
      destruct Hm as (a & Ha & Hau). rewrite <- Hk in Ha.
      apply in_map_iff in Ha. destruct Ha as ([f n] & Ef & Hin).
      simpl in Ef. subst f. exists a, n. split; [|assumption].
      apply (Permutation_in _ (Permutation_sym
               (sorted_desc_perm (tally us [])))). assumption.
    + apply I3 in Hm. pose proof (first_seen_in u us Hu Hhu). lia.
Qed.

Definition file_finding (uri : string) : json :=
  JObj [("locations",
         JArr [JObj [("physicalLocation",
                      JObj [("artifactLocation", JObj [("uri", JStr uri)])])]])].

Definition tied_findings : list json :=
  [ file_finding "c.py"; file_finding "a.py"; file_finding "b.py";
    file_finding "a.py"; file_finding "b.py"; JObj [] ].

Definition tied_converter : converter :=
  {| sarif_file := "report.sarif"; data := JNull;
     results := JArr tied_findings; notifications := JArr [] |}.

(** Two files tied at two findings each: the one seen first comes
    first, after them the file with one finding. *)
Example file_rows_tied :
  option_map file_rows
    (match get_statistics tied_converter with Ok st => Some st | _ => None end)
  = Some [(JStr "a.py", 2); (JStr "b.py", 2); (JStr "c.py", 1)].
Proof. reflexivity. Qed.

(* ------------------------------------------------------------------ *)
(** ** Loading *)

Section Loading.

Context {P : platform}.

Definition statistics_zero : statistics :=
  {| stat_total := 0; stat_errors := 0; stat_warnings := 0; stat_notes := 0;
     stat_files := 0; stat_rules := 0; stat_by_level := []; stat_by_file := [] |}.

Definition diagnostic (e : exn) : string :=
  ("✗ Error loading SARIF file: " ++ describe e)%string.

Lemma load_sarif_unparsed (path : string) (w : world) (e : exn) :
  read_json path = Raise e ->
  load_sarif (init path) w = (load_failed e w, init path, false).
Proof. unfold load_sarif. simpl. now intros ->. Qed.

Lemma first_run_object (self : converter) (rs ns : json) :
  first_run self = Ok (rs, ns) -> exists items, data self = JObj items.
Proof.
  unfold first_run. destruct (data self) as [| | | | | |items];
    try discriminate. eauto.
Qed.

Lemma first_run_truthy (self : converter) (items : list (string * json))
    (runs rs ns : json) :
  data self = JObj items -> lookup "runs" items = Some runs ->
  truthy runs = true ->
  first_run self = Ok (rs, ns) ->
  exists run_items, py_index0 runs = Ok (JObj run_items).
Proof.
  unfold first_run. intros -> Hl Ht. simpl. rewrite Hl. simpl. rewrite Ht.
  destruct (py_index0 runs) as [run|]; [|discriminate].
  simpl. destruct run; try discriminate. eauto.
Qed.

Lemma first_run_falsy (self : converter) (items : list (string * json))
    (runs : json) :
  data self = JObj items -> lookup "runs" items = Some runs ->
  truthy runs = false ->
  first_run self = Ok (results self, notifications self).
Proof.
  unfold first_run. intros -> Hl Ht. simpl. rewrite Hl. simpl.
  now rewrite Ht.
Qed.

(** C9.  When the document is an object whose [runs] is missing or is
    the empty list, [load_sarif] returns [True] without a diagnostic, the
    findings and the notifications are both empty, and every statistic
    is zero. *)
Theorem empty_runs_empty_report (path : string) (w : world)
    (items : list (string * json)) :
  read_json path = Ok (JObj items) ->
  lookup "runs" items = None \/ lookup "runs" items = Some (JArr []) ->
  exists w' self,
    load_sarif (init path) w = (w', self, true) /\
    stderr w' = stderr w /\
    results self = JArr [] /\
    notifications self = JArr [] /\
    get_statistics self = Ok statistics_zero.
Proof.
  intros Hp Hr. unfold load_sarif. simpl. rewrite Hp.
  unfold first_run. simpl.
  destruct Hr as [-> | ->]; simpl; do 2 eexists; repeat split; reflexivity.
Qed.

(** C8.  When the input cannot be read, or what was read is not JSON,
    [main] prints one diagnostic on standard error, writes no file and
    ends with [sys.exit(1)], not with an uncaught exception. *)
Theorem unreadable_input_exits (prog path : string) (rest : list string)
    (w : world) (e : exn) :
  read_text path = Raise e \/
    (exists text, read_text path = Ok text /\ json_loads text = Raise e) ->
  exists w',
    main (prog :: path :: rest) w = (w', Exit 1) /\
    stderr w' = stderr w ++ [diagnostic e] /\
    stdout w' = stdout w /\
    written w' = written w.
Proof.
  intros H.
  assert (Hp : read_json path = Raise e).
  { unfold read_json. destruct H as [H | (text & H1 & H2)];
      [rewrite H | rewrite H1; simpl; rewrite H2]; reflexivity. }
  unfold main. rewrite (load_sarif_unparsed path w e Hp). simpl.
  eexists. repeat split.
Qed.

(** C10, as the code has it.  [load_sarif] always returns: [False] with
    one diagnostic on standard error, or [True] with none; it writes no
    file.  A document that is not an object is a failure, and so is an
    object whose [runs] is truthy when [runs[0]] cannot be taken or is
    not an object.  An object whose [runs] is falsy, whatever its type
    ([null], [false], [0], the empty string, list or object), loads as
    an empty report. *)
Theorem load_sarif_outcomes (path : string) (w : world) :
  exists w' self ok,
    load_sarif (init path) w = (w', self, ok) /\
    written w' = written w /\
    (ok = true -> stderr w' = stderr w) /\
    (ok = false -> exists e, stderr w' = stderr w ++ [diagnostic e]) /\
    (forall e, read_json path = Raise e -> ok = false) /\
    (forall d, read_json path = Ok d ->
       (forall items, d <> JObj items) -> ok = false) /\
    (forall items runs, read_json path = Ok (JObj items) ->
       lookup "runs" items = Some runs -> truthy runs = true ->
       (forall run_items, py_index0 runs <> Ok (JObj run_items)) ->
       ok = false) /\
    (forall items runs, read_json path = Ok (JObj items) ->
       lookup "runs" items = Some runs -> truthy runs = false ->
       ok = true /\ results self = JArr [] /\ notifications self = JArr []).
Proof.
  unfold load_sarif. cbn [sarif_file init].
  destruct (read_json path) as [d|e].
  2:{ do 3 eexists. split; [reflexivity|].
      unfold load_failed, diagnostic. simpl.
      repeat split; intros; try congruence; eauto. }
  set (self := set_data _ d).
  assert (Hd : data self = d) by reflexivity.
  assert (Hr : results self = JArr []) by reflexivity.
  assert (Hn : notifications self = JArr []) by reflexivity.
  clearbody self.
  assert (Hfalsy : forall items runs, Ok d = Ok (JObj items) ->
            lookup "runs" items = Some runs -> truthy runs = false ->
            first_run self = Ok (JArr [], JArr [])).
  { intros items runs E Hl Ht. injection E as E. rewrite E in Hd.
    now rewrite (first_run_falsy self items runs Hd Hl Ht), Hr, Hn. }
  destruct (first_run self) as [[rs ns]|e] eqn:Hf.
  2:{ do 3 eexists. split; [reflexivity|].
      unfold load_failed, diagnostic. simpl.
      repeat split; intros; try congruence; eauto;
        exfalso;
        match goal with
        | Hx : Ok _ = Ok (JObj ?i), Hy : lookup _ ?i = Some ?r,
          Hz : truthy ?r = false |- _ =>
            pose proof (Hfalsy _ _ Hx Hy Hz)
        end; discriminate. }
  destruct (first_run_object self rs ns Hf) as (items0 & Hobj).
  assert (Hempty : forall items runs, Ok d = Ok (JObj items) ->
            lookup "runs" items = Some runs -> truthy runs = false ->
            rs = JArr [] /\ ns = JArr []).
  { intros items runs E Hl Ht. pose proof (Hfalsy _ _ E Hl Ht) as Hf'.
    injection Hf' as <- <-. split; reflexivity. }
  assert (Hlen : forall items runs, Ok d = Ok (JObj items) ->
            lookup "runs" items = Some runs -> truthy runs = false ->
            py_len rs = Ok 0 /\ py_len ns = Ok 0).
  { intros items runs E Hl Ht.
    destruct (Hempty items runs E Hl Ht) as (-> & ->). split; reflexivity. }
  clear Hfalsy.
  destruct (py_len rs) as [n|e] eqn:Hlr.
  2:{ do 3 eexists. split; [reflexivity|].
      unfold load_failed, diagnostic. simpl.
      repeat split; intros; try congruence; eauto;
        exfalso;
        match goal with
        | Hx : Ok _ = Ok (JObj ?i), Hy : lookup _ ?i = Some ?r,
          Hz : truthy ?r = false |- _ =>
            destruct (Hlen _ _ Hx Hy Hz)
        end; discriminate. }
  destruct (py_len ns) as [m|e] eqn:Hln.
  2:{ do 3 eexists. split; [reflexivity|].
      unfold load_failed, diagnostic. simpl.
      repeat split; intros; try congruence; eauto;
        exfalso;
        match goal with
        | Hx : Ok _ = Ok (JObj ?i), Hy : lookup _ ?i = Some ?r,
          Hz : truthy ?r = false |- _ =>
            destruct (Hlen _ _ Hx Hy Hz)
        end; discriminate. }
  do 3 eexists. split; [reflexivity|]. simpl.
  repeat split; intros; try congruence;
    match goal with
    | Hx : Ok _ = Ok (JObj ?i), Hy : lookup _ ?i = Some ?r,
      Hz : truthy ?r = false |- _ =>
        now destruct (Hempty _ _ Hx Hy Hz)
    | Hx : Ok _ = Ok (JObj ?i), Hy : lookup _ ?i = Some ?r,
      Hz : truthy ?r = true, Hno : forall ri, py_index0 ?r <> _ |- _ =>
        assert (Hd' : data self = JObj i) by congruence;
        destruct (first_run_truthy self i r rs ns Hd' Hy Hz Hf) as (ri & Hri);
        now destruct (Hno ri)
    | Hx : Ok _ = Ok ?d', Hy : forall items, ?d' <> JObj items |- _ =>
        injection Hx as <-; rewrite Hd in Hobj; now destruct (Hy items0)
    end.
Qed.

End Loading.

Definition world0 : world := {| stdout := []; stderr := []; written := [] |}.

(** A platform on which the only file is [report.sarif], holding [text],
    and [json.load] accepts exactly the texts of [docs]. *)
Definition sample_platform (text : string) (docs : list (string * json))
    : platform :=
  {| repr := fun _ => "[...]"%string;
     now := "2024-05-01 12:00:00"%string;
     path_name := fun p => p;
     path_stem := fun _ => "report"%string;
     read_text := fun p =>
       if String.eqb p "report.sarif" then Ok text else Raise OSError;
     json_loads := fun t =>
       match lookup t docs with
       | Some d => Ok d
       | None => Raise JSONDecodeError
       end;
     open_text := fun _ => Ok tt;
     write_text := fun _ _ => Ok tt;
     flushed := fun _ _ => ""%string;
     describe := fun e =>
       match e with
       | OSError => "[Errno 2] No such file or directory"%string
       | JSONDecodeError => "Expecting value: line 1 column 1 (char 0)"%string
       | _ => "error"%string
       end |}.

Definition no_runs_platform : platform :=
  sample_platform "{}" [("{}"%string, JObj [])].

Lemma empty_runs_empty_report_witness :
  exists w' self,
    @load_sarif no_runs_platform (init "report.sarif") world0
      = (w', self, true) /\
    stderr w' = stderr world0 /\
    results self = JArr [] /\
    notifications self = JArr [] /\
    get_statistics self = Ok statistics_zero.
Proof.
  apply (@empty_runs_empty_report no_runs_platform "report.sarif" world0 []).
  - reflexivity.
  - left. reflexivity.
Defined.

Definition not_json_platform : platform :=
  sample_platform "this is not JSON" [("{}"%string, JObj [])].

Lemma unreadable_input_exits_witness :
  exists w',
    @main not_json_platform ["sarif2html.py"; "report.sarif"]%string world0
      = (w', Exit 1) /\
    stderr w' = stderr world0 ++ [@diagnostic not_json_platform JSONDecodeError] /\
    stdout w' = stdout world0 /\
    written w' = written world0.
Proof.
  apply (@unreadable_input_exits not_json_platform
           "sarif2html.py" "report.sarif" [] world0 JSONDecodeError)%string.
  right. exists "this is not JSON"%string. split; reflexivity.
Defined.

(** A missing file ends the same way. *)
Example missing_file_exits :
  snd (@main not_json_platform ["sarif2html.py"; "missing.sarif"]%string world0)
  = Exit 1.
Proof. reflexivity. Qed.

Definition runs_zero_text : string := tpl "{`runs`: 0}".

Definition runs_zero_platform : platform :=
  sample_platform runs_zero_text [(runs_zero_text, JObj [("runs"%string, JInt 0)])].

(** C10 as the claim words it fails: in the document whose [runs] is
    the number 0 — not a sequence, with nothing to index or to iterate —
    [load_sarif] returns [True] with an empty report and no diagnostic. *)
Lemma runs_zero_loads_as_empty_report :
  @read_json runs_zero_platform "report.sarif"
    = Ok (JObj [("runs"%string, JInt 0)]) /\
  py_index0 (JInt 0) = Raise TypeError /\
  py_iter (JInt 0) = Raise TypeError /\
  exists w' self,
    @load_sarif runs_zero_platform (init "report.sarif") world0
      = (w', self, true) /\
    results self = JArr [] /\ notifications self = JArr [] /\
    stderr w' = [].
Proof.
  repeat split. do 2 eexists. repeat split.
Qed.

(** Documents that do fail to load: a root that is a list, a [runs]
    that is a non-zero number, a first run that is not an object. *)
Example misshapen_documents_fail :
  let load d :=
    snd (@load_sarif (sample_platform "x" [("x"%string, d)])
           (init "report.sarif") world0) in
  load (JArr []) = false /\
  load (JObj [("runs"%string, JInt 5)]) = false /\
  load (JObj [("runs"%string, JArr [JStr "run"])]) = false /\
  load (JObj [("runs"%string, JArr [JObj []; JInt 5])]) = true.
Proof. repeat split. Qed.

(* ------------------------------------------------------------------ *)
(** ** The blocks of the three levels *)

(** The level of the finding is one of the three names (or missing). *)
Definition canonical (result : json) : bool := negb (other_level result).

Lemma categorize_results_groups (self : converter) (rs : list json) :
  results self = JArr rs ->
  forallb leveled rs = true ->
  exists c,
    categorize_results self = Ok c /\
    forall k, group_of k c = filter (has_level k) rs.
Proof.
  intros E Hl. unfold categorize_results. rewrite E. simpl.
  destruct (categorize_loop_leveled rs categorized_init Hl) as (c & Hc).
  exists c. split; [assumption|]. intros k.
  destruct (categorize_loop_groups rs _ c Hc k) as (G & _).
  rewrite G. unfold categorized_init. cbn [group_of].
  destruct (py_eq (JStr "error") k), (py_eq (JStr "warning") k),
    (py_eq (JStr "note") k); reflexivity.
Qed.

Lemma filter_filter_implied {A} (p q : A -> bool) (l : list A) :
  (forall x, p x = true -> q x = true) ->
  filter p (filter q l) = filter p l.
Proof.
  intros H. induction l as [|x l IH]; simpl; [reflexivity|].
  destruct (q x) eqn:Hq; simpl.
  - now rewrite IH.
  - destruct (p x) eqn:Hp; [|assumption].
    rewrite (H x Hp) in Hq. discriminate.
Qed.

Lemma forallb_filter {A} (p q : A -> bool) (l : list A) :
  forallb p l = true -> forallb p (filter q l) = true.
Proof.
  induction l as [|x l IH]; simpl; [reflexivity|].
  intros H. apply andb_prop in H. destruct H as (Hx & Hl).
  destruct (q x); simpl; [rewrite Hx|]; now apply IH.
Qed.

Lemma has_level_canonical (level : string) (r : json) :
  In level ["error"; "warning"; "note"]%string ->
  has_level (JStr level) r = true -> canonical r = true.
Proof.
  unfold canonical, other_level. intros Hin H. apply negb_true_iff, negb_false_iff.
  destruct Hin as [<- | [<- | [<- | []]]]; rewrite H;
    rewrite ?orb_true_r; reflexivity.
Qed.

Section Rendering.

Context {P : platform}.

Lemma render_each_ext {A} (f g : A -> py string) (l : list A) :
  (forall x, In x l -> f x = g x) -> render_each f l = render_each g l.
Proof.
  induction l as [|x l IH]; simpl; intros H; [reflexivity|].
  rewrite (H x) by now left. rewrite IH; [reflexivity|].
  intros y Hy. apply H. now right.
Qed.

(** For findings that are objects with a level that can be a key: the
    text of the severity blocks is the block of the [error] findings,
    then that of the [warning] findings, then that of the [note]
    findings, each group in input order and an empty group giving no
    text at all; it is the same text, or the same exception, as when the
    findings of every other level are removed from the input; and they
    are still counted in [total]. *)
Lemma levels_of_three_groups (self self' : converter) (rs : list json) :
  results self = JArr rs ->
  results self' = JArr (filter canonical rs) ->
  forallb leveled rs = true ->
  exists c c',
    categorize_results self = Ok c /\
    categorize_results self' = Ok c' /\
    render_levels c
      = render_each
          (fun level =>
             render_group level (filter (has_level (JStr level)) rs))
          ["error"; "warning"; "note"]%string /\
    render_levels c = render_levels c' /\
    (forall level, render_group level [] = Ok ""%string) /\
    (forall level g h, g <> [] -> render_group level g = Ok h -> h <> ""%string) /\
    (forall st, get_statistics self = Ok st -> stat_total st = List.length rs).
Proof.
  intros E E' Hl.
  destruct (categorize_results_groups self rs E Hl) as (c & Hc & Hg).
  destruct (categorize_results_groups self' _ E' (forallb_filter _ canonical rs Hl))
    as (c' & Hc' & Hg').
  exists c, c'. split; [assumption|]. split; [assumption|].
  assert (H3 : render_levels c
               = render_each
                   (fun level =>
                      render_group level (filter (has_level (JStr level)) rs))
                   ["error"; "warning"; "note"]%string).
  { unfold render_levels. apply render_each_ext. intros level _.
    unfold render_level. now rewrite Hg. }
  split; [exact H3|]. split.
  { rewrite H3. unfold render_levels. symmetry. apply render_each_ext.
    intros level Hin. unfold render_level. rewrite Hg'.
    rewrite filter_filter_implied; [reflexivity|].
    intros r. now apply has_level_canonical. }
  split; [reflexivity|]. split.
  { intros level g h Hne H. destruct g as [|r g]; [congruence|].
    unfold render_group in H. apply bind_ok in H.
    destruct H as (body & _ & H). injection H as <-. discriminate. }
  intros st Hst. rewrite (get_statistics_list self rs E) in Hst.
  apply bind_ok in Hst. destruct Hst as (s1 & Hs & Hst).
  injection Hst as <-. apply stats_loop_counts in Hs.
  destruct Hs as (Ht & _). simpl in *. exact Ht.
Qed.

End Rendering.

Definition sample_converter_canonical : converter :=
  {| sarif_file := "report.sarif"; data := JNull;
     results := JArr (filter canonical sample_findings);
     notifications := JArr [] |}.

(* ------------------------------------------------------------------ *)
(** ** Findings with missing or misshapen fields *)

(** A finding whose first location has [null] where the object
    [physicalLocation] should be, and the document that holds it. *)
Definition broken_location_finding : json :=
  JObj [("locations"%string,
         JArr [JObj [("physicalLocation"%string, JNull)]])].

Definition broken_location_document : json :=
  JObj [("runs"%string,
         JArr [JObj [("results"%string, JArr [broken_location_finding])]])].

Section Tolerance.

Context {P : platform}.

(** A finding with no field at all is a [warning], has rule [unknown],
    file [unknown], [?] for the four positions and no snippet, and is
    rendered. *)
Lemma missing_fields_defaults :
  level_of (JObj []) = Ok (JStr "warning") /\
  rule_id_of (JObj []) = Ok (JStr "unknown") /\
  get_location_info (JObj []) = location_default /\
  stats_step (stats_init 1) (JObj [])
    = Ok (count_level (stats_init 1) (JStr "warning")) /\
  is_ok (render_result "warning" (JObj [])) = true.
Proof. repeat split. Qed.

(** [get_location_info] gives the defaults whenever the way to the
    location is broken. *)
Lemma get_location_info_broken (result : json) (e : exn) :
  read_location result = Raise e ->
  get_location_info result = location_default.
Proof. unfold get_location_info. now intros ->. Qed.

(** C7 fails on the code.  On the document whose one finding has
    [null] for [physicalLocation], [get_location_info] degrades to the
    defaults, but [get_statistics] walks the same fields without a
    guard: it raises [AttributeError], [generate_html] lets it through,
    and [main] ends with an uncaught exception and no report. *)
Theorem broken_location_crashes (prog path : string) (rest : list string)
    (w : world) :
  read_json path = Ok broken_location_document ->
  get_location_info broken_location_finding = location_default /\
  first_uri broken_location_finding = Raise AttributeError /\
  exists w',
    main (prog :: path :: rest) w = (w', Crash AttributeError) /\
    stderr w' = stderr w /\
    written w' = written w.
Proof.
  intros Hp. split; [reflexivity|]. split; [reflexivity|].
  unfold main, load_sarif. cbn [sarif_file init]. rewrite Hp.
  eexists. split; [reflexivity|]. split; reflexivity.
Qed.

End Tolerance.

Definition broken_location_text : string :=
  tpl "{`runs`: [{`results`: [{`locations`: [{`physicalLocation`: null}]}]}]}".

Definition broken_location_platform : platform :=
  sample_platform broken_location_text
    [(broken_location_text, broken_location_document)].

Lemma broken_location_crashes_witness :
  get_location_info broken_location_finding = location_default /\
  first_uri broken_location_finding = Raise AttributeError /\
  exists w',
    @main broken_location_platform
      ["sarif2html.py"; "report.sarif"]%string world0
      = (w', Crash AttributeError) /\
    stderr w' = stderr world0 /\
    written w' = written world0.
Proof.
  apply (@broken_location_crashes broken_location_platform
           "sarif2html.py" "report.sarif" [] world0)%string.
  reflexivity.
Defined.

(* ------------------------------------------------------------------ *)
(** ** Escaping *)

(** The characters that open or close a tag or end an attribute value. *)
Definition is_markup (a : ascii) : bool :=
  Ascii.eqb a "<" || Ascii.eqb a ">" || Ascii.eqb a dquote || Ascii.eqb a "'".

(** The markup characters of a text, in order: what a browser can take
    for the start or the end of an element or of an attribute value. *)
Fixpoint markup (s : string) : list ascii :=
  match s with
  | EmptyString => []
  | String a s' => if is_markup a then a :: markup s' else markup s'
  end.

(** The tags block of a finding: [None] when there is none, else the
    number of tags in it. *)
Definition tags_shown (result : json) : option nat :=
  match tags_of result with
  | Ok tags =>
      if truthy tags then
        match py_iter tags with
        | Ok items => Some (List.length items)
        | Raise _ => None
        end
      else None
  | Raise _ => None
  end.

Lemma markup_app (a b : string) :
  markup (a ++ b)%string = markup a ++ markup b.
Proof.
  induction a as [|c a IH]; simpl; [reflexivity|].
  destruct (is_markup c); simpl; now rewrite IH.
Qed.

Lemma markup_escape_char (a : ascii) : markup (escape_char a) = [].
Proof. destruct a as [[] [] [] [] [] [] [] []]; reflexivity. Qed.

Lemma markup_html_escape (s : string) : markup (html_escape s) = [].
Proof.
  induction s as [|a s IH]; simpl; [reflexivity|].
  now rewrite markup_app, markup_escape_char, IH.
Qed.

Lemma markup_concat (l : list string) :
  markup (String.concat "" l) = List.concat (map markup l).
Proof.
  induction l as [|x l IH]; simpl; [reflexivity|].
  destruct l as [|y l].
  - simpl. now rewrite app_nil_r.
  - rewrite markup_app. simpl String.append. now rewrite IH.
Qed.

Lemma concat_map_const {A B} (k : list B) (l : list A) :
  List.concat (map (fun _ => k) l) = List.concat (repeat k (List.length l)).
Proof. induction l as [|x l IH]; simpl; [reflexivity | now rewrite IH]. Qed.

Section Escaping.

Context {P : platform}.

(** The template texts stay folded in the proofs of this section. *)
Local Opaque tpl.

(** Whatever the text, [escape_html] gives a text without markup
    characters. *)
Lemma markup_escape_html (text : json) : markup (escape_html text) = [].
Proof.
  unfold escape_html. destruct (truthy text); simpl; [|reflexivity].
  apply markup_html_escape.
Qed.

Lemma render_tag_markup :
  exists k, forall tag, markup (render_tag tag) = k.
Proof.
  eexists. intros tag. unfold render_tag.
  rewrite !markup_app, markup_escape_html. reflexivity.
Qed.

Lemma render_tags_markup :
  exists k1 kt k2, forall tags h,
    render_tags tags = Ok h ->
    markup h
    = if truthy tags then
        match py_iter tags with
        | Ok items => k1 ++ List.concat (repeat kt (List.length items)) ++ k2
        | Raise _ => []
        end
      else [].
Proof.
  destruct render_tag_markup as (kt & Hkt).
  eexists. exists kt. eexists. intros tags h H. unfold render_tags in H.
  destruct (truthy tags); [|now injection H as <-].
  destruct (py_iter tags) as [items|]; [|discriminate].
  cbn [bind] in H. injection H as <-.
  rewrite !markup_app, markup_concat, map_map.
  rewrite (map_ext _ (fun _ => kt)) by exact Hkt.
  rewrite concat_map_const. reflexivity.
Qed.

Lemma render_snippet_markup :
  exists k, forall loc_info,
    markup (render_snippet loc_info)
    = if truthy (snippet loc_info) then k else [].
Proof.
  eexists. intros loc_info. unfold render_snippet.
  destruct (truthy (snippet loc_info)); [|reflexivity].
  rewrite !markup_app, markup_escape_html. reflexivity.
Qed.

Lemma render_tags_shown (result tags : json) (h : string) :
  tags_of result = Ok tags -> render_tags tags = Ok h ->
  tags_shown result
  = if truthy tags then
      match py_iter tags with
      | Ok items => Some (List.length items)
      | Raise _ => None
      end
    else None.
Proof. unfold tags_shown. now intros ->. Qed.

(** In the entry of a finding the message, the rule identifier, the
    file URI, the snippet and the tags are written through
    [escape_html], which leaves no markup character in them: two
    findings that show the same line and column, both with or both
    without a snippet, and with the same number of tags, give entries
    with the same markup characters.  The same holds for the text of a
    notification and for the file of a row of the table of files. *)
Lemma entry_markup_independent (level : string) (r1 r2 : json) (h1 h2 : string) :
  render_result level r1 = Ok h1 ->
  render_result level r2 = Ok h2 ->
  py_str (start_line (get_location_info r1))
    = py_str (start_line (get_location_info r2)) ->
  py_str (start_column (get_location_info r1))
    = py_str (start_column (get_location_info r2)) ->
  truthy (snippet (get_location_info r1))
    = truthy (snippet (get_location_info r2)) ->
  tags_shown r1 = tags_shown r2 ->
  markup h1 = markup h2 /\
  (forall text, markup (escape_html text) = []) /\
  escape_html (JStr "<script>alert(1)</script>")
    = "&lt;script&gt;alert(1)&lt;/script&gt;"%string /\
  (forall n1 n2 t1 t2,
     render_notification n1 = Ok t1 -> render_notification n2 = Ok t2 ->
     markup t1 = markup t2) /\
  (forall f1 f2 count,
     markup (render_file_row (f1, count)) = markup (render_file_row (f2, count))).
Proof.
  intros H1 H2 Hl Hc Hs Ht.
  split; [|split; [exact markup_escape_html|split; [reflexivity|split]]].
  - destruct render_tags_markup as (k1 & kt & k2 & Hk).
    destruct render_snippet_markup as (ks & Hks).
    unfold render_result in H1, H2.
    apply bind_ok in H1. destruct H1 as (rule1 & _ & H1).
    apply bind_ok in H1. destruct H1 as (msg1 & _ & H1).
    apply bind_ok in H1. destruct H1 as (tags1 & Et1 & H1).
    apply bind_ok in H1. destruct H1 as (th1 & Er1 & H1).
    apply bind_ok in H2. destruct H2 as (rule2 & _ & H2).
    apply bind_ok in H2. destruct H2 as (msg2 & _ & H2).
    apply bind_ok in H2. destruct H2 as (tags2 & Et2 & H2).
    apply bind_ok in H2. destruct H2 as (th2 & Er2 & H2).
    injection H1 as <-. injection H2 as <-.
    rewrite (render_tags_shown r1 tags1 th1 Et1 Er1) in Ht.
    rewrite (render_tags_shown r2 tags2 th2 Et2 Er2) in Ht.
    assert (Hth : markup th1 = markup th2).
    { rewrite (Hk tags1 th1 Er1), (Hk tags2 th2 Er2).
      destruct (truthy tags1), (truthy tags2);
        destruct (py_iter tags1), (py_iter tags2);
        try discriminate; try reflexivity.
      injection Ht as ->. reflexivity. }
    rewrite !markup_app, !markup_escape_html, !Hks, Hth, Hl, Hc, Hs.
    reflexivity.
  - intros n1 n2 t1 t2 E1 E2. unfold render_notification in E1, E2.
    apply bind_ok in E1. destruct E1 as (x1 & _ & E1).
    apply bind_ok in E2. destruct E2 as (x2 & _ & E2).
    injection E1 as <-. injection E2 as <-.
    now rewrite !markup_app, !markup_escape_html.
  - intros f1 f2 count. unfold render_file_row.
    now rewrite !markup_app, !markup_escape_html.
Qed.

End Escaping.

(** A finding whose every text tries to inject markup, and one of the
    same shape with harmless texts. *)
Definition located_finding (rule message uri code tag1 tag2 : string) : json :=
  JObj [("level", JStr "error"); ("ruleId", JStr rule);
        ("message", JObj [("text", JStr message)]);
        ("locations",
         JArr [JObj [("physicalLocation",
                      JObj [("artifactLocation", JObj [("uri", JStr uri)]);
                            ("region",
                             JObj [("startLine", JInt 3);
                                   ("startColumn", JInt 7);
                                   ("snippet", JObj [("text", JStr code)])])])]]);
        ("properties", JObj [("tags", JArr [JStr tag1; JStr tag2])])]%string.

Definition script_finding : json :=
  located_finding "<b>R1</b>" "<script>alert(1)</script>" "a<b>.py"
    "x = '<i>'" "<u>" "'>&<'".

Definition plain_finding : json :=
  located_finding "R1" "unused variable" "a.py" "x = 1" "style" "lint".

(** The text of an entry that was rendered. *)
Definition entry_text (m : py string) : string :=
  match m with
  | Ok h => h
  | Raise _ => ""%string
  end.

(** The message of [script_finding] as its entry shows it. *)
Example script_message_escaped :
  message_of script_finding = Ok (JStr "<script>alert(1)</script>") /\
  @escape_html no_runs_platform (JStr "<script>alert(1)</script>")
    = "&lt;script&gt;alert(1)&lt;/script&gt;"%string /\
  @escape_html no_runs_platform (JStr "'>&<'")
    = "&#x27;&gt;&amp;&lt;&#x27;"%string.
Proof. repeat split. Qed.


(* ================================================================== *)
(** * Further properties of the converter *)

(** ** The sets of files and rules *)

(** The rule identifier a finding is counted under; [None] when it has
    none or is not an object. *)
Definition rule_or_none (result : json) : json :=
  match rule_of result with
  | Ok rule => rule
  | Raise _ => JNull
  end.

Definition counted_rules (rs : list json) : list json :=
  filter truthy (map rule_or_none rs).

Lemma stats_step_rules (st st' : stats) (r : json) :
  stats_step st r = Ok st' ->
  let u := rule_or_none r in
  rules st' = (if truthy u then set_add u (rules st) else rules st) /\
  (truthy u = true -> hashable u = true).
Proof.
  intros H. apply stats_step_ok in H.
  destruct H as (level & uri & rule & _ & _ & _ & Er & _ & Hr & ->).
  unfold rule_or_none. rewrite Er. simpl.
  destruct (count_level_fields st level) as (_ & _ & _ & _ & _ & _ & _ & Hs).
  simpl in Hs.
  destruct (truthy uri), (truthy rule); simpl; rewrite ?Hs; split; auto.
Qed.

Lemma stats_loop_rules (rs : list json) (st st' : stats) :
  stats_loop st rs = Ok st' ->
  rules st' = fold_left (fun s u => set_add u s) (counted_rules rs) (rules st) /\
  Forall (fun u => hashable u = true) (counted_rules rs).
Proof.
  revert st. induction rs as [|r rs IH]; intros st H; simpl in H.
  - injection H as <-. simpl. split; constructor.
  - apply bind_ok in H. destruct H as (s1 & E1 & H).
    apply stats_step_rules in E1. destruct E1 as (R1 & H1).
    apply IH in H. destruct H as (R2 & H2).
    unfold counted_rules in *. simpl.
    destruct (truthy (rule_or_none r)); simpl; rewrite R2, R1; split;
      try constructor; auto.
Qed.

Lemma set_add_subset (u a : json) (s : list json) :
  In a (set_add u s) -> a = u \/ In a s.
Proof.
  rewrite set_add_member. destruct (member u s); [now right|].
  intros H. apply in_app_or in H. destruct H as [H | [<- | []]]; auto.
Qed.

Lemma fold_set_add_subset (us s : list json) (a : json) :
  In a (fold_left (fun s u => set_add u s) us s) -> In a us \/ In a s.
Proof.
  revert s. induction us as [|u us IH]; intros s H; simpl in *; [now right|].
  apply IH in H. destruct H as [H | H]; [now left; right|].
  apply set_add_subset in H. destruct H as [-> | H]; auto.
Qed.

(** The set built from [us] holds one member for each class of equal
    keys of [us]: its members come from [us], no two are equal, and
    every key of [us] equals one of them. *)
Lemma firsts_represent (us : list json) :
  Forall (fun u => hashable u = true) us ->
  (forall a, In a (firsts us) -> In a us) /\
  StronglySorted (fun a b => py_eq a b = false) (firsts us) /\
  (forall u, In u us -> member u (firsts us) = true).
Proof.
  intros Hh. destruct (firsts_order us Hh) as (I1 & I2 & I3).
  split; [|split].
  - intros a Ha. apply fold_set_add_subset in Ha.
    destruct Ha as [Ha | []]. exact Ha.
  - eapply StronglySorted_weaken; [|exact I1].
    intros a b _ _ Hab. cbv beta in Hab.
    destruct (py_eq a b) eqn:E; [|reflexivity].
    rewrite (first_seen_py_eq a b us E) in Hab. lia.
  - intros u Hu. destruct (member u (firsts us)) eqn:Hm; [reflexivity|].
    apply I3 in Hm. rewrite Forall_forall in Hh.
    pose proof (first_seen_in u us Hu (Hh u Hu)). lia.
Qed.

Lemma length_set_add (u : json) (s : list json) :
  List.length (set_add u s) <= S (List.length s).
Proof.
  rewrite set_add_member. destruct (member u s); [lia|].
  rewrite length_app. simpl. lia.
Qed.

Lemma length_firsts (us : list json) :
  List.length (firsts us) <= List.length us.
Proof.
  unfold firsts.
  assert (H : forall s, List.length (fold_left (fun s u => set_add u s) us s)
                        <= List.length s + List.length us).
  { induction us as [|u us IH]; intros s; simpl; [lia|].
    specialize (IH (set_add u s)). pose proof (length_set_add u s). lia. }
  apply (H []).
Qed.

Lemma sum_incr (u : json) (d : list (json * nat)) :
  list_sum (map snd (incr u d)) = S (list_sum (map snd d)).
Proof.
  induction d as [|[a n] d IH]; simpl; [reflexivity|].
  destruct (py_eq a u); simpl; [reflexivity | rewrite IH; lia].
Qed.

Lemma sum_tally (us : list json) (d : list (json * nat)) :
  list_sum (map snd (tally us d)) = list_sum (map snd d) + List.length us.
Proof.
  revert d. induction us as [|u us IH]; intros d; simpl; [lia|].
  unfold tally in IH. rewrite IH, sum_incr. lia.
Qed.

Lemma length_filter_le {A} (p : A -> bool) (l : list A) :
  List.length (filter p l) <= List.length l.
Proof.
  induction l as [|x l IH]; simpl; [lia|]. destruct (p x); simpl; lia.
Qed.

Lemma get_statistics_loop (self : converter) (rs : list json) (st : statistics) :
  results self = JArr rs -> get_statistics self = Ok st ->
  exists s, stats_loop (stats_init (List.length rs)) rs = Ok s /\
            st = stats_final s.
Proof.
  intros E H. rewrite (get_statistics_list self rs E) in H.
  apply bind_ok in H. destruct H as (s & Hs & H). injection H as <-. eauto.
Qed.

(** X1.  In the statistics of a list of findings, the number of affected
    files is the number of rows of the per-file table; the rows are
    pairwise different files, each the first-location URI of some
    finding; the counts of the table add up to the number of findings
    that have a truthy first-location URI, so a finding without one is in
    neither; and there are no more files than such findings. *)
Theorem files_and_table_agree (self : converter) (rs : list json)
    (st : statistics) :
  results self = JArr rs ->
  get_statistics self = Ok st ->
  stat_files st = List.length (stat_by_file st) /\
  StronglySorted (fun a b => py_eq a b = false) (map fst (stat_by_file st)) /\
  (forall f, In f (map fst (stat_by_file st)) -> In f (counted_uris rs)) /\
  list_sum (map snd (stat_by_file st)) = List.length (counted_uris rs) /\
  stat_files st <= List.length (counted_uris rs) /\
  List.length (counted_uris rs) <= List.length rs.
Proof.
  intros E H. destruct (get_statistics_loop self rs st E H) as (s & Hs & ->).
  apply stats_loop_files in Hs. destruct Hs as (Hb & Hf & Hh).
  simpl in *. rewrite Hb, Hf.
  assert (Hk : map fst (tally (counted_uris rs) []) = firsts (counted_uris rs))
    by apply keys_tally.
  destruct (firsts_represent (counted_uris rs) Hh) as (R1 & R2 & _).
  rewrite Hk. fold (firsts (counted_uris rs)).
  repeat split; try assumption.
  - now rewrite <- Hk, length_map.
  - now rewrite sum_tally.
  - apply length_firsts.
  - unfold counted_uris. rewrite <- (length_map uri_or_none rs).
    apply length_filter_le.
Qed.

Lemma files_and_table_agree_witness :
  let st := {| stat_total := 6; stat_errors := 0; stat_warnings := 6;
               stat_notes := 0; stat_files := 3; stat_rules := 0;
               stat_by_level := [(JStr "warning", 6)];
               stat_by_file := [(JStr "c.py", 1); (JStr "a.py", 2);
                                (JStr "b.py", 2)] |} in
  stat_files st = List.length (stat_by_file st) /\
  StronglySorted (fun a b => py_eq a b = false) (map fst (stat_by_file st)) /\
  (forall f, In f (map fst (stat_by_file st)) ->
             In f (counted_uris tied_findings)) /\
  list_sum (map snd (stat_by_file st)) = List.length (counted_uris tied_findings) /\
  stat_files st <= List.length (counted_uris tied_findings) /\
  List.length (counted_uris tied_findings) <= List.length tied_findings.
Proof.
  apply (files_and_table_agree tied_converter tied_findings); reflexivity.
Defined.

(** X2.  The number of unique rules is the size of a set of rule
    identifiers that are pairwise different, each the [ruleId] of some
    finding, and among which every truthy [ruleId] of a finding has an
    equal; findings without a [ruleId] add nothing to it. *)
Theorem rules_are_distinct (self : converter) (rs : list json)
    (st : statistics) :
  results self = JArr rs ->
  get_statistics self = Ok st ->
  exists s,
    stat_rules st = List.length s /\
    StronglySorted (fun a b => py_eq a b = false) s /\
    (forall a, In a s -> In a (counted_rules rs)) /\
    (forall u, In u (counted_rules rs) -> member u s = true) /\
    stat_rules st <= List.length (counted_rules rs) /\
    List.length (counted_rules rs) <= List.length rs.
Proof.
  intros E H. destruct (get_statistics_loop self rs st E H) as (s & Hs & ->).
  apply stats_loop_rules in Hs. destruct Hs as (Hr & Hh). simpl in *.
  destruct (firsts_represent (counted_rules rs) Hh) as (R1 & R2 & R3).
  exists (firsts (counted_rules rs)). rewrite Hr.
  repeat split; try assumption.
  - apply length_firsts.
  - unfold counted_rules. rewrite <- (length_map rule_or_none rs).
    apply length_filter_le.
Qed.

Definition ruled_findings : list json :=
  [ JObj [("ruleId", JStr "E501")]; JObj [("ruleId", JStr "W291")];
    JObj []; JObj [("ruleId", JStr "E501")]; JObj [("ruleId", JStr "")] ]%string.

Definition ruled_converter : converter :=
  {| sarif_file := "report.sarif"; data := JNull;
     results := JArr ruled_findings; notifications := JArr [] |}.

Lemma rules_are_distinct_witness :
  exists s,
    2 = List.length s /\
    StronglySorted (fun a b => py_eq a b = false) s /\
    (forall a, In a s -> In a (counted_rules ruled_findings)) /\
    (forall u, In u (counted_rules ruled_findings) -> member u s = true) /\
    2 <= List.length (counted_rules ruled_findings) /\
    List.length (counted_rules ruled_findings) <= List.length ruled_findings.
Proof.
  apply (rules_are_distinct ruled_converter ruled_findings
           {| stat_total := 5; stat_errors := 0; stat_warnings := 5;
              stat_notes := 0; stat_files := 0; stat_rules := 2;
              stat_by_level := [(JStr "warning", 5)];
              stat_by_file := [] |}); reflexivity.
Defined.

(* ------------------------------------------------------------------ *)
(** ** Statistics and categories together *)

Lemma categorize_results_leveled (self : converter) (rs : list json)
    (c : groups) :
  results self = JArr rs -> categorize_results self = Ok c ->
  forallb leveled rs = true.
Proof.
  intros E H. rewrite <- (categorize_results_returns self rs E).
  now rewrite H.
Qed.

Lemma categorize_results_loop (self : converter) (rs : list json) (c : groups) :
  results self = JArr rs -> categorize_results self = Ok c ->
  categorize_loop categorized_init rs = Ok c.
Proof. intros E H. unfold categorize_results in H. now rewrite E in H. Qed.

(** X3.  The numbers on the error, warning and note cards are the
    numbers of entries of the error, warning and note groups, and the
    total is the number of findings in all groups together. *)
Theorem cards_match_groups (self : converter) (rs : list json)
    (st : statistics) (c : groups) :
  results self = JArr rs ->
  get_statistics self = Ok st ->
  categorize_results self = Ok c ->
  stat_errors st = List.length (group_of (JStr "error") c) /\
  stat_warnings st = List.length (group_of (JStr "warning") c) /\
  stat_notes st = List.length (group_of (JStr "note") c) /\
  stat_total st = List.length (flatten c).
Proof.
  intros E Hs Hc.
  destruct (get_statistics_loop self rs st E Hs) as (s & Hl & ->).
  apply stats_loop_counts in Hl. destruct Hl as (Ht & He & Hw & Hn & _).
  pose proof (categorize_results_leveled self rs c E Hc) as Hlv.
  destruct (categorize_results_groups self rs E Hlv) as (c' & Hc' & Hg).
  assert (c' = c) by congruence. subst c'.
  apply (categorize_results_loop self rs c E) in Hc.
  destruct (categorize_loop_keys rs _ c Hc eq_refl) as (_ & _ & Hp).
  { repeat constructor. }
  simpl in *. rewrite !Hg, He, Hw, Hn, Ht.
  repeat split; try reflexivity.
  apply Permutation_length in Hp. simpl in Hp. now rewrite Hp.
Qed.

Lemma cards_match_groups_witness :
  let st := {| stat_total := 4; stat_errors := 1; stat_warnings := 1;
               stat_notes := 1; stat_files := 0; stat_rules := 1;
               stat_by_level := [(JStr "error", 1); (JStr "warning", 1);
                                 (JStr "info", 1); (JStr "note", 1)];
               stat_by_file := [] |} in
  let c := [(JStr "error", [JObj [("level", JStr "error"); ("ruleId", JStr "R1")]]);
            (JStr "warning", [JObj [("message", JObj [("text", JStr "no level")])]]);
            (JStr "note", [JObj [("level", JStr "note")]]);
            (JStr "info", [JObj [("level", JStr "info")]])]%string in
  stat_errors st = List.length (group_of (JStr "error") c) /\
  stat_warnings st = List.length (group_of (JStr "warning") c) /\
  stat_notes st = List.length (group_of (JStr "note") c) /\
  stat_total st = List.length (flatten c).
Proof.
  apply (cards_match_groups sample_converter sample_findings); reflexivity.
Defined.

Lemma keys_append_to (l r : json) (c : groups) :
  map fst (append_to l r c) = map fst c.
Proof.
  induction c as [|[a g] c IH]; simpl; [reflexivity|].
  destruct (py_eq a l); simpl; [reflexivity | now rewrite IH].
Qed.

Lemma categorize_loop_order (rs : list json) (c c' : groups) :
  categorize_loop c rs = Ok c' ->
  exists extra,
    map fst c' = map fst c ++ extra /\
    forall k, In k extra ->
      has_key k c = false /\ exists r, In r rs /\ level_of r = Ok k.
Proof.
  revert c. induction rs as [|r rs IH]; intros c H; simpl in H.
  - injection H as <-. exists []. split; [now rewrite app_nil_r|].
    intros k [].
  - apply bind_ok in H. destruct H as (c1 & E1 & H).
    pose proof (categorize_step_groups c c1 r E1) as Hk.
    apply categorize_step_ok in E1. destruct E1 as (level & El & Hl & ->).
    destruct (IH _ H) as (extra & Hm & Hx). clear IH H.
    rewrite keys_append_to in Hm.
    assert (Hold : forall k, In k extra ->
              has_key k c = false /\ exists r0, In r0 (r :: rs) /\ level_of r0 = Ok k).
    { intros k Hin. destruct (Hx k Hin) as (Hf & r0 & Hr0 & Hlv).
      destruct (Hk k) as (_ & Hk'). rewrite Hk' in Hf.
      apply orb_false_elim in Hf. destruct Hf as (Hf & _).
      split; [assumption|]. exists r0. split; [now right | assumption]. }
    destruct (has_key level c) eqn:Hc; simpl in Hm.
    + exists extra. split; assumption.
    + exists (level :: extra). rewrite map_app in Hm. simpl in Hm.
      rewrite <- app_assoc in Hm. split; [exact Hm|].
      intros k [<- | Hin]; [|now apply Hold].
      split; [assumption|]. exists r. split; [now left | assumption].
Qed.

(** X4.  The dictionary of categories always starts with the groups
    [error], [warning] and [note], in that order, whether or not a
    finding has such a level; every further key is the level of some
    finding and is none of the three names. *)
Theorem canonical_groups_first (self : converter) (rs : list json)
    (c : groups) :
  results self = JArr rs ->
  categorize_results self = Ok c ->
  exists extra,
    map fst c = [JStr "error"; JStr "warning"; JStr "note"] ++ extra /\
    forall k, In k extra ->
      (exists r, In r rs /\ level_of r = Ok k) /\
      py_eq k (JStr "error") = false /\
      py_eq k (JStr "warning") = false /\
      py_eq k (JStr "note") = false.
Proof.
  intros E H. apply (categorize_results_loop self rs c E) in H.
  destruct (categorize_loop_order rs _ c H) as (extra & Hm & Hx).
  exists extra. split; [exact Hm|].
  intros k Hin. destruct (Hx k Hin) as (Hf & Hr). split; [exact Hr|].
  unfold categorized_init in Hf. cbn [has_key] in Hf.
  apply orb_false_elim in Hf. destruct Hf as (He & Hf).
  apply orb_false_elim in Hf. destruct Hf as (Hw & Hf).
  apply orb_false_elim in Hf. destruct Hf as (Hn & _).
  rewrite (py_eq_sym k (JStr "error")), (py_eq_sym k (JStr "warning")),
    (py_eq_sym k (JStr "note")).
  repeat split; assumption.
Qed.

Definition sample_groups : groups :=
  [(JStr "error", [JObj [("level", JStr "error"); ("ruleId", JStr "R1")]]);
   (JStr "warning", [JObj [("message", JObj [("text", JStr "no level")])]]);
   (JStr "note", [JObj [("level", JStr "note")]]);
   (JStr "info", [JObj [("level", JStr "info")]])]%string.

Lemma canonical_groups_first_witness :
  exists extra,
    map fst sample_groups
      = [JStr "error"; JStr "warning"; JStr "note"] ++ extra /\
    forall k, In k extra ->
      (exists r, In r sample_findings /\ level_of r = Ok k) /\
      py_eq k (JStr "error") = false /\
      py_eq k (JStr "warning") = false /\
      py_eq k (JStr "note") = false.
Proof.
  apply (canonical_groups_first sample_converter sample_findings sample_groups);
    reflexivity.
Defined.

(* ------------------------------------------------------------------ *)
(** ** The location shown and the file counted *)



(** X6.  A finding that is an object without [locations], or with an
    empty list of them, is shown with file [unknown], [?] for the four
    positions and no snippet, and is counted under no file; it cannot
    make the statistics raise on account of its location. *)
Theorem no_location_defaults (items : list (string * json)) :
  lookup "locations" items = None \/ lookup "locations" items = Some (JArr []) ->
  get_location_info (JObj items) = location_default /\
  first_uri (JObj items) = Ok JNull /\
  uri_or_none (JObj items) = JNull.
Proof.
  unfold get_location_info, read_location, uri_or_none, first_uri. simpl.
  intros [-> | ->]; simpl; repeat split.
Qed.

Lemma no_location_defaults_witness :
  get_location_info (JObj [("level", JStr "note"); ("locations", JArr [])]%string)
    = location_default /\
  first_uri (JObj [("level", JStr "note"); ("locations", JArr [])]%string)
    = Ok JNull /\
  uri_or_none (JObj [("level", JStr "note"); ("locations", JArr [])]%string)
    = JNull.
Proof.
  apply (no_location_defaults [("level", JStr "note"); ("locations", JArr [])]%string).
  right. reflexivity.
Defined.

(* ------------------------------------------------------------------ *)
(** ** Documents of the SARIF shape *)

(** The shapes SARIF gives the fields the program reads; every field may
    be missing.  Nothing is asked of the region of a location, of the
    tags themselves, or of fields the program does not read. *)
Definition is_str (v : json) : bool :=
  match v with JStr _ => true | _ => false end.

Definition is_obj (v : json) : bool :=
  match v with JObj _ => true | _ => false end.

Definition is_list (v : json) : bool :=
  match v with JArr _ => true | _ => false end.

Definition list_of (p : json -> bool) (v : json) : bool :=
  match v with JArr l => forallb p l | _ => false end.

(** The field [k] is missing or satisfies [p]. *)
Definition field_ok (items : list (string * json)) (k : string)
    (p : json -> bool) : bool :=
  match lookup k items with
  | None => true
  | Some v => p v
  end.

Definition obj_where (p : list (string * json) -> bool) (v : json) : bool :=
  match v with JObj items => p items | _ => false end.

Definition sarif_location : json -> bool :=
  obj_where (fun li =>
    field_ok li "physicalLocation" (obj_where (fun pi =>
      field_ok pi "artifactLocation" (obj_where (fun ai =>
        field_ok ai "uri" is_str))))).

Definition sarif_locations (v : json) : bool :=
  match v with
  | JArr [] => true
  | JArr (loc :: _) => sarif_location loc
  | _ => false
  end.

Definition sarif_result : json -> bool :=
  obj_where (fun items =>
    field_ok items "level" is_str
    && field_ok items "ruleId" is_str
    && field_ok items "message" is_obj
    && field_ok items "properties" (obj_where (fun pi => field_ok pi "tags" is_list))
    && field_ok items "locations" sarif_locations).

Definition sarif_notification : json -> bool :=
  obj_where (fun items => field_ok items "message" is_obj).

Definition sarif_run : json -> bool :=
  obj_where (fun ri =>
    field_ok ri "results" (list_of sarif_result)
    && field_ok ri "toolExecutionNotifications" (list_of sarif_notification)).

Definition sarif_document : json -> bool :=
  obj_where (fun items =>
    field_ok items "runs" (fun runs =>
      match runs with
      | JArr [] => true
      | JArr (run :: _) => sarif_run run
      | _ => false
      end)).

Lemma sarif_result_fields (r : json) :
  sarif_result r = true ->
  exists items,
    r = JObj items /\
    field_ok items "level" is_str = true /\
    field_ok items "ruleId" is_str = true /\
    field_ok items "message" is_obj = true /\
    field_ok items "properties"
      (obj_where (fun pi => field_ok pi "tags" is_list)) = true /\
    field_ok items "locations" sarif_locations = true.
Proof.
  destruct r as [| | | | | |items]; try discriminate. simpl. intros H.
  apply andb_prop in H. destruct H as (H & H5).
  apply andb_prop in H. destruct H as (H & H4).
  apply andb_prop in H. destruct H as (H & H3).
  apply andb_prop in H. destruct H as (H1 & H2).
  exists items. repeat split; assumption.
Qed.

Lemma sarif_result_level (r : json) :
  sarif_result r = true -> exists s, level_of r = Ok (JStr s).
Proof.
  intros H. apply sarif_result_fields in H.
  destruct H as (items & -> & H1 & _). unfold level_of, field_ok in *. simpl.
  destruct (lookup "level" items) as [v|]; [|eauto].
  destruct v; try discriminate. eauto.
Qed.

Lemma sarif_result_uri (r : json) :
  sarif_result r = true ->
  exists u, first_uri r = Ok u /\ (u = JNull \/ exists s, u = JStr s).
Proof.
  intros H. apply sarif_result_fields in H.
  destruct H as (items & -> & _ & _ & _ & _ & H5).
  unfold first_uri, field_ok in *. simpl.
  destruct (lookup "locations" items) as [locs|]; simpl; [|eauto].
  destruct locs as [| | | | |l|]; try discriminate.
  destruct l as [|loc l]; simpl; [eauto|].
  simpl in H5. destruct loc as [| | | | | |li]; try discriminate.
  simpl in *. unfold field_ok in H5.
  destruct (lookup "physicalLocation" li) as [ph|]; simpl; [|eauto].
  destruct ph as [| | | | | |pi]; try discriminate. simpl in *.
  unfold field_ok in H5.
  destruct (lookup "artifactLocation" pi) as [a|]; simpl; [|eauto].
  destruct a as [| | | | | |ai]; try discriminate. simpl in *.
  unfold field_ok in H5.
  destruct (lookup "uri" ai) as [u|]; simpl; [|eauto].
  destruct u; try discriminate. eauto.
Qed.

Lemma sarif_result_rule (r : json) :
  sarif_result r = true ->
  exists u, rule_of r = Ok u /\ (u = JNull \/ exists s, u = JStr s).
Proof.
  intros H. apply sarif_result_fields in H.
  destruct H as (items & -> & _ & H2 & _).
  unfold rule_of, field_ok in *. simpl.
  destruct (lookup "ruleId" items) as [v|] eqn:E; simpl; [|eauto].
  destruct v; try discriminate. simpl.
  destruct (negb (s =? "")%string); simpl; rewrite ?E; eauto.
Qed.

Lemma sarif_result_countable (r : json) :
  sarif_result r = true -> countable r = true.
Proof.
  intros H. unfold countable.
  destruct (sarif_result_level r H) as (s & ->).
  destruct (sarif_result_uri r H) as (u & -> & Hu).
  destruct (sarif_result_rule r H) as (v & -> & Hv).
  destruct Hu as [-> | (a & ->)], Hv as [-> | (b & ->)]; simpl;
    rewrite ?orb_true_r; reflexivity.
Qed.

Lemma sarif_result_leveled (r : json) :
  sarif_result r = true -> leveled r = true.
Proof.
  intros H. unfold leveled. now destruct (sarif_result_level r H) as (s & ->).
Qed.

Lemma forallb_impl {A} (p q : A -> bool) (l : list A) :
  (forall x, p x = true -> q x = true) ->
  forallb p l = true -> forallb q l = true.
Proof.
  intros H. induction l as [|x l IH]; simpl; [reflexivity|].
  intros Hl. apply andb_prop in Hl. destruct Hl as (Hx & Hl).
  now rewrite (H x Hx), IH.
Qed.

Section Shaped.

Context {P : platform}.

Lemma render_each_ok {A} (f : A -> py string) (l : list A) :
  (forall x, In x l -> exists h, f x = Ok h) ->
  exists h, render_each f l = Ok h.
Proof.
  induction l as [|x l IH]; simpl; intros H; [eauto|].
  destruct (H x (or_introl eq_refl)) as (h & ->). simpl.
  destruct IH as (t & ->); [intros y Hy; apply H; now right|].
  simpl. eauto.
Qed.

Lemma sarif_result_renders (level : string) (r : json) :
  sarif_result r = true -> exists h, render_result level r = Ok h.
Proof.
  intros H. apply sarif_result_fields in H.
  destruct H as (items & -> & _ & _ & H3 & H4 & _).
  unfold render_result, rule_id_of, message_of, tags_of, field_ok in *.
  cbn [py_get].
  destruct (lookup "ruleId" items); cbn [bind];
    (destruct (lookup "message" items) as [m|]; cbn [bind py_get];
     [destruct m as [| | | | | |mi]; try discriminate; cbn [bind py_get]|]);
    (destruct (lookup "properties" items) as [p|]; cbn [bind py_get lookup];
     [destruct p as [| | | | | |pi]; try discriminate; cbn [bind py_get];
      simpl in H4; unfold field_ok in H4;
      destruct (lookup "tags" pi) as [t|]; cbn [bind];
      [destruct t as [| | | | |tl|]; try discriminate;
       destruct tl; cbn [bind render_tags truthy py_iter negb]
      | cbn [bind render_tags truthy negb] ]
     | cbn [bind render_tags truthy negb] ]);
    repeat match goal with
      | |- context [lookup ?k ?i] => destruct (lookup k i); cbn [bind]
      end;
    eauto.
Qed.

Lemma sarif_notification_renders (n : json) :
  sarif_notification n = true -> exists h, render_notification n = Ok h.
Proof.
  destruct n as [| | | | | |items]; try discriminate.
  unfold sarif_notification, render_notification, message_of, field_ok.
  cbn [obj_where py_get].
  destruct (lookup "message" items) as [m|]; cbn [bind py_get].
  - destruct m as [| | | | | |mi]; try discriminate. cbn [bind py_get].
    intros _. destruct (lookup "text" mi); cbn [bind]; eauto.
  - intros _. cbn [lookup bind]. eauto.
Qed.

(** On findings and notifications of the SARIF shape the text of the
    report is produced: no step of [generate_html] raises. *)
Lemma render_shaped (self : converter) (rs ns : list json) :
  results self = JArr rs -> notifications self = JArr ns ->
  forallb sarif_result rs = true ->
  forallb sarif_notification ns = true ->
  exists html, render self = Ok html.
Proof.
  intros Er En Hr Hn. unfold render.
  assert (Hc : forallb countable rs = true)
    by (eapply forallb_impl; [|exact Hr]; apply sarif_result_countable).
  assert (Hl : forallb leveled rs = true)
    by (eapply forallb_impl; [|exact Hr]; apply sarif_result_leveled).
  rewrite (get_statistics_list self rs Er).
  destruct (stats_loop_countable rs (stats_init (List.length rs)) Hc)
    as (st & ->).
  cbn [bind].
  destruct (categorize_results_groups self rs Er Hl) as (c & -> & Hg).
  cbn [bind]. rewrite En.
  assert (Hno : exists h, render_notifications (JArr ns) = Ok h).
  { unfold render_notifications. destruct ns as [|n ns']; [simpl; eauto|].
    cbn [truthy py_len py_iter bind].
    destruct (render_each_ok render_notification (n :: ns')) as (body & ->).
    - intros x Hx. apply sarif_notification_renders.
      rewrite forallb_forall in Hn. now apply Hn.
    - cbn [bind]. eauto. }
  destruct Hno as (hn & ->). cbn [bind].
  assert (Hlv : exists h, render_levels c = Ok h).
  { unfold render_levels. apply render_each_ok. intros level _.
    unfold render_level. rewrite Hg. unfold render_group.
    destruct (filter (has_level (JStr level)) rs) as [|r g] eqn:Ef; [eauto|].
    destruct (render_each_ok (render_result level) (r :: g)) as (body & ->).
    - intros x Hx. apply sarif_result_renders.
      rewrite forallb_forall in Hr. apply Hr.
      rewrite <- Ef in Hx. apply filter_In in Hx. tauto.
    - cbn [bind]. eauto. }
  destruct Hlv as (hl & ->). cbn [bind]. eauto.
Qed.

End Shaped.

(* ------------------------------------------------------------------ *)
(** ** Runs of the whole program *)

Section Runs.

Context {P : platform}.

(** The three lines [load_sarif] prints when it succeeds. *)
Definition loaded_lines (path : string) (n m : nat) (w : world) : world :=
  print ("  - " ++ str_of_nat m ++ " notifications found")%string
    (print ("  - " ++ str_of_nat n ++ " results found")%string
       (print ("✓ Loaded SARIF file: " ++ path_name path)%string w)).

Lemma load_sarif_loaded (path : string) (w : world) (d rs ns : json)
    (n m : nat) :
  read_json path = Ok d ->
  first_run (set_data (init path) d) = Ok (rs, ns) ->
  py_len rs = Ok n -> py_len ns = Ok m ->
  load_sarif (init path) w
  = (loaded_lines path n m w,
     set_run (set_data (init path) d) rs ns, true).
Proof.
  intros Hd Hf Hn Hm. unfold load_sarif. cbn [sarif_file init].
  rewrite Hd. cbv zeta. rewrite Hf. cbv zeta. now rewrite Hn, Hm.
Qed.

(** What [load_sarif] leaves alone: the files, the path, and, when it
    succeeds, standard error. *)
Lemma load_sarif_effects (self self' : converter) (w w' : world) (ok : bool) :
  load_sarif self w = (w', self', ok) ->
  written w' = written w /\
  sarif_file self' = sarif_file self /\
  (ok = true -> stderr w' = stderr w).
Proof.
  unfold load_sarif.
  destruct (read_json (sarif_file self)) as [d|e].
  2:{ intros H. injection H as <- <- <-. repeat split. discriminate. }
  cbv zeta. destruct (first_run (set_data self d)) as [[rs ns]|e].
  2:{ intros H. injection H as <- <- <-. repeat split. discriminate. }
  cbv zeta. destruct (py_len rs) as [n|e].
  2:{ intros H. injection H as <- <- <-. repeat split. discriminate. }
  destruct (py_len ns) as [m|e]; intros H; injection H as <- <- <-;
    repeat split; discriminate.
Qed.

Lemma load_sarif_shaped (path : string) (w : world) (d : json) :
  read_json path = Ok d ->
  sarif_document d = true ->
  exists w1 self rs ns,
    load_sarif (init path) w = (w1, self, true) /\
    stderr w1 = stderr w /\ written w1 = written w /\
    sarif_file self = path /\
    results self = JArr rs /\ notifications self = JArr ns /\
    forallb sarif_result rs = true /\
    forallb sarif_notification ns = true.
Proof.
  intros Hd Hs.
  assert (H : exists rs ns,
            first_run (set_data (init path) d) = Ok (JArr rs, JArr ns) /\
            forallb sarif_result rs = true /\
            forallb sarif_notification ns = true).
  { destruct d as [| | | | | |items]; try discriminate.
    unfold first_run. cbn [data set_data py_get py_item].
    simpl in Hs. unfold field_ok in Hs.
    destruct (lookup "runs" items) as [runs|]; cbn [bind].
    2:{ exists [], []. repeat split. }
    destruct runs as [| | | | |l|]; try discriminate.
    destruct l as [|run l]; cbn [truthy bind py_index0].
    { exists [], []. repeat split. }
    destruct run as [| | | | | |ri]; try discriminate.
    simpl in Hs. apply andb_prop in Hs. destruct Hs as (H1 & H2).
    unfold field_ok in H1, H2. cbn [py_get].
    destruct (lookup "results" ri) as [v|]; cbn [bind];
      [destruct v as [| | | | |rs|]; try discriminate|];
      (destruct (lookup "toolExecutionNotifications" ri) as [u|]; cbn [bind];
       [destruct u as [| | | | |ns|]; try discriminate|]);
      do 2 eexists; repeat split; assumption. }
  destruct H as (rs & ns & Hf & Hr & Hn).
  rewrite (load_sarif_loaded path w d (JArr rs) (JArr ns) _ _ Hd Hf
             eq_refl eq_refl).
  do 4 eexists. repeat split; assumption.
Qed.

(** The path [generate_html] writes to: the second argument when
    there is one, else the stem of the input with [_report.html]. *)
Definition output_path (path : string) (rest : list string) : string :=
  match rest with
  | o :: _ => o
  | [] => (path_stem path ++ "_report.html")%string
  end.

Definition write_diagnostic (e : exn) : string :=
  ("✗ Error writing HTML file: " ++ describe e)%string.

End Runs.

(** A document of the SARIF shape: one run with the four sample
    findings, two located findings and one notification. *)
Definition sample_document : json :=
  JObj [("version", JStr "2.1.0");
        ("runs",
         JArr [JObj [("results",
                      JArr (sample_findings ++ [script_finding; plain_finding]));
                     ("toolExecutionNotifications",
                      JArr [JObj [("message", JObj [("text", JStr "parse error")])]])]])]%string.

Definition sample_document_platform : platform :=
  sample_platform "(the text of the sample document)"
    [("(the text of the sample document)"%string, sample_document)].

Lemma code_points_nonempty (s : string) :
  s <> ""%string -> exists c cs, code_points s = c :: cs.
Proof.
  destruct s as [|a s]; [congruence|]. intros _. simpl.
  destruct (code_points s) as [|c cs]; [eauto|].
  destruct (continues s); eauto.
Qed.

Section FirstRun.

Context {P : platform}.

(** The value of a field of the first run, or the empty list. *)
Definition run_field (run_items : list (string * json)) (k : string) : json :=
  match lookup k run_items with
  | Some v => v
  | None => JArr []
  end.

Lemma first_run_first (path : string) (items run_items : list (string * json))
    (others : list json) :
  lookup "runs" items = Some (JArr (JObj run_items :: others)) ->
  first_run (set_data (init path) (JObj items))
  = Ok (run_field run_items "results",
        run_field run_items "toolExecutionNotifications").
Proof.
  intros Hl. unfold first_run, run_field. cbn [data set_data py_get py_item].
  rewrite Hl. cbn [bind truthy py_index0 py_get].
  destruct (lookup "results" run_items),
    (lookup "toolExecutionNotifications" run_items); reflexivity.
Qed.

(** X9.  When [runs] is a list whose first element is an object,
    [load_sarif] takes the findings and the notifications from that
    first run alone — its [results] and [toolExecutionNotifications],
    each the empty list when missing — whatever the later runs and the
    other fields hold; it succeeds exactly when both values have a
    length, so also when one of them is a string or an object. *)
Theorem only_first_run_is_read (path : string) (w : world)
    (items run_items : list (string * json)) (others : list json) :
  read_json path = Ok (JObj items) ->
  lookup "runs" items = Some (JArr (JObj run_items :: others)) ->
  exists w' self,
    load_sarif (init path) w
    = (w', self,
       is_ok (py_len (run_field run_items "results"))
       && is_ok (py_len (run_field run_items "toolExecutionNotifications"))) /\
    results self = run_field run_items "results" /\
    notifications self = run_field run_items "toolExecutionNotifications" /\
    written w' = written w.
Proof.
  intros Hd Hl. unfold load_sarif. cbn [sarif_file init]. rewrite Hd.
  cbv zeta. fold (init path).
  rewrite (first_run_first path items run_items others Hl). cbv zeta.
  destruct (py_len (run_field run_items "results")) as [n|e];
    [destruct (py_len (run_field run_items "toolExecutionNotifications"))
       as [m|e]|];
    do 2 eexists; repeat split.
Qed.

(** X10.  A first run whose [results] is a non-empty string or a
    non-empty object (and that has no notifications) passes [load_sarif],
    since it has a length; [generate_html] then iterates its characters
    or its keys as findings and raises [AttributeError] at the first
    one, and [main] ends with that uncaught exception and no file. *)
Theorem unlisted_results_crash (prog path : string) (rest : list string)
    (w : world) (items run_items : list (string * json)) (others : list json)
    (v : json) :
  read_json path = Ok (JObj items) ->
  lookup "runs" items = Some (JArr (JObj run_items :: others)) ->
  lookup "results" run_items = Some v ->
  lookup "toolExecutionNotifications" run_items = None ->
  (exists s, v = JStr s /\ s <> ""%string) \/
    (exists kv kvs, v = JObj (kv :: kvs)) ->
  exists w',
    main (prog :: path :: rest) w = (w', Crash AttributeError) /\
    written w' = written w /\
    stderr w' = stderr w.
Proof.
  intros Hd Hl Hr Hn Hv.
  assert (Hf : first_run (set_data (init path) (JObj items)) = Ok (v, JArr [])).
  { rewrite (first_run_first path items run_items others Hl).
    unfold run_field. now rewrite Hr, Hn. }
  assert (Hi : exists n c cs, py_len v = Ok n /\ py_iter v = Ok (JStr c :: cs)).
  { destruct Hv as [(s & -> & Hs) | (kv & kvs & ->)].
    - destruct (code_points_nonempty s Hs) as (c & cs & Hc).
      simpl. rewrite Hc. simpl. eauto.
    - simpl. eauto. }
  destruct Hi as (n & c & cs & Hlen & Hit).
  unfold main.
  rewrite (load_sarif_loaded path w (JObj items) v (JArr []) n 0 Hd Hf Hlen eq_refl).
  cbn [negb]. unfold generate_html, render, get_statistics.
  cbn [results set_run]. rewrite Hlen, Hit. cbn [bind stats_loop].
  unfold stats_step at 1. cbn [level_of py_get bind].
  eexists. repeat split.
Qed.

End FirstRun.

Definition two_runs_document : json :=
  JObj [("runs",
         JArr [JObj [("results", JArr [plain_finding])];
               JObj [("results", JStr "ignored")]])]%string.

Definition two_runs_platform : platform :=
  sample_platform "(two runs)" [("(two runs)"%string, two_runs_document)].

Lemma only_first_run_is_read_witness :
  exists w' self,
    @load_sarif two_runs_platform (init "report.sarif") world0
    = (w', self,
       is_ok (py_len (run_field [("results", JArr [plain_finding])]%string "results"))
       && is_ok (py_len (run_field [("results", JArr [plain_finding])]%string
                           "toolExecutionNotifications"))) /\
    results self = run_field [("results", JArr [plain_finding])]%string "results" /\
    notifications self
      = run_field [("results", JArr [plain_finding])]%string
          "toolExecutionNotifications" /\
    written w' = written world0.
Proof.
  apply (@only_first_run_is_read two_runs_platform "report.sarif" world0
           [("runs",
             JArr [JObj [("results", JArr [plain_finding])];
                   JObj [("results", JStr "ignored")]])]%string
           [("results", JArr [plain_finding])]%string
           [JObj [("results", JStr "ignored")]%string]); reflexivity.
Defined.

Definition keyed_results_document : json :=
  JObj [("runs",
         JArr [JObj [("results", JObj [("0", plain_finding)])]])]%string.

Definition keyed_results_platform : platform :=
  sample_platform "(results as an object)"
    [("(results as an object)"%string, keyed_results_document)].

Lemma unlisted_results_crash_witness :
  exists w',
    @main keyed_results_platform ["sarif2html.py"; "report.sarif"]%string world0
      = (w', Crash AttributeError) /\
    written w' = written world0 /\
    stderr w' = stderr world0.
Proof.
  apply (@unlisted_results_crash keyed_results_platform
           "sarif2html.py" "report.sarif" [] world0
           [("runs", JArr [JObj [("results", JObj [("0", plain_finding)])]])]
           [("results", JObj [("0", plain_finding)])] []
           (JObj [("0", plain_finding)]))%string;
    try reflexivity.
  right. do 2 eexists. reflexivity.
Defined.

(* ------------------------------------------------------------------ *)
(** ** The map of raw levels *)

Definition level_or_none (result : json) : json :=
  match level_of result with
  | Ok level => level
  | Raise _ => JNull
  end.

Lemma stats_step_levels (st st' : stats) (r : json) :
  stats_step st r = Ok st' ->
  by_level st' = incr (level_or_none r) (by_level st) /\
  hashable (level_or_none r) = true.
Proof.
  intros H. apply stats_step_ok in H.
  destruct H as (level & uri & rule & El & Hl & _ & _ & _ & _ & ->).
  unfold level_or_none. rewrite El.
  destruct (count_level_fields st level) as (_ & _ & _ & _ & Hb & _).
  simpl in Hb.
  destruct (truthy uri), (truthy rule); simpl; rewrite ?Hb; split; auto.
Qed.

Lemma stats_loop_levels (rs : list json) (st st' : stats) :
  stats_loop st rs = Ok st' ->
  by_level st' = tally (map level_or_none rs) (by_level st) /\
  Forall (fun u => hashable u = true) (map level_or_none rs).
Proof.
  revert st. induction rs as [|r rs IH]; intros st H; simpl in H.
  - injection H as <-. simpl. split; constructor.
  - apply bind_ok in H. destruct H as (s1 & E1 & H).
    apply stats_step_levels in E1. destruct E1 as (B1 & H1).
    apply IH in H. destruct H as (B2 & H2).
    simpl. rewrite B2, B1. split; [reflexivity | now constructor].
Qed.

(** X11.  The by-level map of the statistics has one entry for each
    distinct raw level, in the order in which the levels were first
    seen; its counts add up to [total]. *)
Theorem by_level_adds_up (self : converter) (rs : list json)
    (st : statistics) :
  results self = JArr rs ->
  get_statistics self = Ok st ->
  list_sum (map snd (stat_by_level st)) = stat_total st /\
  StronglySorted (fun a b => py_eq a b = false) (map fst (stat_by_level st)) /\
  StronglySorted
    (fun a b => first_seen a (map level_or_none rs)
                < first_seen b (map level_or_none rs))
    (map fst (stat_by_level st)) /\
  (forall r, In r rs ->
     member (level_or_none r) (map fst (stat_by_level st)) = true).
Proof.
  intros E H. destruct (get_statistics_loop self rs st E H) as (s & Hs & ->).
  pose proof (stats_loop_counts rs _ s Hs) as (Ht & _).
  apply stats_loop_levels in Hs. destruct Hs as (Hb & Hh). simpl in *.
  rewrite Hb, Ht.
  assert (Hk : map fst (tally (map level_or_none rs) [])
               = firsts (map level_or_none rs)) by apply keys_tally.
  rewrite Hk.
  destruct (firsts_represent _ Hh) as (_ & R2 & R3).
  destruct (firsts_order _ Hh) as (I1 & _).
  repeat split; try assumption.
  - rewrite sum_tally, length_map. reflexivity.
  - intros r Hr. apply R3. now apply in_map.
Qed.

Lemma by_level_adds_up_witness :
  let st := {| stat_total := 4; stat_errors := 1; stat_warnings := 1;
               stat_notes := 1; stat_files := 0; stat_rules := 1;
               stat_by_level := [(JStr "error", 1); (JStr "warning", 1);
                                 (JStr "info", 1); (JStr "note", 1)];
               stat_by_file := [] |} in
  list_sum (map snd (stat_by_level st)) = stat_total st /\
  StronglySorted (fun a b => py_eq a b = false) (map fst (stat_by_level st)) /\
  StronglySorted
    (fun a b => first_seen a (map level_or_none sample_findings)
                < first_seen b (map level_or_none sample_findings))
    (map fst (stat_by_level st)) /\
  (forall r, In r sample_findings ->
     member (level_or_none r) (map fst (stat_by_level st)) = true).
Proof.
  apply (by_level_adds_up sample_converter sample_findings); reflexivity.
Defined.

(* ------------------------------------------------------------------ *)
(** ** Escaping loses nothing *)

(** The first character an escaped text stands for, and the rest of the
    text. *)
Definition unescape_head (s : string) : option (ascii * string) :=
  let after p := substring (String.length p) (String.length s - String.length p) s in
  if prefix "&amp;" s then Some ("&"%char, after "&amp;"%string)
  else if prefix "&lt;" s then Some ("<"%char, after "&lt;"%string)
  else if prefix "&gt;" s then Some (">"%char, after "&gt;"%string)
  else if prefix "&quot;" s then Some (dquote, after "&quot;"%string)
  else if prefix "&#x27;" s then Some ("'"%char, after "&#x27;"%string)
  else match s with
       | String a rest => Some (a, rest)
       | EmptyString => None
       end.

Lemma substring_all (s : string) : substring 0 (String.length s) s = s.
Proof. induction s as [|a s IH]; simpl; [reflexivity | now rewrite IH]. Qed.

Lemma prefix_empty (t : string) : prefix "" t = true.
Proof. destruct t; reflexivity. Qed.

Lemma unescape_head_escape_char (a : ascii) (t : string) :
  unescape_head (escape_char a ++ t)%string = Some (a, t).
Proof.
  destruct a as [[] [] [] [] [] [] [] []];
    unfold unescape_head; simpl;
    rewrite ?prefix_empty, ?Nat.sub_0_r, ?substring_all; reflexivity.
Qed.

Lemma html_escape_injective (s1 s2 : string) :
  html_escape s1 = html_escape s2 -> s1 = s2.
Proof.
  revert s2. induction s1 as [|a s1 IH]; intros [|b s2]; simpl; intros H.
  - reflexivity.
  - apply (f_equal unescape_head) in H.
    rewrite unescape_head_escape_char in H. discriminate.
  - apply (f_equal unescape_head) in H.
    rewrite unescape_head_escape_char in H. discriminate.
  - apply (f_equal unescape_head) in H.
    rewrite !unescape_head_escape_char in H. injection H as -> H.
    now rewrite (IH s2 H).
Qed.

Section Lossless.

Context {P : platform}.

(** X12.  [escape_html] is one-to-one on strings: two different texts
    are never shown as the same escaped text.  An ampersand of the input
    is itself escaped, so a text that spells an entity stays apart from
    the character the entity stands for. *)
Theorem escape_html_lossless (s1 s2 : string) :
  escape_html (JStr s1) = escape_html (JStr s2) -> s1 = s2.
Proof.
  assert (H : forall s, escape_html (JStr s) = html_escape s).
  { intros s. unfold escape_html. simpl.
    destruct (String.eqb_spec s ""); [now subst|reflexivity]. }
  rewrite !H. apply html_escape_injective.
Qed.

End Lossless.

Lemma escape_html_lossless_witness : "&lt;b&gt;"%string = "&lt;b&gt;"%string.
Proof.
  apply (@escape_html_lossless no_runs_platform "&lt;b&gt;" "&lt;b&gt;").
  reflexivity.
Defined.

(* ================================================================== *)
(** * The report as it is written *)

(** ** Texts inside texts *)

Lemma append_assoc (a b c : string) :
  ((a ++ b) ++ c = a ++ (b ++ c))%string.
Proof. induction a as [|x a IH]; simpl; [reflexivity | now rewrite IH]. Qed.

Lemma append_nil_r (a : string) : (a ++ "" = a)%string.
Proof. induction a as [|x a IH]; simpl; [reflexivity | now rewrite IH]. Qed.

(** The text [t] is a part of the text [s]. *)
Definition occurs (t s : string) : Prop :=
  exists a b, s = (a ++ t ++ b)%string.

Lemma occurs_refl (s : string) : occurs s s.
Proof. exists ""%string, ""%string. simpl. now rewrite append_nil_r. Qed.

Lemma occurs_trans (t s u : string) : occurs t s -> occurs s u -> occurs t u.
Proof.
  intros (a & b & ->) (c & d & ->). exists (c ++ a)%string, (b ++ d)%string.
  now rewrite !append_assoc.
Qed.

Lemma occurs_left (t s u : string) : occurs t s -> occurs t (s ++ u)%string.
Proof.
  intros H. apply (occurs_trans t s); [assumption|].
  exists ""%string, u. reflexivity.
Qed.

Lemma occurs_right (t s u : string) : occurs t s -> occurs t (u ++ s)%string.
Proof.
  intros H. apply (occurs_trans t s); [assumption|].
  exists u, ""%string. now rewrite append_nil_r.
Qed.

Lemma concat_cons (x : string) (l : list string) :
  String.concat "" (x :: l) = (x ++ String.concat "" l)%string.
Proof. destruct l; simpl; [now rewrite append_nil_r | reflexivity]. Qed.

Lemma occurs_concat (x : string) (l : list string) :
  In x l -> occurs x (String.concat "" l).
Proof.
  induction l as [|y l IH]; [contradiction|].
  rewrite concat_cons. intros [-> | H].
  - apply occurs_left, occurs_refl.
  - apply occurs_right. now apply IH.
Qed.

(** A number in decimal has no markup character. *)
Lemma markup_digits (d : Decimal.uint) : markup (NilEmpty.string_of_uint d) = [].
Proof. induction d; simpl; assumption || reflexivity. Qed.

Lemma markup_str_of_nat (n : nat) : markup (str_of_nat n) = [].
Proof.
  unfold str_of_nat, NilZero.string_of_uint.
  destruct (Nat.to_uint n) eqn:E; try reflexivity;
    rewrite <- E; apply markup_digits.
Qed.

Lemma Forall2_filter {A} (R : A -> A -> Prop) (p : A -> bool) (l1 l2 : list A) :
  (forall x y, R x y -> p x = p y) ->
  Forall2 R l1 l2 -> Forall2 R (filter p l1) (filter p l2).
Proof.
  intros Hp H. induction H as [|x y l1 l2 Hxy Hl IH]; simpl; [constructor|].
  rewrite (Hp x y Hxy). destruct (p y); [constructor|]; assumption.
Qed.

(** ** The parts of the report *)

Section Report.

Context {P : platform}.

Local Opaque tpl.

Lemma render_each_occurs {A} (f : A -> py string) (l : list A) (x : A)
    (h t : string) :
  In x l -> f x = Ok h -> render_each f l = Ok t -> occurs h t.
Proof.
  revert t. induction l as [|y l IH]; intros t Hin Hx H; [contradiction|].
  cbn [render_each] in H. apply bind_ok in H. destruct H as (hy & Ey & H).
  apply bind_ok in H. destruct H as (tl & El & H). injection H as <-.
  destruct Hin as [-> | Hin].
  - assert (hy = h) by congruence. subst. apply occurs_left, occurs_refl.
  - apply occurs_right. now apply (IH tl).
Qed.

(** [generate_html] returns a path exactly when the text of the report
    was produced, the file opened and the text written; the file is then
    first emptied and then holds the text. *)
Lemma generate_html_report (self : converter) (out : option string)
    (w w' : world) (path : string) :
  generate_html self out w = (w', Ok (Some path)) ->
  exists html,
    render self = Ok html /\
    written w' = written w ++ [(path, ""%string); (path, html)] /\
    stderr w' = stderr w.
Proof.
  unfold generate_html.
  destruct (render self) as [html|e]; [|discriminate].
  destruct (open_text _) as [u|e]; [|discriminate].
  destruct (write_text _ html) as [u'|e]; [|discriminate].
  intros H. injection H as <- <-. exists html. split; [reflexivity|].
  simpl. rewrite <- app_assoc. split; reflexivity.
Qed.

(** The text [html] is the report of [self] with findings [rs] and
    statistics [st]: the head with the cards, the block of the
    notifications, the blocks of the [error], the [warning] and the
    [note] findings, each made from the findings of that level in input
    order, the table of files and the footer, and nothing else. *)
Definition report_layout (self : converter) (rs : list json)
    (st : statistics) (html : string) : Prop :=
  exists notifs e wn n,
    render_notifications (notifications self) = Ok notifs /\
    render_group "error" (filter (has_level (JStr "error")) rs) = Ok e /\
    render_group "warning" (filter (has_level (JStr "warning")) rs) = Ok wn /\
    render_group "note" (filter (has_level (JStr "note")) rs) = Ok n /\
    html = (render_head (path_name (sarif_file self)) st
            ++ notifs ++ e ++ wn ++ n
            ++ render_file_summary st ++ render_footer)%string.

Lemma render_layout (self : converter) (rs : list json) (html : string) :
  results self = JArr rs ->
  render self = Ok html ->
  exists st c,
    get_statistics self = Ok st /\
    categorize_results self = Ok c /\
    (forall k, group_of k c = filter (has_level k) rs) /\
    render_levels c
    = (e <- render_group "error" (filter (has_level (JStr "error")) rs) ;;
       wn <- render_group "warning" (filter (has_level (JStr "warning")) rs) ;;
       n <- render_group "note" (filter (has_level (JStr "note")) rs) ;;
       Ok (e ++ wn ++ n)%string)%py /\
    report_layout self rs st html.
Proof.
  intros E H. unfold render in H.
  apply bind_ok in H. destruct H as (st & Hs & H).
  apply bind_ok in H. destruct H as (c & Hc & H).
  apply bind_ok in H. destruct H as (notifs & Hn & H).
  apply bind_ok in H. destruct H as (levels & Hl & H). injection H as <-.
  pose proof (categorize_results_leveled self rs c E Hc) as Hlv.
  destruct (categorize_results_groups self rs E Hlv) as (c' & Hc' & Hg).
  assert (c' = c) by congruence. subst c'.
  assert (Hlev : render_levels c
    = (e <- render_group "error" (filter (has_level (JStr "error")) rs) ;;
       wn <- render_group "warning" (filter (has_level (JStr "warning")) rs) ;;
       n <- render_group "note" (filter (has_level (JStr "note")) rs) ;;
       Ok (e ++ wn ++ n)%string)%py).
  { unfold render_levels. cbn [render_each]. unfold render_level.
    rewrite !Hg.
    destruct (render_group "error" _) as [e|]; [|reflexivity].
    destruct (render_group "warning" _) as [wn|]; [|reflexivity].
    destruct (render_group "note" _) as [n|]; [|reflexivity].
    cbn [bind]. now rewrite append_nil_r. }
  exists st, c. repeat split; try assumption.
  rewrite Hlev in Hl.
  apply bind_ok in Hl. destruct Hl as (e & He & Hl).
  apply bind_ok in Hl. destruct Hl as (wn & Hw & Hl).
  apply bind_ok in Hl. destruct Hl as (n & Hnn & Hl). injection Hl as <-.
  exists notifs, e, wn, n. repeat split; try assumption.
  now rewrite !append_assoc.
Qed.

End Report.

(* ------------------------------------------------------------------ *)
(** ** The blocks and the table in the report *)

Section ReportBlocks.

Context {P : platform}.

Lemma generate_html_layout (self : converter) (rs : list json)
    (out : option string) (w w' : world) (path : string) :
  generate_html self out w = (w', Ok (Some path)) ->
  results self = JArr rs ->
  exists html st,
    written w' = written w ++ [(path, ""%string); (path, html)] /\
    render self = Ok html /\
    get_statistics self = Ok st /\
    forallb countable rs = true /\
    report_layout self rs st html.
Proof.
  intros H E. destruct (generate_html_report self out w w' path H)
    as (html & Hr & Hw & _).
  destruct (render_layout self rs html E Hr) as (st & c & Hs & _ & _ & _ & Hl).
  exists html, st. repeat split; try assumption.
  rewrite <- (get_statistics_returns self rs E). now rewrite Hs.
Qed.

(** C5.  In the report [generate_html] writes, between the block of the
    notifications and the table of files there are the block of the
    [error] findings, then that of the [warning] findings, then that of
    the [note] findings, each made from the findings of that level in
    input order, and nothing else: an empty group gives no text at all,
    a group under any other level is not written, and the three blocks
    are the same as when the findings of every other level are removed
    from the input.  Those findings are still counted in [total]. *)
Theorem only_three_levels_rendered (self self' : converter) (rs : list json)
    (out : option string) (w w' : world) (path : string) :
  generate_html self out w = (w', Ok (Some path)) ->
  results self = JArr rs ->
  results self' = JArr (filter canonical rs) ->
  exists html st c c',
    written w' = written w ++ [(path, ""%string); (path, html)] /\
    get_statistics self = Ok st /\
    stat_total st = List.length rs /\
    report_layout self rs st html /\
    categorize_results self = Ok c /\
    categorize_results self' = Ok c' /\
    render_levels c = render_levels c' /\
    (forall level, render_group level [] = Ok ""%string) /\
    (forall level g h, g <> [] -> render_group level g = Ok h -> h <> ""%string).
Proof.
  intros H E E'.
  destruct (generate_html_layout self rs out w w' path H E)
    as (html & st & Hw & Hr & Hs & _ & Hl).
  destruct (render_layout self rs html E Hr) as (st' & c & _ & Hc & _).
  pose proof (categorize_results_leveled self rs c E Hc) as Hlv.
  destruct (levels_of_three_groups self self' rs E E' Hlv)
    as (c0 & c' & Hc0 & Hc' & _ & Heq & Hnil & Hne & Ht).
  assert (c0 = c) by congruence. subst c0.
  exists html, st, c, c'. repeat split; try assumption. now apply Ht.
Qed.

Lemma file_summary_head_starts :
  exists a t, file_summary_head = String a t.
Proof. do 2 eexists. reflexivity. Qed.

(** The texts around the file and the count in a row of the table. *)
Lemma render_file_row_parts :
  exists a b c, forall f n,
    render_file_row (f, n)
    = (a ++ escape_html f ++ b ++ str_of_nat n ++ c)%string.
Proof. do 3 eexists. intros f n. unfold render_file_row. reflexivity. Qed.

(** C6.  In the report [generate_html] writes, the table of files is the
    block right before the footer; when there is a row it is the head of
    the table, the rows one after the other, and its tail.  The rows are
    in descending order of count and, for equal counts, in the order in
    which the files were first seen in the sequence of findings; each
    shows the escaped file and the number of findings counted under it,
    and every counted URI has its row. *)
Theorem file_table_order (self : converter) (rs : list json)
    (out : option string) (w w' : world) (path : string) :
  generate_html self out w = (w', Ok (Some path)) ->
  results self = JArr rs ->
  exists html st,
    written w' = written w ++ [(path, ""%string); (path, html)] /\
    get_statistics self = Ok st /\
    report_layout self rs st html /\
    (file_rows st <> [] ->
       render_file_summary st
       = (file_summary_head
          ++ String.concat "" (map render_file_row (file_rows st))
          ++ file_summary_tail)%string) /\
    (exists a b c, forall f n,
       render_file_row (f, n)
       = (a ++ escape_html f ++ b ++ str_of_nat n ++ c)%string) /\
    StronglySorted (table_order (counted_uris rs)) (file_rows st) /\
    Permutation (file_rows st) (stat_by_file st) /\
    (forall f n, In (f, n) (file_rows st) ->
       n = count_if (fun u => py_eq u f) (counted_uris rs) /\
       first_seen f (counted_uris rs) < List.length (counted_uris rs)) /\
    (forall u, In u (counted_uris rs) ->
       exists f n, In (f, n) (file_rows st) /\ py_eq f u = true).
Proof.
  intros H E.
  destruct (generate_html_layout self rs out w w' path H E)
    as (html & st & Hw & _ & Hs & Hc & Hl).
  destruct (file_rows_order self rs E Hc) as (st' & Hs' & Ho & Hp & Hn & Hu).
  assert (st' = st) by congruence. subst st'.
  exists html, st.
  refine (conj Hw (conj Hs (conj Hl (conj _ (conj render_file_row_parts
            (conj Ho (conj Hp (conj Hn Hu)))))))).
  intros Hne. unfold render_file_summary.
  destruct (stat_by_file st) eqn:Eb; [|reflexivity].
  apply Permutation_sym, Permutation_nil in Hp. contradiction.
Qed.

(** X13.  In the report [generate_html] writes, the table of files has
    as many rows as the card of affected files says, and the block of the
    table is left out of the report exactly when no finding has a truthy
    first-location URI. *)
Theorem file_table_presence (self : converter) (rs : list json)
    (out : option string) (w w' : world) (path : string) :
  generate_html self out w = (w', Ok (Some path)) ->
  results self = JArr rs ->
  exists html st,
    written w' = written w ++ [(path, ""%string); (path, html)] /\
    get_statistics self = Ok st /\
    report_layout self rs st html /\
    List.length (file_rows st) = stat_files st /\
    (counted_uris rs = [] <-> stat_files st = 0) /\
    (counted_uris rs = [] -> render_file_summary st = ""%string) /\
    (counted_uris rs <> [] ->
       render_file_summary st <> ""%string /\
       render_file_summary st
       = (file_summary_head
          ++ String.concat "" (map render_file_row (file_rows st))
          ++ file_summary_tail)%string).
Proof.
  intros H E.
  destruct (generate_html_layout self rs out w w' path H E)
    as (html & st & Hw & _ & Hst & _ & Hl).
  exists html, st. split; [assumption|]. split; [assumption|].
  split; [assumption|].
  destruct (get_statistics_loop self rs st E Hst) as (s & Hs & ->).
  apply stats_loop_files in Hs. destruct Hs as (Hb & Hf & _).
  assert (Hk : map fst (tally (counted_uris rs) [])
               = fold_left (fun s u => set_add u s) (counted_uris rs) [])
    by apply keys_tally.
  assert (Hlen : List.length (by_file s) = List.length (files s)).
  { simpl in Hb, Hf. now rewrite Hb, Hf, <- Hk, length_map. }
  assert (Hsum : list_sum (map snd (by_file s)) = List.length (counted_uris rs)).
  { simpl in Hb. now rewrite Hb, sum_tally. }
  assert (Hzero : counted_uris rs = [] <-> by_file s = []).
  { split; intros H0.
    - simpl in Hb. now rewrite Hb, H0.
    - rewrite H0 in Hsum. simpl in Hsum.
      destruct (counted_uris rs); [reflexivity | discriminate]. }
  unfold render_file_summary, file_rows.
  cbn [stat_by_file stat_files stats_final].
  split; [|split; [|split]].
  - rewrite (Permutation_length (sorted_desc_perm (by_file s))). exact Hlen.
  - rewrite Hzero, <- Hlen.
    destruct (by_file s); split; intros H0; try reflexivity; discriminate.
  - intros H0. apply Hzero in H0. now rewrite H0.
  - intros H0. destruct (by_file s) as [|row rows] eqn:Eb.
    + exfalso. apply H0. now apply Hzero.
    + split; [|reflexivity].
      destruct file_summary_head_starts as (a & t & ->).
      cbn [String.append]. discriminate.
Qed.

End ReportBlocks.

Definition report_path : string := "report_report.html".

Definition sample_world (self : converter) : world :=
  fst (@generate_html no_runs_platform self None world0).

Lemma only_three_levels_rendered_witness :
  exists html st c c',
    written (sample_world sample_converter)
      = written world0 ++ [(report_path, ""%string); (report_path, html)] /\
    get_statistics sample_converter = Ok st /\
    stat_total st = List.length sample_findings /\
    @report_layout no_runs_platform sample_converter sample_findings st html /\
    categorize_results sample_converter = Ok c /\
    categorize_results sample_converter_canonical = Ok c' /\
    @render_levels no_runs_platform c = @render_levels no_runs_platform c' /\
    (forall level, @render_group no_runs_platform level [] = Ok ""%string) /\
    (forall level g h, g <> [] ->
       @render_group no_runs_platform level g = Ok h -> h <> ""%string).
Proof.
  apply (@only_three_levels_rendered no_runs_platform
           sample_converter sample_converter_canonical sample_findings
           None world0 (sample_world sample_converter) report_path);
    reflexivity.
Defined.

Lemma file_table_order_witness :
  exists html st,
    written (sample_world tied_converter)
      = written world0 ++ [(report_path, ""%string); (report_path, html)] /\
    get_statistics tied_converter = Ok st /\
    @report_layout no_runs_platform tied_converter tied_findings st html /\
    (file_rows st <> [] ->
       @render_file_summary no_runs_platform st
       = (file_summary_head
          ++ String.concat "" (map (@render_file_row no_runs_platform)
                                 (file_rows st))
          ++ file_summary_tail)%string) /\
    (exists a b c, forall f n,
       @render_file_row no_runs_platform (f, n)
       = (a ++ @escape_html no_runs_platform f ++ b ++ str_of_nat n ++ c)%string) /\
    StronglySorted (table_order (counted_uris tied_findings)) (file_rows st) /\
    Permutation (file_rows st) (stat_by_file st) /\
    (forall f n, In (f, n) (file_rows st) ->
       n = count_if (fun u => py_eq u f) (counted_uris tied_findings) /\
       first_seen f (counted_uris tied_findings)
         < List.length (counted_uris tied_findings)) /\
    (forall u, In u (counted_uris tied_findings) ->
       exists f n, In (f, n) (file_rows st) /\ py_eq f u = true).
Proof.
  apply (@file_table_order no_runs_platform tied_converter tied_findings
           None world0 (sample_world tied_converter) report_path);
    reflexivity.
Defined.

Lemma file_table_presence_witness :
  exists html st,
    written (sample_world tied_converter)
      = written world0 ++ [(report_path, ""%string); (report_path, html)] /\
    get_statistics tied_converter = Ok st /\
    @report_layout no_runs_platform tied_converter tied_findings st html /\
    List.length (file_rows st) = stat_files st /\
    (counted_uris tied_findings = [] <-> stat_files st = 0) /\
    (counted_uris tied_findings = [] ->
       @render_file_summary no_runs_platform st = ""%string) /\
    (counted_uris tied_findings <> [] ->
       @render_file_summary no_runs_platform st <> ""%string /\
       @render_file_summary no_runs_platform st
       = (file_summary_head
          ++ String.concat "" (map (@render_file_row no_runs_platform)
                                 (file_rows st))
          ++ file_summary_tail)%string).
Proof.
  apply (@file_table_presence no_runs_platform tied_converter tied_findings
           None world0 (sample_world tied_converter) report_path);
    reflexivity.
Defined.

(* ------------------------------------------------------------------ *)
(** ** User text in the report *)

(** The block of the notifications: [None] when there is none, else
    the number of notifications in it. *)
Definition notifications_shown (v : json) : option nat :=
  if truthy v then
    match py_iter v with
    | Ok items => Some (List.length items)
    | Raise _ => None
    end
  else None.

(** The number of different files among the counted URIs. *)
Definition distinct_files (rs : list json) : nat :=
  List.length (firsts (counted_uris rs)).

Lemma render_each_markup {A} (R : A -> A -> Prop) (f : A -> py string)
    (l1 l2 : list A) (t1 t2 : string) :
  (forall x y hx hy, R x y -> f x = Ok hx -> f y = Ok hy ->
                     markup hx = markup hy) ->
  Forall2 R l1 l2 ->
  render_each f l1 = Ok t1 -> render_each f l2 = Ok t2 ->
  markup t1 = markup t2.
Proof.
  intros Hf H. revert t1 t2.
  induction H as [|x y l1 l2 Hxy Hl IH]; intros t1 t2 H1 H2.
  - simpl in H1, H2. congruence.
  - cbn [render_each] in H1, H2.
    apply bind_ok in H1. destruct H1 as (hx & Ex & H1).
    apply bind_ok in H1. destruct H1 as (tx & Etx & H1). injection H1 as <-.
    apply bind_ok in H2. destruct H2 as (hy & Ey & H2).
    apply bind_ok in H2. destruct H2 as (ty & Ety & H2). injection H2 as <-.
    rewrite !markup_app, (Hf x y hx hy Hxy Ex Ey), (IH tx ty Etx Ety).
    reflexivity.
Qed.

Lemma render_each_markup_const {A} (f : A -> py string) (k : list ascii)
    (l : list A) (t : string) :
  (forall x h, f x = Ok h -> markup h = k) ->
  render_each f l = Ok t ->
  markup t = List.concat (repeat k (List.length l)).
Proof.
  intros Hf. revert t. induction l as [|x l IH]; intros t H.
  - simpl in H. injection H as <-. reflexivity.
  - cbn [render_each] in H.
    apply bind_ok in H. destruct H as (hx & Ex & H).
    apply bind_ok in H. destruct H as (tx & Etx & H). injection H as <-.
    rewrite markup_app, (Hf x hx Ex), (IH tx Etx). reflexivity.
Qed.

(** Searches a text inside a text made by appending. *)
Ltac find_occurrence :=
  first [ apply occurs_refl
        | apply occurs_left; find_occurrence
        | apply occurs_right; find_occurrence ].

Section ReportEscaping.

Context {P : platform}.

Local Opaque tpl.

(** Two findings whose entries have the same frame: the same level,
    the same line and column as shown, both with or both without a
    snippet, and the same number of tags.  Their message, rule, file,
    snippet and tag texts are free. *)
Definition same_frame (r1 r2 : json) : Prop :=
  level_of r1 = level_of r2 /\
  py_str (start_line (get_location_info r1))
    = py_str (start_line (get_location_info r2)) /\
  py_str (start_column (get_location_info r1))
    = py_str (start_column (get_location_info r2)) /\
  truthy (snippet (get_location_info r1))
    = truthy (snippet (get_location_info r2)) /\
  tags_shown r1 = tags_shown r2.

Lemma markup_render_head (name1 name2 : string) (st1 st2 : statistics) :
  markup (render_head name1 st1) = markup (render_head name2 st2).
Proof.
  unfold render_head.
  rewrite !markup_app, !markup_escape_html, !markup_str_of_nat. reflexivity.
Qed.

Lemma render_notification_markup :
  exists k, forall n t, render_notification n = Ok t -> markup t = k.
Proof.
  eexists. intros n t H. unfold render_notification in H.
  apply bind_ok in H. destruct H as (text & _ & H). injection H as <-.
  rewrite !markup_app, markup_escape_html. reflexivity.
Qed.

Lemma render_notifications_markup :
  exists k1 kn k2, forall v h,
    render_notifications v = Ok h ->
    markup h
    = match notifications_shown v with
      | Some n => k1 ++ List.concat (repeat kn n) ++ k2
      | None => []
      end.
Proof.
  destruct render_notification_markup as (kn & Hkn).
  eexists. exists kn. eexists. intros v h H.
  unfold render_notifications in H. unfold notifications_shown.
  destruct (truthy v); [|now injection H as <-].
  apply bind_ok in H. destruct H as (n & _ & H).
  destruct (py_iter v) as [items|]; [|discriminate].
  cbn [bind] in H.
  apply bind_ok in H. destruct H as (body & Eb & H). injection H as <-.
  rewrite !markup_app, markup_str_of_nat.
  rewrite (render_each_markup_const _ kn items body Hkn Eb).
  cbn [app]. reflexivity.
Qed.

Lemma has_level_same_frame (k r1 r2 : json) :
  same_frame r1 r2 -> has_level k r1 = has_level k r2.
Proof. intros (Hl & _). unfold has_level. now rewrite Hl. Qed.

Lemma render_group_markup (level : string) (g1 g2 : list json)
    (b1 b2 : string) :
  Forall2 same_frame g1 g2 ->
  render_group level g1 = Ok b1 -> render_group level g2 = Ok b2 ->
  markup b1 = markup b2.
Proof.
  intros Hg H1 H2. unfold render_group in H1, H2.
  destruct Hg as [|r1 r2 g1 g2 Hr Hg]; [congruence|].
  apply bind_ok in H1. destruct H1 as (body1 & E1 & H1). injection H1 as <-.
  apply bind_ok in H2. destruct H2 as (body2 & E2 & H2). injection H2 as <-.
  rewrite !markup_app, !markup_str_of_nat.
  rewrite (render_each_markup same_frame (render_result level)
             (r1 :: g1) (r2 :: g2) body1 body2); [reflexivity| |now constructor
             |assumption|assumption].
  intros x y hx hy (_ & Hsl & Hsc & Hsn & Hts) Hx Hy.
  exact (proj1 (entry_markup_independent level x y hx hy Hx Hy Hsl Hsc Hsn Hts)).
Qed.

Lemma render_file_row_markup :
  exists k, forall row, markup (render_file_row row) = k.
Proof.
  eexists. intros [f n]. unfold render_file_row.
  rewrite !markup_app, markup_escape_html, markup_str_of_nat. reflexivity.
Qed.

Lemma render_file_summary_markup :
  exists kh kr kt, forall st,
    markup (render_file_summary st)
    = match stat_by_file st with
      | [] => []
      | _ => kh ++ List.concat (repeat kr (List.length (stat_by_file st))) ++ kt
      end.
Proof.
  destruct render_file_row_markup as (kr & Hkr).
  eexists. exists kr. eexists. intros st. unfold render_file_summary.
  destruct (stat_by_file st) as [|row rows] eqn:Eb; [reflexivity|].
  rewrite !markup_app, markup_concat, map_map.
  rewrite (map_ext _ (fun _ => kr)) by exact Hkr.
  rewrite concat_map_const. unfold file_rows.
  rewrite (Permutation_length (sorted_desc_perm (stat_by_file st))), Eb.
  reflexivity.
Qed.

Lemma by_file_distinct_files (self : converter) (rs : list json)
    (st : statistics) :
  results self = JArr rs -> get_statistics self = Ok st ->
  List.length (stat_by_file st) = distinct_files rs.
Proof.
  intros E H. destruct (get_statistics_loop self rs st E H) as (s & Hs & ->).
  apply stats_loop_files in Hs. destruct Hs as (Hb & _). simpl in *.
  rewrite Hb, <- (length_map fst). unfold distinct_files, firsts.
  now rewrite keys_tally.
Qed.

(** The markup characters of a report depend on the frames of its
    entries, on the number of notifications and on the number of files,
    not on any text of a finding or of a notification. *)
Lemma report_markup (self1 self2 : converter) (rs1 rs2 : list json)
    (st1 st2 : statistics) (h1 h2 : string) :
  results self1 = JArr rs1 -> results self2 = JArr rs2 ->
  get_statistics self1 = Ok st1 -> get_statistics self2 = Ok st2 ->
  report_layout self1 rs1 st1 h1 -> report_layout self2 rs2 st2 h2 ->
  Forall2 same_frame rs1 rs2 ->
  notifications_shown (notifications self1)
    = notifications_shown (notifications self2) ->
  distinct_files rs1 = distinct_files rs2 ->
  markup h1 = markup h2.
Proof.
  intros E1 E2 S1 S2 (n1 & e1 & w1 & o1 & Hn1 & He1 & Hw1 & Ho1 & ->)
    (n2 & e2 & w2 & o2 & Hn2 & He2 & Hw2 & Ho2 & ->) Hf Hns Hd.
  destruct render_notifications_markup as (k1 & kn & k2 & Hk).
  destruct render_file_summary_markup as (kh & kr & kt & Hs).
  assert (Hfl : forall k, Forall2 same_frame (filter (has_level k) rs1)
                            (filter (has_level k) rs2)).
  { intros k. apply Forall2_filter; [|assumption].
    intros x y. apply has_level_same_frame. }
  rewrite !markup_app.
  rewrite (markup_render_head _ (path_name (sarif_file self2)) st1 st2).
  rewrite (Hk _ _ Hn1), (Hk _ _ Hn2), Hns.
  rewrite (render_group_markup _ _ _ e1 e2 (Hfl _) He1 He2).
  rewrite (render_group_markup _ _ _ w1 w2 (Hfl _) Hw1 Hw2).
  rewrite (render_group_markup _ _ _ o1 o2 (Hfl _) Ho1 Ho2).
  rewrite (Hs st1), (Hs st2).
  pose proof (by_file_distinct_files self1 rs1 st1 E1 S1) as L1.
  pose proof (by_file_distinct_files self2 rs2 st2 E2 S2) as L2.
  assert (Hlen : List.length (stat_by_file st1) = List.length (stat_by_file st2))
    by congruence.
  destruct (stat_by_file st1), (stat_by_file st2); try discriminate;
    [reflexivity|].
  now rewrite Hlen.
Qed.

(** Where the texts of a finding are in its entry. *)
Lemma entry_shows (level : string) (r : json) (entry : string) :
  render_result level r = Ok entry ->
  exists message rule tags,
    message_of r = Ok message /\
    rule_id_of r = Ok rule /\
    tags_of r = Ok tags /\
    occurs (escape_html message) entry /\
    occurs (escape_html rule) entry /\
    occurs (escape_html (file (get_location_info r))) entry /\
    (truthy (snippet (get_location_info r)) = true ->
     occurs (escape_html (snippet (get_location_info r))) entry) /\
    (forall items tag,
       truthy tags = true -> py_iter tags = Ok items -> In tag items ->
       occurs (escape_html tag) entry).
Proof.
  intros H. unfold render_result in H. cbv zeta in H.
  apply bind_ok in H. destruct H as (rule & Er & H).
  apply bind_ok in H. destruct H as (message & Em & H).
  apply bind_ok in H. destruct H as (tags & Et & H).
  apply bind_ok in H. destruct H as (tags_html & Eh & H). injection H as <-.
  exists message, rule, tags.
  split; [assumption|]. split; [assumption|]. split; [assumption|].
  split; [find_occurrence|]. split; [find_occurrence|].
  split; [find_occurrence|]. split.
  - intros Hs.
    assert (Ho : occurs (escape_html (snippet (get_location_info r)))
                   (render_snippet (get_location_info r))).
    { unfold render_snippet. rewrite Hs. find_occurrence. }
    eapply occurs_trans; [exact Ho | find_occurrence].
  - intros items tag Hy Hi Hin.
    assert (Ho : occurs (escape_html tag) tags_html).
    { unfold render_tags in Eh. rewrite Hy, Hi in Eh. cbn [bind] in Eh.
      injection Eh as <-.
      apply (occurs_trans _ (render_tag tag)).
      - unfold render_tag. find_occurrence.
      - apply (occurs_trans _ (String.concat "" (map render_tag items))).
        + apply occurs_concat. now apply in_map.
        + find_occurrence. }
    eapply occurs_trans; [exact Ho | find_occurrence].
Qed.

Lemma group_shows (level : string) (g : list json) (r : json)
    (block entry : string) :
  render_group level g = Ok block -> In r g ->
  render_result level r = Ok entry -> occurs entry block.
Proof.
  intros H Hin He. unfold render_group in H.
  destruct g as [|x g]; [contradiction|].
  apply bind_ok in H. destruct H as (body & Eb & H). injection H as <-.
  pose proof (render_each_occurs _ _ r entry body Hin He Eb) as Ho.
  eapply occurs_trans; [exact Ho | find_occurrence].
Qed.

Lemma group_renders (level : string) (g : list json) (r : json)
    (block : string) :
  render_group level g = Ok block -> In r g ->
  exists entry, render_result level r = Ok entry.
Proof.
  intros H Hin. unfold render_group in H.
  destruct g as [|x g]; [contradiction|].
  apply bind_ok in H. destruct H as (body & Eb & _).
  clear - Eb Hin. revert body Eb.
  induction (x :: g) as [|y l IH]; intros body Eb; [contradiction|].
  cbn [render_each] in Eb.
  apply bind_ok in Eb. destruct Eb as (hy & Ey & Eb).
  apply bind_ok in Eb. destruct Eb as (t & Et & _).
  destruct Hin as [-> | Hin]; [eauto | now apply (IH Hin t)].
Qed.

End ReportEscaping.

Section ReportTexts.

Context {P : platform}.

Local Opaque tpl.

Lemma notification_shows (v : json) (ns : list json) (n : json)
    (notifs : string) :
  render_notifications v = Ok notifs -> v = JArr ns -> In n ns ->
  exists text t,
    message_of n = Ok text /\ render_notification n = Ok t /\
    occurs (escape_html text) t /\ occurs t notifs.
Proof.
  intros H -> Hin. unfold render_notifications in H.
  destruct ns as [|x ns]; [contradiction|].
  cbn [truthy py_len py_iter bind] in H.
  apply bind_ok in H. destruct H as (body & Eb & H). injection H as <-.
  assert (Hn : exists t, render_notification n = Ok t).
  { clear - Eb Hin. revert body Eb.
    induction (x :: ns) as [|y l IH]; intros body Eb; [contradiction|].
    cbn [render_each] in Eb.
    apply bind_ok in Eb. destruct Eb as (hy & Ey & Eb).
    apply bind_ok in Eb. destruct Eb as (t & Et & _).
    destruct Hin as [-> | Hin]; [eauto | now apply (IH Hin t)]. }
  destruct Hn as (t & Ht).
  pose proof (render_each_occurs _ _ n t body Hin Ht Eb) as Ho.
  unfold render_notification in Ht.
  apply bind_ok in Ht. destruct Ht as (text & Em & Ht).
  exists text, t. split; [assumption|]. split.
  - unfold render_notification. rewrite Em. exact Ht.
  - injection Ht as <-. split; [find_occurrence|].
    eapply occurs_trans; [exact Ho | find_occurrence].
Qed.

(** C1.  In the report [generate_html] writes, every finding of the
    three blocks has its entry, and in the entry its message, its rule
    identifier, its file URI, its snippet and each of its tags stand as
    [escape_html] gives them; so does the text of every notification in
    its item.  [escape_html] leaves no markup character in a text, and
    no text reaches the report another way: two reports whose findings
    have pairwise the same frame (level, line and column shown, snippet
    or none, number of tags), with as many notifications and as many
    files, have the same markup characters, whatever the messages, rule
    identifiers, URIs, snippets, tags and notification texts are.  The
    message [<script>alert(1)</script>] is written with entities. *)
Theorem user_text_is_escaped (self1 self2 : converter) (rs1 rs2 : list json)
    (out1 out2 : option string) (w1 w2 w1' w2' : world) (p1 p2 : string) :
  generate_html self1 out1 w1 = (w1', Ok (Some p1)) ->
  generate_html self2 out2 w2 = (w2', Ok (Some p2)) ->
  results self1 = JArr rs1 ->
  results self2 = JArr rs2 ->
  Forall2 same_frame rs1 rs2 ->
  notifications_shown (notifications self1)
    = notifications_shown (notifications self2) ->
  distinct_files rs1 = distinct_files rs2 ->
  exists h1 h2,
    written w1' = written w1 ++ [(p1, ""%string); (p1, h1)] /\
    written w2' = written w2 ++ [(p2, ""%string); (p2, h2)] /\
    markup h1 = markup h2 /\
    (forall level r,
       In level ["error"; "warning"; "note"]%string -> In r rs1 ->
       has_level (JStr level) r = true ->
       exists entry message rule tags,
         render_result level r = Ok entry /\
         occurs entry h1 /\
         message_of r = Ok message /\
         rule_id_of r = Ok rule /\
         tags_of r = Ok tags /\
         occurs (escape_html message) entry /\
         occurs (escape_html rule) entry /\
         occurs (escape_html (file (get_location_info r))) entry /\
         (truthy (snippet (get_location_info r)) = true ->
          occurs (escape_html (snippet (get_location_info r))) entry) /\
         (forall items tag,
            truthy tags = true -> py_iter tags = Ok items -> In tag items ->
            occurs (escape_html tag) entry)) /\
    (forall ns n,
       notifications self1 = JArr ns -> In n ns ->
       exists text t,
         message_of n = Ok text /\ render_notification n = Ok t /\
         occurs (escape_html text) t /\ occurs t h1) /\
    (forall text, markup (escape_html text) = []) /\
    escape_html (JStr "<script>alert(1)</script>")
      = "&lt;script&gt;alert(1)&lt;/script&gt;"%string.
Proof.
  intros G1 G2 E1 E2 Hf Hn Hd.
  destruct (generate_html_layout self1 rs1 out1 w1 w1' p1 G1 E1)
    as (h1 & st1 & Hw1 & _ & S1 & _ & L1).
  destruct (generate_html_layout self2 rs2 out2 w2 w2' p2 G2 E2)
    as (h2 & st2 & Hw2 & _ & S2 & _ & L2).
  exists h1, h2. split; [assumption|]. split; [assumption|].
  split; [exact (report_markup self1 self2 rs1 rs2 st1 st2 h1 h2
                   E1 E2 S1 S2 L1 L2 Hf Hn Hd)|].
  destruct L1 as (notifs & e & wn & n & Hno & He & Hwn & Hnn & ->).
  split; [|split; [|split; [exact markup_escape_html | reflexivity]]].
  - intros level r Hlevel Hr Hl.
    assert (Hin : In r (filter (has_level (JStr level)) rs1))
      by (apply filter_In; now split).
    assert (Hb : exists block,
              render_group level (filter (has_level (JStr level)) rs1) = Ok block /\
              occurs block
                (render_head (path_name (sarif_file self1)) st1
                 ++ notifs ++ e ++ wn ++ n
                 ++ render_file_summary st1 ++ render_footer)%string).
    { destruct Hlevel as [<- | [<- | [<- | []]]];
        eexists; (split; [eassumption | find_occurrence]). }
    destruct Hb as (block & Hg & Hob).
    destruct (group_renders level _ r block Hg Hin) as (entry & Hen).
    destruct (entry_shows level r entry Hen)
      as (message & rule & tags & Hm & Hru & Ht & O1 & O2 & O3 & O4 & O5).
    exists entry, message, rule, tags.
    split; [assumption|]. split.
    { eapply occurs_trans; [|exact Hob].
      exact (group_shows level _ r block entry Hg Hin Hen). }
    repeat (split; [assumption|]). exact O5.
  - intros ns x Ens Hx.
    destruct (notification_shows _ ns x notifs Hno Ens Hx)
      as (text & t & Hm & Ht & O1 & O2).
    exists text, t. repeat (split; [assumption|]).
    eapply occurs_trans; [exact O2 | find_occurrence].
Qed.

End ReportTexts.

Definition notification (text : string) : json :=
  JObj [("message", JObj [("text", JStr text)])]%string.

Definition script_converter : converter :=
  {| sarif_file := "report.sarif"; data := JNull;
     results := JArr [script_finding];
     notifications := JArr [notification "<img src=x onerror=alert(1)>"] |}.

Definition plain_converter : converter :=
  {| sarif_file := "report.sarif"; data := JNull;
     results := JArr [plain_finding];
     notifications := JArr [notification "build finished"] |}.

Lemma user_text_is_escaped_witness :
  exists h1 h2,
    written (sample_world script_converter)
      = written world0 ++ [(report_path, ""%string); (report_path, h1)] /\
    written (sample_world plain_converter)
      = written world0 ++ [(report_path, ""%string); (report_path, h2)] /\
    markup h1 = markup h2 /\
    (forall level r,
       In level ["error"; "warning"; "note"]%string ->
       In r [script_finding] ->
       has_level (JStr level) r = true ->
       exists entry message rule tags,
         @render_result no_runs_platform level r = Ok entry /\
         occurs entry h1 /\
         message_of r = Ok message /\
         rule_id_of r = Ok rule /\
         tags_of r = Ok tags /\
         occurs (@escape_html no_runs_platform message) entry /\
         occurs (@escape_html no_runs_platform rule) entry /\
         occurs (@escape_html no_runs_platform (file (get_location_info r)))
           entry /\
         (truthy (snippet (get_location_info r)) = true ->
          occurs (@escape_html no_runs_platform (snippet (get_location_info r)))
            entry) /\
         (forall items tag,
            truthy tags = true -> py_iter tags = Ok items -> In tag items ->
            occurs (@escape_html no_runs_platform tag) entry)) /\
    (forall ns n,
       notifications script_converter = JArr ns -> In n ns ->
       exists text t,
         message_of n = Ok text /\
         @render_notification no_runs_platform n = Ok t /\
         occurs (@escape_html no_runs_platform text) t /\ occurs t h1) /\
    (forall text, markup (@escape_html no_runs_platform text) = []) /\
    @escape_html no_runs_platform (JStr "<script>alert(1)</script>")
      = "&lt;script&gt;alert(1)&lt;/script&gt;"%string.
Proof.
  apply (@user_text_is_escaped no_runs_platform
           script_converter plain_converter [script_finding] [plain_finding]
           None None world0 world0
           (sample_world script_converter) (sample_world plain_converter)
           report_path report_path); try reflexivity.
  constructor; [|constructor]. repeat split.
Defined.

(* ------------------------------------------------------------------ *)
(** ** Runs of the whole program, to their end *)

(** The four lines of lines 734-737. *)
Definition usage_lines : list string :=
  ["Usage: python sarif-to-html.py <sarif_file> [output_file]";
   "
Example:";
   "  python sarif-to-html.py report.sarif";
   "  python sarif-to-html.py report.sarif output_report.html"]%string.

Section RunsToEnd.

Context {P : platform}.

(** How a run that has the text [html] of the report ends, by what
    [open] and [write] do at the path [out]: when the [open] raises, no
    file is touched; when the [write] raises, the file stays emptied by
    the [open], with what the write had flushed; in both cases one
    diagnostic goes to standard error and the status is 1.  When both
    succeed the file is emptied and then holds the report, nothing goes
    to standard error and the status is 0 (1 for an empty path). *)
Definition write_outcome (w w' : world) (out html : string) (status : nat)
    : Prop :=
  match open_text out with
  | Raise e =>
      written w' = written w /\
      stderr w' = stderr w ++ [write_diagnostic e] /\
      status = 1
  | Ok _ =>
      match write_text out html with
      | Ok _ =>
          written w' = written w ++ [(out, ""%string); (out, html)] /\
          stderr w' = stderr w /\
          (status = 0 <-> out <> ""%string) /\
          status <= 1
      | Raise e =>
          written w' = written w
                       ++ [(out, ""%string); (out, flushed out html)] /\
          stderr w' = stderr w ++ [write_diagnostic e] /\
          status = 1
      end
  end.

(** What [main] does once the report text [html] exists. *)
Lemma main_after_render (prog path : string) (rest : list string)
    (w w1 : world) (self : converter) (html : string) :
  load_sarif (init path) w = (w1, self, true) ->
  render self = Ok html ->
  exists w' status,
    main (prog :: path :: rest) w = (w', Exit status) /\
    write_outcome w w' (output_path path rest) html status.
Proof.
  intros Hl Hh.
  destruct (load_sarif_effects _ _ _ _ _ Hl) as (Hw & Hp & He).
  specialize (He eq_refl). cbn [sarif_file init] in Hp.
  unfold main. rewrite Hl. cbn [negb]. unfold generate_html. rewrite Hh, Hp.
  replace (match match rest with o :: _ => Some o | [] => None end with
           | Some o => o
           | None => (path_stem path ++ "_report.html")%string
           end) with (output_path path rest)
    by (unfold output_path; now destruct rest).
  unfold write_outcome.
  destruct (open_text (output_path path rest)) as [u|e].
  2:{ exists (print_err (write_diagnostic e) w1), 1.
      split; [reflexivity|]. simpl. rewrite Hw, He. repeat split. }
  destruct (write_text (output_path path rest) html) as [u'|e].
  - destruct (String.eqb_spec (output_path path rest) "") as [E|E]; cbn [negb].
    + eexists. exists 1. split; [reflexivity|]. simpl.
      rewrite Hw, He, <- app_assoc.
      repeat split; try lia; try congruence.
    + eexists. exists 0. split; [reflexivity|]. simpl.
      rewrite Hw, He, <- app_assoc.
      repeat split; try lia; try congruence.
  - eexists. exists 1. split; [reflexivity|]. simpl.
    rewrite Hw, He, <- app_assoc. repeat split.
Qed.

(** X7.  On a document of the SARIF shape — fields may be missing, the
    region and the tags may hold anything — [main] never ends with an
    uncaught exception: [load_sarif] succeeds, the text of the report is
    produced, and [main] ends with [sys.exit] as the [open] and the
    [write] at the output path decide. *)
Theorem shaped_document_never_crashes (prog path : string)
    (rest : list string) (w : world) (d : json) :
  read_json path = Ok d ->
  sarif_document d = true ->
  exists w1 self html w' status,
    load_sarif (init path) w = (w1, self, true) /\
    render self = Ok html /\
    main (prog :: path :: rest) w = (w', Exit status) /\
    write_outcome w w' (output_path path rest) html status.
Proof.
  intros Hd Hs.
  destruct (load_sarif_shaped path w d Hd Hs)
    as (w1 & self & rs & ns & Hl & _ & _ & _ & Hr & Hn & Hsr & Hsn).
  destruct (render_shaped self rs ns Hr Hn Hsr Hsn) as (html & Hh).
  destruct (main_after_render prog path rest w w1 self html Hl Hh)
    as (w' & status & Hm & Hx).
  exists w1, self, html, w', status. repeat split; assumption.
Qed.

(** X8.  Whatever the arguments and the input, [main] ends with status
    0 or 1 or with an uncaught exception, and touches at most one file.
    With fewer than two arguments it prints the four usage lines and
    nothing else, and ends with status 1.  It ends with status 0 only
    when [load_sarif] succeeded, printing no diagnostic, and the text of
    the report of the loaded findings was written to the second argument
    if there is one, else to the stem of the input with [_report.html].
    It ends with an uncaught exception only when the text of the report
    could not be produced, and has then touched no file. *)
Theorem main_outcomes (argv : list string) (w : world) :
  exists w' t,
    main argv w = (w', t) /\
    (forall status, t = Exit status -> status <= 1) /\
    (written w' = written w \/
     exists out text,
       written w' = written w ++ [(out, ""%string); (out, text)]) /\
    (List.length argv < 2 ->
       t = Exit 1 /\ stdout w' = stdout w ++ usage_lines /\
       stderr w' = stderr w /\ written w' = written w) /\
    (t = Exit 0 ->
       exists prog path rest w1 self html,
         argv = prog :: path :: rest /\
         load_sarif (init path) w = (w1, self, true) /\
         render self = Ok html /\
         written w' = written w ++ [(output_path path rest, ""%string);
                                    (output_path path rest, html)] /\
         stderr w' = stderr w) /\
    (forall e, t = Crash e ->
       written w' = written w /\
       exists prog path rest w1 self,
         argv = prog :: path :: rest /\
         load_sarif (init path) w = (w1, self, true) /\
         render self = Raise e).
Proof.
  destruct argv as [|prog [|path rest]].
  1,2: exists (usage w), (Exit 1); (split; [reflexivity|]);
       (split; [intros s Hs; injection Hs as <-; lia|]);
       (split; [now left|]);
       (split; [intros _; split; [reflexivity|]; split;
                  [unfold usage, usage_lines; simpl; rewrite <- !app_assoc;
                   reflexivity|split; reflexivity]|]);
       (split; [discriminate|]); intros e He; discriminate He.
  assert (Hshort : ~ List.length (prog :: path :: rest) < 2)
    by (simpl; lia).
  destruct (load_sarif (init path) w) as [[w1 self] ok] eqn:Hl.
  destruct (load_sarif_effects _ _ _ _ _ Hl) as (Hw & Hp & He).
  destruct ok.
  2:{ unfold main. rewrite Hl. cbn [negb]. exists w1, (Exit 1).
      split; [reflexivity|].
      split; [intros s Hs; injection Hs as <-; lia|].
      split; [now left|]. split; [intros Hc; contradiction|].
      split; [discriminate|]. intros e Hc; discriminate Hc. }
  destruct (render self) as [html|e] eqn:Hh.
  2:{ unfold main. rewrite Hl. cbn [negb]. unfold generate_html. rewrite Hh.
      exists w1, (Crash e). split; [reflexivity|].
      split; [intros s Hs; discriminate Hs|].
      split; [now left|]. split; [intros Hc; contradiction|].
      split; [discriminate|].
      intros e' Hc. injection Hc as <-. split; [assumption|].
      exists prog, path, rest, w1, self. repeat split; assumption. }
  destruct (main_after_render prog path rest w w1 self html Hl Hh)
    as (w' & status & Hm & Hx).
  exists w', (Exit status). split; [assumption|].
  unfold write_outcome in Hx.
  destruct (open_text (output_path path rest)) as [u|e].
  2:{ destruct Hx as (Hx1 & Hx2 & ->).
      split; [intros s Hs; injection Hs as <-; lia|].
      split; [now left|]. split; [intros Hc; contradiction|].
      split; [discriminate|]. intros e' Hc; discriminate Hc. }
  destruct (write_text (output_path path rest) html) as [u'|e].
  - destruct Hx as (Hx1 & Hx2 & Hx3 & Hx4).
    split; [intros s Hs; injection Hs as <-; assumption|].
    split; [right; eauto|]. split; [intros Hc; contradiction|].
    split; [|intros e' Hc; discriminate Hc].
    intros _. exists prog, path, rest, w1, self, html.
    repeat split; assumption.
  - destruct Hx as (Hx1 & Hx2 & ->).
    split; [intros s Hs; injection Hs as <-; lia|].
    split; [right; eauto|]. split; [intros Hc; contradiction|].
    split; [discriminate|]. intros e' Hc; discriminate Hc.
Qed.

End RunsToEnd.

Lemma shaped_document_never_crashes_witness :
  exists w1 self html w' status,
    @load_sarif sample_document_platform (init "report.sarif") world0
      = (w1, self, true) /\
    @render sample_document_platform self = Ok html /\
    @main sample_document_platform
      ["sarif2html.py"; "report.sarif"]%string world0 = (w', Exit status) /\
    @write_outcome sample_document_platform world0 w'
      (@output_path sample_document_platform "report.sarif" []) html status.
Proof.
  apply (@shaped_document_never_crashes sample_document_platform
           "sarif2html.py" "report.sarif" [] world0 sample_document)%string;
    reflexivity.
Defined.
